(** * ArcDeploy mock API server: a shallow embedding of
      [mock-infrastructure/mock-api-server.py] and its verified properties.

    The Python program is embedded as follows.
    - JSON documents live in an object store ([heap]): dicts and lists are
      objects addressed by reference, so that the aliasing created by
      [dict.copy()] and by in-place assignment [obj[key] = v] is visible.
    - Effects (object store, random module, clocks, the rate limiter's
      table, the bytes written to the client) are threaded through a small
      state-and-exception monad.
    - [time.time()] is read as an exact rational number of seconds; the
      [random] module and the clocks are oracles of the environment. *)

From Stdlib Require Import ZArith QArith Lqa String Ascii List Bool Lia.
From stdpp Require Import base option list gmap strings.

Open Scope string_scope.
Open Scope list_scope.
Open Scope Z_scope.

(** ** Python values and the object store *)

(** Addresses of the object store. *)
Abbreviation loc := nat.

(** Immutable values are carried directly; dicts and lists are references. *)
Inductive value : Type :=
| VNone
| VBool (b : bool)
| VInt (n : Z)
| VFloat (q : Q)
| VStr (s : string)
| VRef (l : loc).

(** A dict keeps insertion order; its keys are pairwise distinct. *)
Inductive object : Type :=
| ODict (items : list (string * value))
| OList (elems : list value).

(** The object store: the object at address [l] is [h !! l]. *)
Abbreviation heap := (list object).

(** A JSON text, as [json.load] reads it and [json.dumps] writes it. *)
#[local] Set Warnings "-register-all".
Inductive json : Type :=
| JNull
| JBool (b : bool)
| JInt (n : Z)
| JFloat (q : Q)
| JStr (s : string)
| JArr (js : list json)
| JObj (kvs : list (string * json)).

(** ** Exceptions *)

Inductive exn : Type :=
| AttributeError (msg : string)
| TypeError (msg : string)
| IndexError (msg : string)
| KeyError (key : string)
| RecursionError
| ValueError (msg : string)
| NotADirectoryError (path : string)
| DanglingReference.

(** [except Exception] catches every exception a Python program can raise;
    [DanglingReference] is not one of them: it marks a store that no Python
    execution produces. *)
Definition is_Exception (e : exn) : bool :=
  match e with
  | DanglingReference => false
  | _ => true
  end.

(** [str(e)] *)
Definition exn_str (e : exn) : string :=
  match e with
  | AttributeError msg => msg
  | TypeError msg => msg
  | IndexError msg => msg
  | KeyError key => "'" +:+ key +:+ "'"
  | RecursionError => "maximum recursion depth exceeded"
  | ValueError msg => msg
  | NotADirectoryError path =>
      "[Errno 20] Not a directory: '" +:+ path +:+ "'"
  | DanglingReference => ""
  end.

(** ** The state-and-exception monad *)

Inductive result (A : Type) : Type :=
| Ok (a : A)
| Raise (e : exn).
Arguments Ok {A} a.
Arguments Raise {A} e.

Definition M (S A : Type) : Type := S -> result A * S.

Definition ret {S A} (a : A) : M S A := fun s => (Ok a, s).

Definition raise {S A} (e : exn) : M S A := fun s => (Raise e, s).

Definition bind {S A B} (m : M S A) (f : A -> M S B) : M S B :=
  fun s =>
    match m s with
    | (Ok a, s') => f a s'
    | (Raise e, s') => (Raise e, s')
    end.

Definition gets {S A} (f : S -> A) : M S A := fun s => (Ok (f s), s).

Definition modify {S} (f : S -> S) : M S unit := fun s => (Ok tt, f s).

(** [try: body except Exception as e: handler(e)] *)
Definition try_except {S A} (body : M S A) (handler : exn -> M S A) : M S A :=
  fun s =>
    match body s with
    | (Ok a, s') => (Ok a, s')
    | (Raise e, s') => if is_Exception e then handler e s' else (Raise e, s')
    end.

Declare Scope py_scope.
Delimit Scope py_scope with py.
Notation "x <- m ;; k" := (bind m (fun x => k))
  (at level 100, m at next level, right associativity) : py_scope.
Notation "m ;;; k" := (bind m (fun _ => k))
  (at level 100, right associativity) : py_scope.
Open Scope py_scope.

(** [for x in xs: body(x)] over a sequence fixed at loop entry. *)
Fixpoint for_each {S A} (xs : list A) (body : A -> M S unit) : M S unit :=
  match xs with
  | [] => ret tt
  | x :: rest => body x ;;; for_each rest body
  end.

(** The results of [f] on the items of [xs], in order. *)
Fixpoint map_m {S A B} (f : A -> M S B) (xs : list A) : M S (list B) :=
  match xs with
  | [] => ret []
  | x :: rest => y <- f x ;; ys <- map_m f rest ;; ret (y :: ys)
  end.

(** ** Strings and numbers of the Python runtime *)

Definition digit_char (d : Z) : ascii := ascii_of_nat (48 + Z.to_nat d).

Fixpoint digits_of (fuel : nat) (n : Z) (acc : string) : string :=
  let acc' := String (digit_char (n mod 10)) acc in
  match fuel with
  | O => acc'
  | S f => if n / 10 =? 0 then acc' else digits_of f (n / 10) acc'
  end.

(** [str(n)] for an [int]: decimal, no leading zeros, a sign when negative. *)
Definition str_Z (n : Z) : string :=
  if n <? 0 then "-" +:+ digits_of (Z.to_nat (Z.log2 (- n))) (- n) ""
  else digits_of (Z.to_nat (Z.log2 n)) n "".

(** [int(x)] for a [float]: truncation towards zero. *)
Definition int_of_Q (x : Q) : Z := Z.quot (Qnum x) (Z.pos (Qden x)).

(** [a < b] on floats. *)
Definition Qltb (a b : Q) : bool := negb (Qle_bool b a).

Fixpoint lstrip (c : ascii) (s : string) : string :=
  match s with
  | String a t => if Ascii.eqb a c then lstrip c t else s
  | EmptyString => EmptyString
  end.

Fixpoint string_rev_onto (s acc : string) : string :=
  match s with
  | String a t => string_rev_onto t (String a acc)
  | EmptyString => acc
  end.

(** [s.strip(c)] for a one-character [c]. *)
Definition strip (c : ascii) (s : string) : string :=
  string_rev_onto (lstrip c (string_rev_onto (lstrip c s) "")) "".

(** [s.split(c)]: always at least one segment. *)
Fixpoint split (c : ascii) (s : string) : list string :=
  match s with
  | EmptyString => [""]
  | String a t =>
      if Ascii.eqb a c then "" :: split c t
      else match split c t with
           | seg :: rest => String a seg :: rest
           | [] => [String a ""]
           end
  end.

(** [s.endswith(suffix)] *)
Definition ends_with (suffix s : string) : bool :=
  (String.length suffix <=? String.length s)%nat
  && String.eqb (String.substring (String.length s - String.length suffix)
                                  (String.length suffix) s) suffix.

(** [s[:-n]] for a positive [n] *)
Definition drop_last (n : nat) (s : string) : string :=
  String.substring 0 (String.length s - n) s.

(** [os.path.join(a, b)] for a relative [b] *)
Definition path_join (a b : string) : string :=
  if String.eqb a "" then b
  else if ends_with "/" a then a +:+ b
  else a +:+ "/" +:+ b.

(** ** Configuration ([MockAPIConfig]) *)

Record MockAPIConfig : Type := {
  port : Z;
  host : string;
  response_delay_min : Q;
  response_delay_max : Q;
  failure_rate : Q;
  rate_limit_requests : Z;
  rate_limit_window : Z;
  test_data_dir : string
}.

(** ** The environment of a run *)

Record environment : Type := {
  (** raw output of the [k]-th use of the [random] module *)
  rand : nat -> N;
  (** [time.time()] at the [k]-th reading of a clock *)
  wall_clock : nat -> Q;
  (** [datetime.utcnow().isoformat()] at the [k]-th reading of a clock *)
  utc_iso : nat -> string;
  (** [len(json.dumps(data, indent=2).encode('utf-8'))] *)
  json_dumps_len : json -> nat;
  (** how many nested calls the interpreter still allows a handler *)
  recursion_limit : nat
}.

(** ** Interpreter state and server state *)

Record pystate : Type := {
  py_heap : heap;
  rand_pos : nat;
  clock_pos : nat
}.

(** What [send_json_response] writes to the client. *)
Record response : Type := {
  resp_status : Z;
  resp_headers : list (string * string);
  resp_body : json
}.

Record world : Type := {
  py : pystate;
  (** [RateLimiter.requests] *)
  requests : gmap string (list Q);
  (** everything written to [wfile], oldest first *)
  wfile : list response
}.

Definition lift_py {A} (m : M pystate A) : M world A :=
  fun w =>
    let (r, s') := m (py w) in
    (r, {| py := s'; requests := requests w; wfile := wfile w |}).

Section Server.

Variable env : environment.
Variable config : MockAPIConfig.

(** *** Clocks and the [random] module *)

Definition tick : M pystate nat :=
  fun s => (Ok (clock_pos s),
            {| py_heap := py_heap s; rand_pos := rand_pos s;
               clock_pos := S (clock_pos s) |}).

(** [time.time()] *)
Definition time_time : M pystate Q :=
  k <- tick ;; ret (wall_clock env k).

(** [time.sleep(secs)]: the pause itself shows in the clocks only; a
    negative length is refused. *)
Definition time_sleep (secs : Q) : M pystate unit :=
  if Qltb secs 0 then raise (ValueError "sleep length must be non-negative")
  else ret tt.

(** [datetime.utcnow().isoformat()] *)
Definition utcnow_isoformat : M pystate string :=
  k <- tick ;; ret (utc_iso env k).

Definition draw : M pystate N :=
  fun s => (Ok (rand env (rand_pos s)),
            {| py_heap := py_heap s; rand_pos := S (rand_pos s);
               clock_pos := clock_pos s |}).

(** [random.random()]: a float in [0, 1) with 53 random bits. *)
Definition random_random : M pystate Q :=
  r <- draw ;; ret (Z.of_N (r mod 2 ^ 53)%N # 2 ^ 53).

(** [random.uniform(a, b)] *)
Definition random_uniform (a b : Q) : M pystate Q :=
  u <- random_random ;; ret (a + (b - a) * u)%Q.

(** [random.randint(a, b)], both ends included. *)
Definition random_randint (a b : Z) : M pystate Z :=
  r <- draw ;; ret (a + Z.of_N r mod (b - a + 1)).

(** [random.choice(seq)] for a non-empty sequence. *)
Definition random_choice {A} (d : A) (seq : list A) : M pystate A :=
  r <- draw ;; ret (nth (N.to_nat r mod List.length seq)%nat seq d).

(** ** Rate limiting ([RateLimiter]) *)

Definition set_requests (reqs : gmap string (list Q)) : M world unit :=
  modify (fun w => {| py := py w; requests := reqs; wfile := wfile w |}).

Definition is_rate_limited (client_ip : string) : M world bool :=
  now <- lift_py time_time ;;
  let window_start := (now - inject_Z (rate_limit_window config))%Q in
  reqs <- gets requests ;;
  let reqs :=
    match reqs !! client_ip with
    | None => <[client_ip := []]> reqs
    | Some _ => reqs
    end in
  (* Clean old requests *)
  let kept := List.filter (fun req_time => Qltb window_start req_time)
                          (default [] (reqs !! client_ip)) in
  let reqs := <[client_ip := kept]> reqs in
  (* Check if rate limited *)
  if rate_limit_requests config <=? Z.of_nat (List.length kept) then
    set_requests reqs ;;; ret true
  else
    (* Add current request *)
    set_requests (<[client_ip := kept ++ [now]]> reqs) ;;; ret false.

Record rate_info : Type := {
  ri_limit : Z;
  ri_remaining : Z;
  ri_reset : Z
}.

Definition get_rate_limit_info (client_ip : string) : M world rate_info :=
  reqs <- gets requests ;;
  let current_count := Z.of_nat (List.length (default [] (reqs !! client_ip))) in
  let remaining := Z.max 0 (rate_limit_requests config - current_count) in
  now <- lift_py time_time ;;
  let reset_time := int_of_Q (now + inject_Z (rate_limit_window config))%Q in
  ret {| ri_limit := rate_limit_requests config;
         ri_remaining := remaining;
         ri_reset := reset_time |}.

(** ** The object store *)

Definition set_heap (h : heap) : M pystate unit :=
  modify (fun s => {| py_heap := h; rand_pos := rand_pos s;
                      clock_pos := clock_pos s |}).

Definition deref (l : loc) : M pystate object :=
  fun s =>
    match py_heap s !! l with
    | Some o => (Ok o, s)
    | None => (Raise DanglingReference, s)
    end.

(** A new object gets the next free address. *)
Definition alloc (o : object) : M pystate value :=
  h <- gets py_heap ;;
  set_heap (h ++ [o]) ;;;
  ret (VRef (List.length h)).

Definition store (l : loc) (o : object) : M pystate unit :=
  h <- gets py_heap ;; set_heap (<[l := o]> h).

Fixpoint dict_get (items : list (string * value)) (key : string)
  : option value :=
  match items with
  | [] => None
  | (k, v) :: rest => if String.eqb k key then Some v else dict_get rest key
  end.

(** [key in d] *)
Definition dict_has (items : list (string * value)) (key : string) : bool :=
  match dict_get items key with
  | Some _ => true
  | None => false
  end.

(** The items of [d] after [d[key] = v]: an existing key keeps its place. *)
Fixpoint dict_set (items : list (string * value)) (key : string) (v : value)
  : list (string * value) :=
  match items with
  | [] => [(key, v)]
  | (k, v') :: rest =>
      if String.eqb k key then (k, v) :: rest
      else (k, v') :: dict_set rest key v
  end.

(** [obj[key]] on a dict *)
Definition getitem (l : loc) (key : string) : M pystate value :=
  o <- deref l ;;
  match o with
  | ODict items =>
      match dict_get items key with
      | Some v => ret v
      | None => raise (KeyError key)
      end
  | OList _ => raise (TypeError "list indices must be integers or slices, not str")
  end.

(** [obj[key] = v] on a dict *)
Definition setitem (l : loc) (key : string) (v : value) : M pystate unit :=
  o <- deref l ;;
  match o with
  | ODict items => store l (ODict (dict_set items key v))
  | OList _ => raise (TypeError "list indices must be integers or slices, not str")
  end.

(** [bool(v)] *)
Definition truthy (v : value) : M pystate bool :=
  match v with
  | VNone => ret false
  | VBool b => ret b
  | VInt n => ret (negb (n =? 0))
  | VFloat q => ret (negb (Qeq_bool q 0))
  | VStr s => ret (negb (String.eqb s ""))
  | VRef l =>
      o <- deref l ;;
      match o with
      | ODict items => ret (negb (Nat.eqb (List.length items) 0))
      | OList elems => ret (negb (Nat.eqb (List.length elems) 0))
      end
  end.

(** [isinstance(v, (dict, list))] *)
Definition is_container (v : value) : bool :=
  match v with
  | VRef _ => true
  | _ => false
  end.

(** [type(v).__name__] of an immutable value *)
Definition scalar_type_name (v : value) : string :=
  match v with
  | VNone => "NoneType"
  | VBool _ => "bool"
  | VInt _ => "int"
  | VFloat _ => "float"
  | VStr _ => "str"
  | VRef _ => "object"
  end.

(** [v.copy()]: dicts and lists have a shallow [copy]; nothing else has. *)
Definition copy (v : value) : M pystate value :=
  match v with
  | VRef l => o <- deref l ;; alloc o
  | _ => raise (AttributeError
                  ("'" +:+ scalar_type_name v +:+
                   "' object has no attribute 'copy'"))
  end.

(** What [json.dumps] sees of [v]: the document below it, read out of the
    store. No result when the nesting exceeds [fuel]. *)
Fixpoint reify (fuel : nat) (h : heap) (v : value) : option json :=
  match v with
  | VNone => Some JNull
  | VBool b => Some (JBool b)
  | VInt n => Some (JInt n)
  | VFloat q => Some (JFloat q)
  | VStr s => Some (JStr s)
  | VRef l =>
      match fuel with
      | O => None
      | S f =>
          match h !! l with
          | Some (ODict items) =>
              JObj <$> mapM (fun kv : string * value =>
                               pair kv.1 <$> reify f h kv.2) items
          | Some (OList elems) => JArr <$> mapM (reify f h) elems
          | None => None
          end
      end
  end.

(** [json.dumps(data, indent=2)], up to the concrete syntax *)
Definition json_dumps (data : value) : M pystate json :=
  h <- gets py_heap ;;
  match reify (recursion_limit env) h data with
  | Some j => ret j
  | None => raise RecursionError
  end.

(** [json.load(f)]: the parsed document, built in the store bottom-up,
    the members of a container before the container. *)
Fixpoint json_load (j : json) : M pystate value :=
  match j with
  | JNull => ret VNone
  | JBool b => ret (VBool b)
  | JInt n => ret (VInt n)
  | JFloat q => ret (VFloat q)
  | JStr s => ret (VStr s)
  | JArr js =>
      elems <- map_m json_load js ;;
      alloc (OList elems)
  | JObj kvs =>
      items <- map_m (fun kv : string * json =>
                        v <- json_load kv.2 ;; ret (kv.1, v)) kvs ;;
      alloc (ODict items)
  end.

(** ** Mock response generator ([MockResponseGenerator]) *)

(** [d.get(key)] on the items of a dict in insertion order, and the
    lookup of a name in a directory listing. *)
Fixpoint assoc {A} (key : string) (d : list (string * A)) : option A :=
  match d with
  | [] => None
  | (k, a) :: rest => if String.eqb k key then Some a else assoc key rest
  end.

(** What a path names: a file, with the document that [json.load] returns
    for it (none when [open] or [json.load] raises), or a directory, with
    the names that [os.listdir] returns, in its order, and what each of
    them names. *)
Inductive node : Type :=
| File (parsed : option json)
| Dir (entries : list (string * node)).

(** The loop over [os.listdir(api_responses_dir)]: the files whose name
    ends in [.json] are loaded under their name without the extension; a
    file on which [open] or [json.load] raises is logged and left out. The
    names of a listing are pairwise distinct, so every assignment adds a
    key. *)
Fixpoint load_scenarios (files : list (string * node))
  : M pystate (list (string * value)) :=
  match files with
  | [] => ret []
  | (response_file, n) :: rest =>
      if ends_with ".json" response_file then
        (* Remove .json extension *)
        let response_name := drop_last 5 response_file in
        match n with
        | File (Some j) =>
            v <- json_load j ;;
            vs <- load_scenarios rest ;;
            ret ((response_name, v) :: vs)
        | File None | Dir _ => load_scenarios rest
        end
      else load_scenarios rest
  end.

(** The loop over [os.listdir(cloud_providers_dir)]: an entry that is not a
    directory is skipped; a provider directory gets an entry, empty when it
    has no [api-responses]; [os.listdir] raises on an [api-responses] that
    is not a directory. *)
Fixpoint load_providers (cloud_providers_dir : string)
    (entries : list (string * node))
  : M pystate (list (string * list (string * value))) :=
  match entries with
  | [] => ret []
  | (provider, n) :: rest =>
      let provider_dir := path_join cloud_providers_dir provider in
      match n with
      | File _ => load_providers cloud_providers_dir rest
      | Dir sub =>
          let api_responses_dir := path_join provider_dir "api-responses" in
          scenarios <- match assoc "api-responses" sub with
                       | None => ret []
                       | Some (File _) =>
                           raise (NotADirectoryError api_responses_dir)
                       | Some (Dir files) => load_scenarios files
                       end ;;
          others <- load_providers cloud_providers_dir rest ;;
          ret ((provider, scenarios) :: others)
      end
  end.

(** Load test data from files. [fs path] is what [path] names, nothing
    when [os.path.exists(path)] is false. *)
Definition load_test_data (fs : string -> option node)
  : M pystate (list (string * list (string * value))) :=
  let cloud_providers_dir :=
    path_join (test_data_dir config) "cloud-providers" in
  match fs cloud_providers_dir with
  | None => ret []
  | Some (File _) => raise (NotADirectoryError cloud_providers_dir)
  | Some (Dir entries) => load_providers cloud_providers_dir entries
  end.

(** [self.responses]: provider, then scenario, then the loaded document.
    Built once by [load_test_data]; only the documents are mutable. *)
Variable responses : list (string * list (string * value)).

Definition timestamp_keys : list string :=
  ["timestamp"; "created"; "started"; "finished"].

Definition in_keys (key : string) (keys : list string) : bool :=
  existsb (String.eqb key) keys.

(** Recursively update timestamp fields. A dict's keys are fixed at loop
    entry (no key is added or removed here); each value is read from the
    store when the loop reaches its key. *)
Fixpoint update_timestamps (depth : nat) (obj : value) (timestamp : string)
  : M pystate unit :=
  match depth with
  | O => raise RecursionError
  | S depth' =>
      match obj with
      | VRef l =>
          o <- deref l ;;
          match o with
          | ODict items =>
              for_each (map fst items) (fun key =>
                value <- getitem l key ;;
                nonempty <- (if in_keys key timestamp_keys then truthy value
                             else ret false) ;;
                if in_keys key timestamp_keys && nonempty then
                  setitem l key (VStr timestamp)
                else if is_container value then
                  update_timestamps depth' value timestamp
                else ret tt)
          | OList elems =>
              for_each elems (fun item =>
                update_timestamps depth' item timestamp)
          end
      | _ => ret tt
      end
  end.

(** Update request ID with random value. *)
Fixpoint update_request_id (depth : nat) (obj : value) : M pystate unit :=
  match depth with
  | O => raise RecursionError
  | S depth' =>
      match obj with
      | VRef l =>
          o <- deref l ;;
          match o with
          | ODict items =>
              for_each (map fst items) (fun key =>
                value <- getitem l key ;;
                if String.eqb key "request_id" then
                  n <- random_randint 100000 999999 ;;
                  setitem l key (VStr ("req_" +:+ str_Z n))
                else if is_container value then
                  update_request_id depth' value
                else ret tt)
          | OList elems =>
              for_each elems (fun item => update_request_id depth' item)
          end
      | _ => ret tt
      end
  end.

(** Deep update of nested dictionaries. *)
Fixpoint deep_update (depth : nat) (obj : value) (key : string) (v : value)
  : M pystate unit :=
  match depth with
  | O => raise RecursionError
  | S depth' =>
      match obj with
      | VRef l =>
          o <- deref l ;;
          match o with
          | ODict items =>
              (if dict_has items key then setitem l key v else ret tt) ;;;
              for_each (map fst items) (fun k =>
                child <- getitem l k ;;
                if is_container child then deep_update depth' child key v
                else ret tt)
          | OList elems =>
              for_each elems (fun item => deep_update depth' item key v)
          end
      | _ => ret tt
      end
  end.

(** Generate standardized error response. *)
Definition generate_error_response (status_code : Z)
    (error_code message : string) : M pystate value :=
  error <- alloc (ODict [("code", VStr error_code);
                         ("message", VStr message);
                         ("status_code", VInt status_code)]) ;;
  n <- random_randint 100000 999999 ;;
  iso <- utcnow_isoformat ;;
  meta <- alloc (ODict [("request_id", VStr ("req_error_" +:+ str_Z n));
                        ("timestamp", VStr (iso +:+ "+00:00"));
                        ("api_version", VStr "v1")]) ;;
  alloc (ODict [("error", error); ("meta", meta)]).

(** Customize response with dynamic data. *)
Definition customize_response (response : value)
    (kwargs : list (string * value)) : M pystate value :=
  (* Update timestamps *)
  iso <- utcnow_isoformat ;;
  let now := iso +:+ "+00:00" in
  update_timestamps (recursion_limit env) response now ;;;
  (* Update request ID *)
  update_request_id (recursion_limit env) response ;;;
  (* Apply customizations from kwargs *)
  for_each kwargs (fun kv =>
    deep_update (recursion_limit env) response kv.1 kv.2) ;;;
  ret response.

(** Get mock response for a specific provider and scenario. *)
Definition get_response (provider scenario : string)
    (kwargs : list (string * value)) : M pystate value :=
  match assoc provider responses with
  | None =>
      generate_error_response 404 "provider_not_found"
        ("Provider '" +:+ provider +:+ "' not supported")
  | Some scenarios =>
      match assoc scenario scenarios with
      | None =>
          generate_error_response 404 "scenario_not_found"
            ("Scenario '" +:+ scenario +:+ "' not found for provider '"
             +:+ provider +:+ "'")
      | Some template =>
          response <- copy template ;;
          (* Customize response with dynamic data *)
          customize_response response kwargs
      end
  end.

(** ** HTTP request handler ([MockAPIHandler]) *)

Inductive http_method : Type := GET | POST | PUT | DELETE.

(** A request as the handler sees it: [client_address[0]], the path
    component of [urlparse(self.path)] and [parse_qs] of its query. *)
Record request : Type := {
  client_address : string;
  url_path : string;
  query_params : gmap string (list string)
}.

(** Handle test scenario requests. *)
Definition handle_test_scenarios (provider : string)
    (query : gmap string (list string)) : M pystate value :=
  available_scenarios <-
    alloc (OList (map (fun kv => VStr kv.1)
                      (default [] (assoc provider responses)))) ;;
  examples <-
    alloc (OList
      [VStr ("/" +:+ provider +:+ "/servers?scenario=rate-limit-exceeded");
       VStr ("/" +:+ provider +:+ "/servers?scenario=quota-exceeded");
       VStr ("/" +:+ provider +:+ "/servers?scenario=auth-failed")]) ;;
  alloc (ODict
    [("provider", VStr provider);
     ("available_scenarios", available_scenarios);
     ("usage",
      VStr "Add ?scenario=<scenario_name> to test specific scenarios");
     ("examples", examples)]).

Definition scenario_map : list (string * string) :=
  [("servers", "success-create-server");
   ("instances", "success-create-server");
   ("droplets", "success-create-server");
   ("create-server", "success-create-server");
   ("list-servers", "success-list-servers");
   ("server-status", "success-server-status")].

(** Route request to appropriate handler. *)
Definition route_request (provider action : string) (method : http_method)
    (query : gmap string (list string)) : M pystate value :=
  (* Special endpoints for testing different scenarios *)
  if String.eqb action "test-scenarios" then
    handle_test_scenarios provider query
  else
    (* Default routing based on action *)
    let scenario := default "success-create-server"
                            (assoc action scenario_map) in
    (* Check for specific test scenarios in query params *)
    scenario <- match query !! "scenario" with
                | Some (first :: _) => ret first
                | Some [] => raise (IndexError "list index out of range")
                | None => ret scenario
                end ;;
    get_response provider scenario [].

Definition write (r : response) : M world unit :=
  modify (fun w => {| py := py w; requests := requests w;
                      wfile := wfile w ++ [r] |}).

(** Send JSON response with proper headers. *)
Definition send_json_response (req : request) (status_code : Z)
    (data : value) : M world unit :=
  response_data <- lift_py (json_dumps data) ;;
  (* Add rate limit headers *)
  rate_info <- get_rate_limit_info (client_address req) ;;
  write {| resp_status := status_code;
           resp_headers :=
             [("Content-Type", "application/json");
              ("Content-Length",
               str_Z (Z.of_nat (json_dumps_len env response_data)));
              ("X-RateLimit-Limit", str_Z (ri_limit rate_info));
              ("X-RateLimit-Remaining", str_Z (ri_remaining rate_info));
              ("X-RateLimit-Reset", str_Z (ri_reset rate_info));
              (* CORS headers for browser testing *)
              ("Access-Control-Allow-Origin", "*");
              ("Access-Control-Allow-Methods",
               "GET, POST, PUT, DELETE, OPTIONS");
              ("Access-Control-Allow-Headers",
               "Content-Type, Authorization")];
           resp_body := response_data |}.

(** Send rate limit exceeded response. *)
Definition send_rate_limit_response (req : request) : M world unit :=
  response <- lift_py (get_response "hetzner" "rate-limit-exceeded" []) ;;
  send_json_response req 429 response.

Definition failures : list (Z * string * string) :=
  [(500, "internal_server_error", "Internal server error occurred");
   (503, "service_unavailable", "Service temporarily unavailable");
   (502, "bad_gateway", "Bad gateway error");
   (504, "gateway_timeout", "Gateway timeout")].

(** Send random failure response. *)
Definition send_random_failure_response (req : request) : M world unit :=
  choice <- lift_py (random_choice (500, "", "") failures) ;;
  let '(status_code, error_code, message) := choice in
  response <- lift_py (generate_error_response status_code error_code
                                               message) ;;
  send_json_response req status_code response.

(** The [try] block of [handle_request]. *)
Definition handle_request_route (method : http_method) (req : request)
  : M world unit :=
  (* Parse request *)
  let path_parts := split "/" (strip "/" (url_path req)) in
  (* Route request *)
  match path_parts with
  | provider :: action :: _ =>
      response <- lift_py (route_request provider action method
                                         (query_params req)) ;;
      send_json_response req 200 response
  | _ =>
      body <- lift_py (alloc (ODict
                [("error", VStr "Invalid API endpoint");
                 ("message",
                  VStr "Expected format: /{provider}/{action}")])) ;;
      send_json_response req 404 body
  end.

(** The [except Exception as e] clause of [handle_request]. *)
Definition handle_request_except (req : request) (e : exn) : M world unit :=
  body <- lift_py (alloc (ODict
            [("error", VStr "Internal server error");
             ("message", VStr (exn_str e))])) ;;
  send_json_response req 500 body.

(** Handle all HTTP requests. *)
Definition handle_request (method : http_method) (req : request)
  : M world unit :=
  let client_ip := client_address req in
  (* Add artificial delay *)
  delay <- lift_py (random_uniform (response_delay_min config)
                                   (response_delay_max config)) ;;
  lift_py (time_sleep delay) ;;;
  (* Check rate limiting *)
  limited <- is_rate_limited client_ip ;;
  if limited : bool then send_rate_limit_response req
  else
    (* Random failure simulation *)
    u <- lift_py random_random ;;
    if Qltb u (failure_rate config) then send_random_failure_response req
    else
      try_except (handle_request_route method req)
                 (handle_request_except req).

End Server.

(** * Notions used to state the properties *)

(** The timestamps recorded for a client ([self.requests.get(c, [])]). *)
Definition stored (w : world) (client_ip : string) : list Q :=
  default [] (requests w !! client_ip).

(** [t] lies within the trailing window of [window] seconds at [now]. *)
Definition in_window (window : Z) (now t : Q) : bool :=
  Qltb (now - inject_Z window)%Q t.

(** How many of the timestamps [l] lie within the trailing window at [now]. *)
Definition window_count (window : Z) (now : Q) (l : list Q) : Z :=
  Z.of_nat (List.length (List.filter (in_window window now) l)).

(** The world after one reading of a clock. *)
Definition ticked (w : world) : world :=
  {| py := {| py_heap := py_heap (py w); rand_pos := rand_pos (py w);
              clock_pos := S (clock_pos (py w)) |};
     requests := requests w; wfile := wfile w |}.

Definition with_requests (w : world) (reqs : gmap string (list Q)) : world :=
  {| py := py w; requests := reqs; wfile := wfile w |}.






(** [w] with timestamp [t] struck from what is recorded for [c]. *)
Definition without_timestamp (w : world) (c : string) (t : Q) : world :=
  with_requests w
    (<[c := List.filter (fun x => negb (Qeq_bool x t)) (stored w c)]>
       (requests w)).

(** The world after one use of the [random] module. *)
Definition drawn (w : world) : world :=
  {| py := {| py_heap := py_heap (py w); rand_pos := S (rand_pos (py w));
              clock_pos := clock_pos (py w) |};
     requests := requests w; wfile := wfile w |}.

(** The value of [random.random()] at the [k]-th use of the module. *)
Definition random_value (env : environment) (k : nat) : Q :=
  Z.of_N (rand env k mod 2 ^ 53)%N # 2 ^ 53.

(** The length of the sleep of a request that starts at the [k]-th use of
    the [random] module. *)
Definition sleep_length (env : environment) (config : MockAPIConfig)
    (k : nat) : Q :=
  (response_delay_min config
   + (response_delay_max config - response_delay_min config)
     * random_value env k)%Q.

(** Both ends of the delay range are non-negative: no sleep is refused. *)
Definition nonnegative_delays (config : MockAPIConfig) : Prop :=
  (0 <= response_delay_min config)%Q /\ (0 <= response_delay_max config)%Q.

(** The error envelope of [generate_error_response], as a JSON text. *)
Definition error_envelope (status_code : Z) (error_code message : string)
    (request_id timestamp : string) : json :=
  JObj [("error", JObj [("code", JStr error_code);
                        ("message", JStr message);
                        ("status_code", JInt status_code)]);
        ("meta", JObj [("request_id", JStr request_id);
                       ("timestamp", JStr timestamp);
                       ("api_version", JStr "v1")])].

(** The response that [send_json_response] writes for [body] when it
    reads the limiter's status in world [w]. *)
Definition response_at (env : environment) (config : MockAPIConfig)
    (req : request) (status_code : Z) (body : json) (w : world) : response :=
  {| resp_status := status_code;
     resp_headers :=
       [("Content-Type", "application/json");
        ("Content-Length", str_Z (Z.of_nat (json_dumps_len env body)));
        ("X-RateLimit-Limit", str_Z (rate_limit_requests config));
        ("X-RateLimit-Remaining",
         str_Z (Z.max 0 (rate_limit_requests config
                         - Z.of_nat (List.length
                                       (stored w (client_address req))))));
        ("X-RateLimit-Reset",
         str_Z (int_of_Q (wall_clock env (clock_pos (py w))
                          + inject_Z (rate_limit_window config))));
        ("Access-Control-Allow-Origin", "*");
        ("Access-Control-Allow-Methods", "GET, POST, PUT, DELETE, OPTIONS");
        ("Access-Control-Allow-Headers", "Content-Type, Authorization")];
     resp_body := body |}.

Definition written (w : world) (r : response) : world :=
  {| py := py w; requests := requests w; wfile := wfile w ++ [r] |}.

(** What a run of the handler may add to [wfile]: nothing, or one response
    built by [send_json_response] from the limiter's final table. *)
Definition emission (env : environment) (config : MockAPIConfig)
    (req : request) (w w' : world) : Prop :=
  exists new : list response,
    wfile w' = wfile w ++ new /\
    (List.length new <= 1)%nat /\
    forall r : response,
      In r new ->
      exists (w_a : world) (status_code : Z) (body : json),
        requests w_a = requests w' /\
        r = response_at env config req status_code body w_a.

(** The number that [random.randint(100000, 999999)] returns at the [k]-th
    use of the [random] module. *)
Definition request_number (env : environment) (k : nat) : Z :=
  100000 + Z.of_N (rand env k) mod (999999 - 100000 + 1).

(** The world after [generate_error_response] has built its three dicts. *)
Definition with_error_response (w : world) (status_code : Z)
    (error_code message request_id timestamp : string) : world :=
  {| py :=
       {| py_heap :=
            py_heap (py w) ++
            [ODict [("code", VStr error_code); ("message", VStr message);
                    ("status_code", VInt status_code)];
             ODict [("request_id", VStr request_id);
                    ("timestamp", VStr timestamp);
                    ("api_version", VStr "v1")];
             ODict [("error", VRef (List.length (py_heap (py w))));
                    ("meta", VRef (S (List.length (py_heap (py w)))))]];
          rand_pos := S (rand_pos (py w));
          clock_pos := S (clock_pos (py w)) |};
     requests := requests w; wfile := wfile w |}.

(** The handler answers a rejected request with the customized
    [hetzner]/[rate-limit-exceeded] fixture and status 429. *)
Definition answers_with_fixture (env : environment) (config : MockAPIConfig)
    (responses : list (string * list (string * value)))
    (method : http_method) (req : request) (w : world) : Prop :=
  exists (w2 w3 : world) (scenarios : list (string * value))
         (template data : value) (body : json),
    is_rate_limited env config (client_address req) (drawn w)
    = (Ok true, w2) /\
    assoc "hetzner" responses = Some scenarios /\
    assoc "rate-limit-exceeded" scenarios = Some template /\
    lift_py (response <- copy template ;;
             customize_response env response []) w2 = (Ok data, w3) /\
    reify (recursion_limit env) (py_heap (py w3)) data = Some body /\
    handle_request env config responses method req w
    = (Ok tt, written (ticked w3) (response_at env config req 429 body w3)).

(** ** Documents in the store *)

(** [bool(j)] for the Python value of a JSON text. *)
Definition json_truthy (j : json) : bool :=
  match j with
  | JNull => false
  | JBool b => b
  | JInt n => negb (n =? 0)
  | JFloat q => negb (Qeq_bool q 0)
  | JStr s => negb (String.eqb s "")
  | JArr js => negb (Nat.eqb (List.length js) 0)
  | JObj kvs => negb (Nat.eqb (List.length kvs) 0)
  end.

(** Not [null], and not an empty string, array or object. *)
Definition nonnull_nonempty (j : json) : Prop :=
  j <> JNull /\ j <> JStr "" /\ j <> JArr [] /\ j <> JObj [].

(** The JSON text of an immutable value. *)
Definition json_of_scalar (v : value) : option json :=
  match v with
  | VNone => Some JNull
  | VBool b => Some (JBool b)
  | VInt n => Some (JInt n)
  | VFloat q => Some (JFloat q)
  | VStr s => Some (JStr s)
  | VRef _ => None
  end.

(** Nesting of a document, counting the calls a traversal makes. *)
Fixpoint depth (j : json) : nat :=
  match j with
  | JArr js => S (list_max (map depth js))
  | JObj kvs => S (list_max (map (fun kv => depth kv.2) kvs))
  | _ => 1
  end.

(** The keys of every object are pairwise distinct, as in a Python dict. *)
Fixpoint wf_json (j : json) : bool :=
  match j with
  | JArr js => forallb wf_json js
  | JObj kvs =>
      bool_decide (NoDup (map fst kvs))
      && forallb (fun kv => wf_json kv.2) kvs
  | _ => true
  end.

Definition is_digit (a : ascii) : bool :=
  (48 <=? nat_of_ascii a)%nat && (nat_of_ascii a <=? 57)%nat.

Fixpoint all_digits (s : string) : bool :=
  match s with
  | EmptyString => true
  | String a rest => is_digit a && all_digits rest
  end.

(** [s] has the form [req_<6 digits>]. *)
Definition is_request_id (s : string) : bool :=
  match s with
  | String "r" (String "e" (String "q" (String "_" digits))) =>
      Nat.eqb (String.length digits) 6 && all_digits digits
  | _ => false
  end.

(** ** Induction on documents *)

Fixpoint json_ind' (P : json -> Prop)
    (Hnull : P JNull) (Hbool : forall b, P (JBool b))
    (Hint : forall n, P (JInt n)) (Hfloat : forall q, P (JFloat q))
    (Hstr : forall s, P (JStr s))
    (Harr : forall js, List.Forall P js -> P (JArr js))
    (Hobj : forall kvs, List.Forall (fun kv => P kv.2) kvs -> P (JObj kvs))
    (j : json) {struct j} : P j :=
  match j with
  | JNull => Hnull
  | JBool b => Hbool b
  | JInt n => Hint n
  | JFloat q => Hfloat q
  | JStr s => Hstr s
  | JArr js =>
      Harr js
        ((fix all (l : list json) : List.Forall P l :=
            match l with
            | [] => @List.Forall_nil _ P
            | x :: rest =>
                @List.Forall_cons _ P x rest
                  (json_ind' P Hnull Hbool Hint Hfloat Hstr Harr Hobj x)
                  (all rest)
            end) js)
  | JObj kvs =>
      Hobj kvs
        ((fix all (l : list (string * json))
            : List.Forall (fun kv => P kv.2) l :=
            match l with
            | [] => @List.Forall_nil _ (fun kv => P kv.2)
            | kv :: rest =>
                @List.Forall_cons _ (fun kv => P kv.2) kv rest
                  (json_ind' P Hnull Hbool Hint Hfloat Hstr Harr Hobj kv.2)
                  (all rest)
            end) kvs)
  end.

(** [customized now j j']: [j'] is [j] after the two rewrites. Top-down, in
    every object: a field with a timestamp key and a truthy value becomes
    [now]; a [request_id] field becomes a fresh [req_<6 digits>]; the value
    of any other field is rewritten in turn, as is every item of an array;
    immutable values stay. *)
Inductive customized (now : string) : json -> json -> Prop :=
| customized_null : customized now JNull JNull
| customized_bool b : customized now (JBool b) (JBool b)
| customized_int n : customized now (JInt n) (JInt n)
| customized_float q : customized now (JFloat q) (JFloat q)
| customized_str s : customized now (JStr s) (JStr s)
| customized_arr js js' :
    Forall2 (customized now) js js' ->
    customized now (JArr js) (JArr js')
| customized_obj kvs kvs' :
    Forall2
      (fun kv kv' : string * json =>
         kv'.1 = kv.1 /\
         ((in_keys kv.1 timestamp_keys && json_truthy kv.2 = true /\
           kv'.2 = JStr now) \/
          (in_keys kv.1 timestamp_keys && json_truthy kv.2 = false /\
           kv.1 = "request_id" /\
           exists id : string, kv'.2 = JStr id /\ is_request_id id = true) \/
          (in_keys kv.1 timestamp_keys && json_truthy kv.2 = false /\
           kv.1 <> "request_id" /\
           customized now kv.2 kv'.2)))
      kvs kvs' ->
    customized now (JObj kvs) (JObj kvs').

(** One traversal that rewrites the fields chosen by [rew] and descends
    into the others, which must satisfy [keep]. *)
Inductive walked (rew : string -> json -> json -> Prop)
    (keep : string -> json -> Prop) : json -> json -> Prop :=
| walked_scalar j :
    match j with JArr _ | JObj _ => False | _ => True end ->
    walked rew keep j j
| walked_arr js js' :
    Forall2 (walked rew keep) js js' ->
    walked rew keep (JArr js) (JArr js')
| walked_obj kvs kvs' :
    Forall2
      (fun kv kv' : string * json =>
         kv'.1 = kv.1 /\
         (rew kv.1 kv.2 kv'.2 \/
          (keep kv.1 kv.2 /\ walked rew keep kv.2 kv'.2)))
      kvs kvs' ->
    walked rew keep (JObj kvs) (JObj kvs').

(** [tree h lo hi v j]: in the store [h], the value [v] is the document
    [j], laid out as a tree: every dict and list of [v] sits at an address
    in [lo, hi), a container after its members, the members of a container
    one after the other. Such documents share nothing. *)
Inductive tree (h : heap) : nat -> nat -> value -> json -> Prop :=
| tree_scalar lo hi v j :
    json_of_scalar v = Some j -> (lo <= hi)%nat -> tree h lo hi v j
| tree_dict lo hi l items kvs :
    (l < hi)%nat ->
    h !! l = Some (ODict items) ->
    NoDup (map fst items) ->
    fields h lo l items kvs ->
    tree h lo hi (VRef l) (JObj kvs)
| tree_list lo hi l elems js :
    (l < hi)%nat ->
    h !! l = Some (OList elems) ->
    elements h lo l elems js ->
    tree h lo hi (VRef l) (JArr js)
with fields (h : heap)
  : nat -> nat -> list (string * value) -> list (string * json) -> Prop :=
| fields_nil lo hi : (lo <= hi)%nat -> fields h lo hi [] []
| fields_cons lo mid hi k v j items kvs :
    tree h lo mid v j ->
    fields h mid hi items kvs ->
    fields h lo hi ((k, v) :: items) ((k, j) :: kvs)
with elements (h : heap)
  : nat -> nat -> list value -> list json -> Prop :=
| elements_nil lo hi : (lo <= hi)%nat -> elements h lo hi [] []
| elements_cons lo mid hi v j elems js :
    tree h lo mid v j ->
    elements h mid hi elems js ->
    elements h lo hi (v :: elems) (j :: js).

Scheme tree_mut := Minimality for tree Sort Prop
  with fields_mut := Minimality for fields Sort Prop
  with elements_mut := Minimality for elements Sort Prop.

Definition with_heap (s : pystate) (h : heap) : pystate :=
  {| py_heap := h; rand_pos := rand_pos s; clock_pos := clock_pos s |}.

(** The common shape of [update_timestamps] and [update_request_id]:
    [choose key value] says whether the field is overwritten, and with what. *)
Fixpoint walk (choose : string -> value -> M pystate (option value))
    (depth : nat) (obj : value) : M pystate unit :=
  match depth with
  | O => raise RecursionError
  | S depth' =>
      match obj with
      | VRef l =>
          o <- deref l ;;
          match o with
          | ODict items =>
              for_each (map fst items) (fun key =>
                value <- getitem l key ;;
                choice <- choose key value ;;
                match choice with
                | Some v => setitem l key v
                | None =>
                    if is_container value then walk choose depth' value
                    else ret tt
                end)
          | OList elems => for_each elems (walk choose depth')
          end
      | _ => ret tt
      end
  end.

Definition choose_timestamp (timestamp : string) (key : string)
    (v : value) : M pystate (option value) :=
  nonempty <- (if in_keys key timestamp_keys then truthy v else ret false) ;;
  ret (if in_keys key timestamp_keys && nonempty
       then Some (VStr timestamp) else None).

Definition choose_request_id (env : environment) (key : string) (v : value)
  : M pystate (option value) :=
  if String.eqb key "request_id" then
    n <- random_randint env 100000 999999 ;;
    ret (Some (VStr ("req_" +:+ str_Z n)))
  else ret None.

(** A traversal by [walk choose] of a tree of nesting at most [fuel] ends,
    touches the tree only, and leaves a tree that [walked rew keep] relates
    to the first. *)
Definition walk_ok (choose : string -> value -> M pystate (option value))
    (rew : string -> json -> json -> Prop) (keep : string -> json -> Prop)
    (fuel : nat) : Prop :=
  forall (s : pystate) (lo hi : nat) (v : value) (j : json),
    tree (py_heap s) lo hi v j ->
    (depth j <= fuel)%nat ->
    exists (s' : pystate) (j' : json),
      walk choose fuel v s = (Ok tt, s') /\
      (forall l, ~ (lo <= l < hi)%nat -> py_heap s' !! l = py_heap s !! l) /\
      tree (py_heap s') lo hi v j' /\
      walked rew keep j j'.

(** What each of the two rewrites does to a field. *)
Definition rew_timestamp (now : string) (k : string) (j j' : json) : Prop :=
  in_keys k timestamp_keys && json_truthy j = true /\ j' = JStr now.

Definition keep_timestamp (k : string) (j : json) : Prop :=
  in_keys k timestamp_keys && json_truthy j = false.

Definition rew_request_id (k : string) (j j' : json) : Prop :=
  k = "request_id" /\
  exists id : string, j' = JStr id /\ is_request_id id = true.

Definition keep_request_id (k : string) (j : json) : Prop :=
  k <> "request_id".

(** [json_load j] run in [s] ends in [s'] with [v]: it only adds objects
    to the store, and [v] is the tree of [j] in the part added. *)
Definition loads (j : json) (s : pystate) (v : value) (s' : pystate) : Prop :=
  json_load j s = (Ok v, s') /\
  (exists added : list object, py_heap s' = py_heap s ++ added) /\
  rand_pos s' = rand_pos s /\
  clock_pos s' = clock_pos s /\
  tree (py_heap s') (List.length (py_heap s)) (List.length (py_heap s')) v j.

(** ** Sample runs *)

(** An environment whose clock reads the seconds [clock], then stays at the
    last of them. *)
Definition sample_env (clock : list Z) : environment :=
  {| rand := fun k => N.of_nat (7 * k);
     wall_clock := fun k => inject_Z (nth k clock (List.last clock 0));
     utc_iso := fun _ => "2024-05-01T12:00:00.000000";
     json_dumps_len := fun _ => 2%nat;
     recursion_limit := 64 |}.

(** An environment whose [k]-th clock reading is [k] seconds. *)
Definition steady_env : environment :=
  {| rand := fun k => N.of_nat (7 * k);
     wall_clock := fun k => inject_Z (Z.of_nat k);
     utc_iso := fun _ => "2024-05-01T12:00:00.000000";
     json_dumps_len := fun _ => 2%nat;
     recursion_limit := 64 |}.

(** The defaults of [MockAPIConfig.__init__], with no injected failures and
    the given [--rate-limit]. *)
Definition sample_config (rate_limit : Z) : MockAPIConfig :=
  {| port := 8888; host := "127.0.0.1";
     response_delay_min := 1 # 10; response_delay_max := 2;
     failure_rate := 0;
     rate_limit_requests := rate_limit; rate_limit_window := 3600;
     test_data_dir := "../test-data" |}.


Definition empty_world : world :=
  {| py := {| py_heap := []; rand_pos := 0; clock_pos := 0 |};
     requests := ∅; wfile := [] |}.

(** A client with two recorded requests, read at a clock showing 5000 s. *)
Definition aged_world : world :=
  {| py := {| py_heap := []; rand_pos := 0; clock_pos := 0 |};
     requests := {[ "10.0.0.1" := [inject_Z 0; inject_Z 4000] ]};
     wfile := [] |}.

Definition sample_request (path : string) : request :=
  {| client_address := "10.0.0.1"; url_path := path; query_params := ∅ |}.

(** A file system with [entries] in [../test-data/cloud-providers]. *)
Definition fs_with (entries : list (string * node))
  : string -> option node :=
  fun path =>
    if String.eqb path "../test-data/cloud-providers"
    then Some (Dir entries) else None.

(** One provider with two fixtures, beside a file that is no provider, a
    file that is no fixture, a fixture that does not parse and a provider
    without fixtures. *)
Definition sample_dirs : list (string * node) :=
  [("README.md", File None);
   ("hetzner",
    Dir [("api-responses",
          Dir [("success-create-server.json",
                File (Some
                  (JObj [("server",
                          JObj [("id", JInt 42);
                                ("name", JStr "arcdeploy-test");
                                ("created",
                                 JStr "2023-01-01T00:00:00+00:00")]);
                         ("action",
                          JObj [("started",
                                 JStr "2023-01-01T00:00:00+00:00");
                                ("finished", JNull); ("progress", JInt 0)]);
                         ("meta",
                          JObj [("request_id", JStr "req_000001")])])));
               ("notes.txt", File None);
               ("broken.json", File None);
               ("rate-limit-exceeded.json",
                File (Some
                  (JObj [("error",
                          JObj [("code", JStr "rate_limit_exceeded");
                                ("message", JStr "Rate limit exceeded")]);
                         ("meta",
                          JObj [("request_id", JStr "req_000002");
                                ("timestamp",
                                 JStr "2023-01-01T00:00:00+00:00")])])))]);
         ("error-scenarios", Dir [])])].

(** The store and the world right after [load_test_data]. *)
Definition sample_store : list (string * list (string * value)) :=
  match (load_test_data (sample_config 100) (fs_with sample_dirs)
                        (py empty_world)).1 with
  | Ok store => store
  | Raise _ => []
  end.

Definition sample_world : world :=
  {| py := (load_test_data (sample_config 100) (fs_with sample_dirs)
                           (py empty_world)).2;
     requests := ∅; wfile := [] |}.

(** A fixture with nested timestamps and request ids. *)
Definition sample_fixture : json :=
  JObj [("server",
         JObj [("id", JInt 42); ("name", JStr "arcdeploy-test");
               ("created", JStr "2023-01-01T00:00:00+00:00")]);
        ("actions",
         JArr [JObj [("started", JStr "2023-01-01T00:00:00+00:00");
                     ("finished", JNull); ("progress", JInt 0);
                     ("request_id", JStr "req_000003")]]);
        ("meta", JObj [("request_id", JStr "req_000001")])].

(** ** Notions for the further properties *)

(** The serving loop of [HTTPServer]: the requests are handled one after
    the other; an exception that escapes a handler is reported by the
    socket server and the loop goes on with the world the handler left. *)
Fixpoint serve_requests (env : environment) (config : MockAPIConfig)
    (responses : list (string * list (string * value)))
    (reqs : list (http_method * request)) (w : world) : world :=
  match reqs with
  | [] => w
  | (method, req) :: rest =>
      serve_requests env config responses rest
        (handle_request env config responses method req w).2
  end.

(** No client has more timestamps recorded than the limit allows. *)
Definition table_bounded (config : MockAPIConfig) (w : world) : Prop :=
  forall c : string,
    Z.of_nat (List.length (stored w c)) <= Z.max 0 (rate_limit_requests config).

(** [c in s] *)
Fixpoint has_char (c : ascii) (s : string) : bool :=
  match s with
  | EmptyString => false
  | String a rest => Ascii.eqb a c || has_char c rest
  end.

(** The world after one more object has been put in the store. *)
Definition allocated (w : world) (o : object) : world :=
  {| py := with_heap (py w) (py_heap (py w) ++ [o]);
     requests := requests w; wfile := wfile w |}.

(** The body that [handle_test_scenarios] builds for [provider]. *)
Definition discovery_body
    (responses : list (string * list (string * value))) (provider : string)
  : json :=
  JObj [("provider", JStr provider);
        ("available_scenarios",
         JArr (map (fun kv : string * value => JStr kv.1)
                   (default [] (assoc provider responses))));
        ("usage",
         JStr "Add ?scenario=<scenario_name> to test specific scenarios");
        ("examples",
         JArr [JStr ("/" +:+ provider
                     +:+ "/servers?scenario=rate-limit-exceeded");
               JStr ("/" +:+ provider +:+ "/servers?scenario=quota-exceeded");
               JStr ("/" +:+ provider +:+ "/servers?scenario=auth-failed")])].

(** The scenario that [route_request] looks up for an action other than
    [test-scenarios]; none when [query['scenario']] is an empty list. *)
Definition resolved_scenario (action : string)
    (query : gmap string (list string)) : option string :=
  match query !! "scenario" with
  | Some (first :: _) => Some first
  | Some [] => None
  | None => Some (default "success-create-server" (assoc action scenario_map))
  end.

(** The sample configuration started with [--failure-rate 1]. *)
Definition injecting_config (rate_limit : Z) : MockAPIConfig :=
  {| port := 8888; host := "127.0.0.1";
     response_delay_min := 1 # 10; response_delay_max := 2;
     failure_rate := 1;
     rate_limit_requests := rate_limit; rate_limit_window := 3600;
     test_data_dir := "../test-data" |}.

(** A request that names its scenario in the query. *)
Definition scenario_request (path scenario : string) : request :=
  {| client_address := "10.0.0.1"; url_path := path;
     query_params := {[ "scenario" := [scenario] ]} |}.

(** Fixture files that hold a bare JSON string and a bare number. *)
Definition scalar_dirs : list (string * node) :=
  [("hetzner",
    Dir [("api-responses",
          Dir [("success-create-server.json", File (Some (JStr "created")));
               ("rate-limit-exceeded.json", File (Some (JInt 429)))])])].

Definition scalar_store : list (string * list (string * value)) :=
  match (load_test_data (sample_config 100) (fs_with scalar_dirs)
                        (py empty_world)).1 with
  | Ok store => store
  | Raise _ => []
  end.

Definition scalar_world : world :=
  {| py := (load_test_data (sample_config 100) (fs_with scalar_dirs)
                           (py empty_world)).2;
     requests := ∅; wfile := [] |}.

(** The listings are ones that [os.listdir] can return, with documents that
    [json.load] can return: no name twice in a directory, no key twice in
    an object; and no [api-responses] is a plain file. *)
Definition wf_files (files : list (string * node)) : bool :=
  bool_decide (NoDup (map fst files))
  && forallb (fun f : string * node =>
                match f.2 with
                | File (Some j) => wf_json j
                | _ => true
                end) files.

Definition wf_provider (n : node) : bool :=
  match n with
  | File _ => true
  | Dir sub =>
      bool_decide (NoDup (map fst sub))
      && match assoc "api-responses" sub with
         | None => true
         | Some (File _) => false
         | Some (Dir files) => wf_files files
         end
  end.

Definition wf_dirs (entries : list (string * node)) : bool :=
  bool_decide (NoDup (map fst entries))
  && forallb (fun d : string * node => wf_provider d.2) entries.

(** The fixtures that the scan of an [api-responses] listing keeps, under
    the names it gives them. *)
Fixpoint kept_files (files : list (string * node)) : list (string * json) :=
  match files with
  | [] => []
  | (response_file, n) :: rest =>
      match n with
      | File (Some j) =>
          if ends_with ".json" response_file
          then (drop_last 5 response_file, j) :: kept_files rest
          else kept_files rest
      | _ => kept_files rest
      end
  end.

(** The providers that the scan of a [cloud-providers] listing keeps, with
    the fixtures of each. *)
Fixpoint kept_providers (entries : list (string * node))
  : list (string * list (string * json)) :=
  match entries with
  | [] => []
  | (provider, n) :: rest =>
      match n with
      | File _ => kept_providers rest
      | Dir sub =>
          (provider,
           match assoc "api-responses" sub with
           | Some (Dir files) => kept_files files
           | _ => []
           end) :: kept_providers rest
      end
  end.

(** ** Start-up ([MockAPIConfig.from_env] and [main]) *)

(** What start-up reads of the process: [os.getenv], the conversions
    [int(s)] and [float(s)] of a string (no result where Python raises
    [ValueError]), and the value of
    [os.path.join(os.path.dirname(__file__), '..', 'test-data')]. *)
Record process : Type := {
  getenv : string -> option string;
  py_int : string -> option Z;
  py_float : string -> option Q;
  default_test_data_dir : string
}.

(** The namespace that [parser.parse_args()] returns. *)
Record arguments : Type := {
  arg_host : string;
  arg_port : Z;
  arg_failure_rate : Q;
  arg_delay_min : Q;
  arg_delay_max : Q;
  arg_rate_limit : Z;
  arg_verbose : bool;
  arg_test_data_dir : option string
}.

(** [MockAPIConfig.__init__] *)
Definition MockAPIConfig_init (p : process) : MockAPIConfig :=
  {| port := 8888; host := "127.0.0.1";
     response_delay_min := 1 # 10; response_delay_max := 2;
     failure_rate := 1 # 10;
     rate_limit_requests := 100; rate_limit_window := 3600;
     test_data_dir := default_test_data_dir p |}.

(** [convert(os.getenv(name, current))]: the conversion leaves a value
    that is already a number as it is. *)
Definition getenv_as {A} (p : process) (convert : string -> option A)
    (name : string) (current : A) : option A :=
  match getenv p name with
  | Some s => convert s
  | None => Some current
  end.

(** Load configuration from environment variables; no result when a
    conversion raises. *)
Definition from_env (p : process) (self : MockAPIConfig)
  : option MockAPIConfig :=
  match getenv_as p (py_int p) "MOCK_API_PORT" (port self) with
  | None => None
  | Some port' =>
  let host' := default (host self) (getenv p "MOCK_API_HOST") in
  match getenv_as p (py_float p) "MOCK_API_DELAY_MIN"
                  (response_delay_min self) with
  | None => None
  | Some delay_min' =>
  match getenv_as p (py_float p) "MOCK_API_DELAY_MAX"
                  (response_delay_max self) with
  | None => None
  | Some delay_max' =>
  match getenv_as p (py_float p) "MOCK_API_FAILURE_RATE"
                  (failure_rate self) with
  | None => None
  | Some failure_rate' =>
      Some {| port := port'; host := host';
              response_delay_min := delay_min';
              response_delay_max := delay_max';
              failure_rate := failure_rate';
              rate_limit_requests := rate_limit_requests self;
              rate_limit_window := rate_limit_window self;
              test_data_dir := test_data_dir self |}
  end end end end.

(** The configuration that [main] hands to [MockAPIServer]. *)
Definition main_config (p : process) (args : arguments)
  : option MockAPIConfig :=
  (* Create configuration *)
  match from_env p (MockAPIConfig_init p) with
  | None => None
  | Some config =>
      Some {| host := arg_host args;
              port := arg_port args;
              failure_rate := arg_failure_rate args;
              response_delay_min := arg_delay_min args;
              response_delay_max := arg_delay_max args;
              rate_limit_requests := arg_rate_limit args;
              rate_limit_window := rate_limit_window config;
              test_data_dir :=
                match arg_test_data_dir args with
                | Some dir =>
                    if String.eqb dir "" then test_data_dir config else dir
                | None => test_data_dir config
                end |}
  end.

(** A process without [MOCK_API_*] variables, and one that sets a port and
    a failure rate. *)
Definition plain_process : process :=
  {| getenv := fun _ => None;
     py_int := fun s => if String.eqb s "9999" then Some 9999 else None;
     py_float := fun s => if String.eqb s "0.5" then Some (1 # 2) else None;
     default_test_data_dir := "../test-data" |}.

Definition configured_process : process :=
  {| getenv := fun name =>
       if String.eqb name "MOCK_API_PORT" then Some "9999"
       else if String.eqb name "MOCK_API_FAILURE_RATE" then Some "0.5"
       else None;
     py_int := fun s => if String.eqb s "9999" then Some 9999 else None;
     py_float := fun s => if String.eqb s "0.5" then Some (1 # 2) else None;
     default_test_data_dir := "../test-data" |}.

(** The defaults of the argument parser. *)
Definition default_arguments : arguments :=
  {| arg_host := "127.0.0.1"; arg_port := 8888;
     arg_failure_rate := 1 # 10;
     arg_delay_min := 1 # 10; arg_delay_max := 2;
     arg_rate_limit := 100; arg_verbose := false;
     arg_test_data_dir := None |}.

(** A loaded document: a tree in the store [h]. *)
Definition loaded (h : heap) (v : value) (j : json) : Prop :=
  exists lo hi : nat, (hi <= List.length h)%nat /\ tree h lo hi v j.

(** ** Overrides ([deep_update]) *)

(** The field [key] of a dict's items, or of an object's fields, set to
    [a]; the other fields as they are. *)
Definition replace_field {A} (key : string) (a : A) (kv : string * A)
  : string * A :=
  if String.eqb kv.1 key then (kv.1, a) else kv.

(** The document [j] in which every field named [key], at any depth, holds
    [jv]; what was nested under such a field is gone. *)
Fixpoint json_deep_update (key : string) (jv : json) (j : json) : json :=
  match j with
  | JArr js => JArr (map (json_deep_update key jv) js)
  | JObj kvs =>
      JObj (map (fun kv : string * json =>
                   if String.eqb kv.1 key then (kv.1, jv)
                   else (kv.1, json_deep_update key jv kv.2)) kvs)
  | _ => j
  end.

(** [deep_update] with the immutable value [v] on a tree of nesting at most
    [fuel] ends, touches the tree only, uses neither the clock nor the
    [random] module, and leaves the tree of the updated document. *)
Definition deep_ok (key : string) (v : value) (jv : json) (fuel : nat)
  : Prop :=
  forall (s : pystate) (lo hi : nat) (obj : value) (j : json),
    tree (py_heap s) lo hi obj j ->
    (depth j <= fuel)%nat ->
    exists s' : pystate,
      deep_update fuel obj key v s = (Ok tt, s') /\
      (forall l, ~ (lo <= l < hi)%nat -> py_heap s' !! l = py_heap s !! l) /\
      tree (py_heap s') lo hi obj (json_deep_update key jv j) /\
      rand_pos s' = rand_pos s /\ clock_pos s' = clock_pos s.

(** The JSON text of an immutable keyword argument. *)
Definition json_of_value (v : value) : json :=
  match json_of_scalar v with
  | Some j => j
  | None => JNull
  end.

(** The keyword arguments of [get_response], applied in their order. *)
Definition apply_overrides (kwargs : list (string * value)) (j : json)
  : json :=
  fold_left (fun (j : json) (kv : string * value) =>
               json_deep_update kv.1 (json_of_value kv.2) j) kwargs j.

(** Keyword arguments that a call of [get_response] can pass on to
    [customize_response]: no name twice, none named like a parameter of the
    two methods, every value immutable. *)
Definition valid_kwargs (kwargs : list (string * value)) : bool :=
  bool_decide (NoDup (map fst kwargs))
  && forallb (fun kv : string * value =>
                negb (in_keys kv.1 ["self"; "provider"; "scenario";
                                    "response"])
                && negb (is_container kv.2)) kwargs.

(** * Properties of the rate limiter *)

Section RateLimiterProperties.

Variable env : environment.
Variable config : MockAPIConfig.

Lemma Qltb_lt (a b : Q) : Qltb a b = true <-> (a < b)%Q.
Proof.
  unfold Qltb. rewrite negb_true_iff, <- not_true_iff_false, Qle_bool_iff.
  split; [apply Qnot_le_lt | apply Qlt_not_le].
Qed.

Lemma Qltb_ge (a b : Q) : Qltb a b = false <-> (b <= a)%Q.
Proof.
  unfold Qltb. rewrite negb_false_iff. apply Qle_bool_iff.
Qed.

(** One check, spelled out: prune, compare, and record only on admission. *)
Lemma is_rate_limited_step (c : string) (w : world) :
  let now := wall_clock env (clock_pos (py w)) in
  let kept := List.filter (in_window (rate_limit_window config) now)
                          (stored w c) in
  let limited := rate_limit_requests config <=? Z.of_nat (List.length kept) in
  is_rate_limited env config c w =
    (Ok limited,
     with_requests (ticked w)
       (<[c := if limited then kept else kept ++ [now]]> (requests w))).
Proof.
  intros now kept limited. subst now kept limited. unfold stored, in_window.
  cbv beta iota zeta delta
    [is_rate_limited bind lift_py time_time tick gets ret set_requests
     modify py requests wfile py_heap rand_pos clock_pos ticked
     with_requests].
  destruct w as [[h rp cp] reqs out].
  cbv beta iota zeta delta [py requests wfile py_heap rand_pos clock_pos].
  destruct (reqs !! c) as [l|] eqn:Hl.
  - rewrite Hl. cbn [default from_option]. unfold id.
    destruct (_ <=? _); [reflexivity|]. by rewrite insert_insert_eq.
  - rewrite lookup_insert_eq. cbn [default from_option]. unfold id.
    cbn [List.filter List.length app].
    rewrite !insert_insert_eq. destruct (_ <=? _); reflexivity.
Qed.

Lemma get_rate_limit_info_step (c : string) (w : world) :
  get_rate_limit_info env config c w =
    (Ok {| ri_limit := rate_limit_requests config;
           ri_remaining :=
             Z.max 0 (rate_limit_requests config
                      - Z.of_nat (List.length (stored w c)));
           ri_reset :=
             int_of_Q (wall_clock env (clock_pos (py w))
                       + inject_Z (rate_limit_window config)) |},
     ticked w).
Proof.
  destruct w as [[h rp cp] reqs out]. reflexivity.
Qed.

Lemma filter_in_window_idem (W : Z) (now : Q) (l : list Q) :
  List.filter (in_window W now) (List.filter (in_window W now) l)
  = List.filter (in_window W now) l.
Proof.
  induction l as [|x l IH]; [reflexivity|]. cbn [List.filter].
  destruct (in_window W now x) eqn:Hx; [|exact IH].
  cbn [List.filter]. rewrite Hx. by f_equal.
Qed.

Lemma in_window_now (W : Z) (now : Q) :
  0 < W -> in_window W now now = true.
Proof.
  intros HW. apply Qltb_lt.
  assert (0 < inject_Z W)%Q by (unfold Qlt; simpl; lia). lra.
Qed.


Lemma stored_with_requests_insert (w : world) (c : string) (l : list Q) :
  stored (with_requests (ticked w) (<[c := l]> (requests w))) c = l.
Proof.
  unfold stored, with_requests. cbn [requests]. by rewrite lookup_insert_eq.
Qed.


(** After a check at [now] everything recorded lies in the window at [now]. *)
Lemma stored_after_check_in_window (c : string) (w : world) :
  0 < rate_limit_window config ->
  let now := wall_clock env (clock_pos (py w)) in
  window_count (rate_limit_window config) now
    (stored (is_rate_limited env config c w).2 c)
  = Z.of_nat (List.length (stored (is_rate_limited env config c w).2 c)).
Proof.
  intros HW now. rewrite is_rate_limited_step. cbv zeta. fold now.
  cbn [snd]. rewrite stored_with_requests_insert.
  unfold window_count. f_equal. f_equal.
  destruct (_ <=? _).
  - apply filter_in_window_idem.
  - rewrite List.filter_app, filter_in_window_idem. cbn [List.filter].
    by rewrite in_window_now.
Qed.


Lemma aged_not_in_window (W : Z) (now t : Q) :
  (inject_Z W < now - t)%Q -> in_window W now t = false.
Proof. intros H. apply Qltb_ge. lra. Qed.

Lemma filter_in_window_without (W : Z) (now t : Q) (l : list Q) :
  (inject_Z W < now - t)%Q ->
  List.filter (in_window W now)
              (List.filter (fun x => negb (Qeq_bool x t)) l)
  = List.filter (in_window W now) l.
Proof.
  intros Hold. induction l as [|x l IH]; [reflexivity|]. cbn [List.filter].
  destruct (Qeq_bool x t) eqn:Hx; cbn [negb List.filter].
  - apply Qeq_bool_iff in Hx.
    assert (in_window W now x = false) as -> by (apply Qltb_ge; lra).
    exact IH.
  - rewrite IH. reflexivity.
Qed.

(** C3 (amended). The [remaining] that the status reports is
    [max(0, rate_limit_requests - n)] where [n] is the number of timestamps
    held for the client, and it is never negative. The status does not
    prune: [n] counts the timestamps that lay within the trailing window at
    the client's latest check (this one included when it was admitted), not
    at the instant of the report. *)
Theorem remaining_counts_recorded (c : string) (w : world) :
  0 < rate_limit_window config ->
  (exists info : rate_info,
     get_rate_limit_info env config c w = (Ok info, ticked w) /\
     ri_remaining info
     = Z.max 0 (rate_limit_requests config
                - Z.of_nat (List.length (stored w c))) /\
     0 <= ri_remaining info) /\
  (exists (limited : bool) (w1 : world) (info : rate_info),
     is_rate_limited env config c w = (Ok limited, w1) /\
     get_rate_limit_info env config c w1 = (Ok info, ticked w1) /\
     ri_remaining info
     = Z.max 0 (rate_limit_requests config
                - window_count (rate_limit_window config)
                    (wall_clock env (clock_pos (py w))) (stored w1 c))).
Proof.
  intros HW. split.
  - eexists. split; [apply get_rate_limit_info_step|].
    cbn [ri_remaining]. split; [reflexivity | lia].
  - pose proof (stored_after_check_in_window c w HW) as Hwin.
    cbv zeta in Hwin.
    destruct (is_rate_limited env config c w) as [r w1] eqn:Hr.
    rewrite is_rate_limited_step in Hr. cbv zeta in Hr.
    inversion Hr as [[Hlim Hw1]]. rewrite Hw1. cbn [snd] in Hwin.
    eexists _, w1, _. split; [reflexivity|].
    split; [apply get_rate_limit_info_step|].
    cbn [ri_remaining]. by rewrite Hwin.
Qed.


(** C8. A timestamp older than the window at the instant of a check is
    removed by that check: it is not among the timestamps kept, the verdict
    and the resulting state are those of a limiter that never held it, and
    the status computed next does not count it. *)
Theorem aged_request_not_counted (c : string) (w : world) (t : Q) :
  let now := wall_clock env (clock_pos (py w)) in
  let kept := List.filter (in_window (rate_limit_window config) now)
                          (stored w c) in
  (inject_Z (rate_limit_window config) < now - t)%Q ->
  exists (limited : bool) (w' : world) (info : rate_info),
    is_rate_limited env config c w = (Ok limited, w') /\
    stored w' c = kept ++ (if limited then [] else [now]) /\
    ~ In t kept /\
    limited = (rate_limit_requests config <=? Z.of_nat (List.length kept)) /\
    is_rate_limited env config c (without_timestamp w c t)
    = (Ok limited, w') /\
    get_rate_limit_info env config c w' = (Ok info, ticked w') /\
    ri_remaining info
    = Z.max 0 (rate_limit_requests config
               - Z.of_nat (List.length kept + (if limited then 0 else 1))).
Proof.
  intros now kept Hold. eexists _, _, _.
  split; [apply is_rate_limited_step|]. fold now kept.
  set (limited := rate_limit_requests config <=? _).
  split.
  { rewrite stored_with_requests_insert.
    destruct limited; [by rewrite app_nil_r | reflexivity]. }
  split.
  { intros Hin. apply List.filter_In in Hin as [_ Hin].
    by rewrite aged_not_in_window in Hin. }
  split; [reflexivity|]. split.
  { rewrite is_rate_limited_step. cbv zeta.
    assert (Hpy : py (without_timestamp w c t) = py w) by reflexivity.
    assert (Hst : stored (without_timestamp w c t) c
                  = List.filter (fun x => negb (Qeq_bool x t)) (stored w c)).
    { unfold without_timestamp, with_requests. unfold stored at 1.
      cbn [requests]. by rewrite lookup_insert_eq. }
    rewrite Hpy, Hst. fold now.
    rewrite (filter_in_window_without _ _ _ _ Hold). fold kept limited.
    unfold with_requests, ticked, without_timestamp, with_requests.
    cbn [py requests wfile]. by rewrite insert_insert_eq. }
  split; [apply get_rate_limit_info_step|].
  cbn [ri_remaining]. rewrite stored_with_requests_insert.
  subst limited. destruct (_ <=? _); [|rewrite List.length_app];
    cbn [List.length]; do 2 f_equal; lia.
Qed.

End RateLimiterProperties.

(** * Properties of the object store *)

Lemma deref_ok (l : loc) (o : object) (s : pystate) :
  py_heap s !! l = Some o -> deref l s = (Ok o, s).
Proof. unfold deref. by intros ->. Qed.

Lemma getitem_ok (l : loc) (items : list (string * value)) (key : string)
    (v : value) (s : pystate) :
  py_heap s !! l = Some (ODict items) ->
  dict_get items key = Some v ->
  getitem l key s = (Ok v, s).
Proof.
  intros Hl Hk. unfold getitem, bind. rewrite (deref_ok _ _ _ Hl).
  by rewrite Hk.
Qed.

Lemma setitem_ok (l : loc) (items : list (string * value)) (key : string)
    (v : value) (s : pystate) :
  py_heap s !! l = Some (ODict items) ->
  setitem l key v s
  = (Ok tt, with_heap s (<[l := ODict (dict_set items key v)]> (py_heap s))).
Proof.
  intros Hl. unfold setitem, bind. by rewrite (deref_ok _ _ _ Hl).
Qed.

Lemma dict_get_middle (pre rest : list (string * value)) (k : string)
    (v : value) :
  ~ In k (map fst pre) ->
  dict_get (pre ++ (k, v) :: rest) k = Some v.
Proof.
  induction pre as [|[k' v'] pre IH]; cbn [app dict_get map fst In].
  - intros _. by rewrite String.eqb_refl.
  - intros Hnot. destruct (String.eqb_spec k' k) as [->|_]; [tauto|].
    apply IH. tauto.
Qed.

Lemma dict_set_middle (pre rest : list (string * value)) (k : string)
    (v v' : value) :
  ~ In k (map fst pre) ->
  dict_set (pre ++ (k, v) :: rest) k v' = pre ++ (k, v') :: rest.
Proof.
  induction pre as [|[k0 v0] pre IH]; cbn [app dict_set map fst In].
  - intros _. by rewrite String.eqb_refl.
  - intros Hnot. destruct (String.eqb_spec k0 k) as [->|_]; [tauto|].
    f_equal. apply IH. tauto.
Qed.

Lemma NoDup_middle (pre rest : list (string * value)) (k : string)
    (v : value) :
  NoDup (map fst (pre ++ (k, v) :: rest)) -> ~ In k (map fst pre).
Proof.
  rewrite map_app. cbn [map fst]. intros Hnd Hin.
  apply NoDup_app in Hnd as (_ & Hdisj & _).
  apply (Hdisj k); [by apply list_elem_of_In | left].
Qed.

Lemma depth_pos (j : json) : (1 <= depth j)%nat.
Proof. destruct j; cbn [depth]; lia. Qed.

Lemma list_max_le_each (ns : list nat) (n : nat) :
  (list_max ns <= n)%nat -> forall m, In m ns -> (m <= n)%nat.
Proof.
  intros Hmax m Hin. apply List.list_max_le in Hmax.
  by apply (proj1 (List.Forall_forall _ _) Hmax).
Qed.

(** ** Trees *)

Lemma tree_fields_elements_frame (h : heap) :
  (forall lo hi v j,
     tree h lo hi v j ->
     forall h' : heap,
       (forall l, (lo <= l < hi)%nat -> h' !! l = h !! l) ->
       tree h' lo hi v j) /\
  (forall lo hi items kvs,
     fields h lo hi items kvs ->
     forall h' : heap,
       (forall l, (lo <= l < hi)%nat -> h' !! l = h !! l) ->
       fields h' lo hi items kvs) /\
  (forall lo hi elems js,
     elements h lo hi elems js ->
     forall h' : heap,
       (forall l, (lo <= l < hi)%nat -> h' !! l = h !! l) ->
       elements h' lo hi elems js).
Proof.
  assert (Hb :
    (forall lo hi v j, tree h lo hi v j -> (lo <= hi)%nat) /\
    (forall lo hi items kvs, fields h lo hi items kvs -> (lo <= hi)%nat) /\
    (forall lo hi elems js, elements h lo hi elems js -> (lo <= hi)%nat)).
  { repeat split.
    - apply (tree_mut h (fun lo hi _ _ => (lo <= hi)%nat)
               (fun lo hi _ _ => (lo <= hi)%nat)
               (fun lo hi _ _ => (lo <= hi)%nat)); intros; lia.
    - apply (fields_mut h (fun lo hi _ _ => (lo <= hi)%nat)
               (fun lo hi _ _ => (lo <= hi)%nat)
               (fun lo hi _ _ => (lo <= hi)%nat)); intros; lia.
    - apply (elements_mut h (fun lo hi _ _ => (lo <= hi)%nat)
               (fun lo hi _ _ => (lo <= hi)%nat)
               (fun lo hi _ _ => (lo <= hi)%nat)); intros; lia. }
  destruct Hb as (Hbt & Hbf & Hbe).
  set (P := fun lo hi v j =>
              forall h' : heap,
                (forall l, (lo <= l < hi)%nat -> h' !! l = h !! l) ->
                tree h' lo hi v j).
  set (P0 := fun lo hi items kvs =>
               forall h' : heap,
                 (forall l, (lo <= l < hi)%nat -> h' !! l = h !! l) ->
                 fields h' lo hi items kvs).
  set (P1 := fun lo hi elems js =>
               forall h' : heap,
                 (forall l, (lo <= l < hi)%nat -> h' !! l = h !! l) ->
                 elements h' lo hi elems js).
  assert (Hs : forall lo hi v j,
             json_of_scalar v = Some j -> (lo <= hi)%nat -> P lo hi v j)
    by (intros; intro; intros; by apply tree_scalar).
  assert (Hd : forall lo hi l items kvs,
             (l < hi)%nat -> h !! l = Some (ODict items) ->
             NoDup (map fst items) ->
             fields h lo l items kvs -> P0 lo l items kvs ->
             P lo hi (VRef l) (JObj kvs)).
  { intros lo hi l items kvs Hl Hh Hnd Hf IH h' Hag.
    pose proof (Hbf _ _ _ _ Hf).
    apply tree_dict with items; [done| |done|].
    - rewrite Hag; [done|lia].
    - apply IH. intros; apply Hag; lia. }
  assert (Hli : forall lo hi l elems js,
             (l < hi)%nat -> h !! l = Some (OList elems) ->
             elements h lo l elems js -> P1 lo l elems js ->
             P lo hi (VRef l) (JArr js)).
  { intros lo hi l elems js Hl Hh He IH h' Hag.
    pose proof (Hbe _ _ _ _ He).
    apply tree_list with elems; [done| |].
    - rewrite Hag; [done|lia].
    - apply IH. intros; apply Hag; lia. }
  assert (Hfn : forall lo hi, (lo <= hi)%nat -> P0 lo hi [] [])
    by (intros; intro; intros; by apply fields_nil).
  assert (Hfc : forall lo mid hi k v j items kvs,
             tree h lo mid v j -> P lo mid v j ->
             fields h mid hi items kvs -> P0 mid hi items kvs ->
             P0 lo hi ((k, v) :: items) ((k, j) :: kvs)).
  { intros lo mid hi k v j items kvs Ht IHt Hf IHf h' Hag.
    pose proof (Hbt _ _ _ _ Ht). pose proof (Hbf _ _ _ _ Hf).
    apply fields_cons with mid.
    - apply IHt. intros; apply Hag; lia.
    - apply IHf. intros; apply Hag; lia. }
  assert (Hen : forall lo hi, (lo <= hi)%nat -> P1 lo hi [] [])
    by (intros; intro; intros; by apply elements_nil).
  assert (Hec : forall lo mid hi v j elems js,
             tree h lo mid v j -> P lo mid v j ->
             elements h mid hi elems js -> P1 mid hi elems js ->
             P1 lo hi (v :: elems) (j :: js)).
  { intros lo mid hi v j elems js Ht IHt He IHe h' Hag.
    pose proof (Hbt _ _ _ _ Ht). pose proof (Hbe _ _ _ _ He).
    apply elements_cons with mid.
    - apply IHt. intros; apply Hag; lia.
    - apply IHe. intros; apply Hag; lia. }
  repeat split.
  - exact (tree_mut h P P0 P1 Hs Hd Hli Hfn Hfc Hen Hec).
  - exact (fields_mut h P P0 P1 Hs Hd Hli Hfn Hfc Hen Hec).
  - exact (elements_mut h P P0 P1 Hs Hd Hli Hfn Hfc Hen Hec).
Qed.

Lemma tree_frame (h h' : heap) (lo hi : nat) (v : value) (j : json) :
  tree h lo hi v j ->
  (forall l, (lo <= l < hi)%nat -> h' !! l = h !! l) ->
  tree h' lo hi v j.
Proof. intros Ht. by apply (proj1 (tree_fields_elements_frame h)). Qed.

Lemma fields_frame (h h' : heap) (lo hi : nat)
    (items : list (string * value)) (kvs : list (string * json)) :
  fields h lo hi items kvs ->
  (forall l, (lo <= l < hi)%nat -> h' !! l = h !! l) ->
  fields h' lo hi items kvs.
Proof.
  intros Hf. by apply (proj1 (proj2 (tree_fields_elements_frame h))).
Qed.

Lemma elements_frame (h h' : heap) (lo hi : nat) (elems : list value)
    (js : list json) :
  elements h lo hi elems js ->
  (forall l, (lo <= l < hi)%nat -> h' !! l = h !! l) ->
  elements h' lo hi elems js.
Proof.
  intros He. by apply (proj2 (proj2 (tree_fields_elements_frame h))).
Qed.

Lemma tree_bounds (h : heap) (lo hi : nat) (v : value) (j : json) :
  tree h lo hi v j -> (lo <= hi)%nat.
Proof.
  apply (tree_mut h (fun lo hi _ _ => (lo <= hi)%nat)
           (fun lo hi _ _ => (lo <= hi)%nat)
           (fun lo hi _ _ => (lo <= hi)%nat)); intros; lia.
Qed.

Lemma fields_bounds (h : heap) (lo hi : nat)
    (items : list (string * value)) (kvs : list (string * json)) :
  fields h lo hi items kvs -> (lo <= hi)%nat.
Proof.
  induction 1 as [|lo mid hi k v j items kvs Ht _ IH]; [done|].
  apply tree_bounds in Ht. lia.
Qed.

Lemma elements_bounds (h : heap) (lo hi : nat) (elems : list value)
    (js : list json) :
  elements h lo hi elems js -> (lo <= hi)%nat.
Proof.
  induction 1 as [|lo mid hi v j elems js Ht _ IH]; [done|].
  apply tree_bounds in Ht. lia.
Qed.

Lemma fields_length (h : heap) (lo hi : nat)
    (items : list (string * value)) (kvs : list (string * json)) :
  fields h lo hi items kvs ->
  List.length items = List.length kvs /\ map fst items = map fst kvs.
Proof.
  induction 1 as [|lo mid hi k v j items kvs _ _ [IH1 IH2]]; [done|].
  cbn. by rewrite IH1, IH2.
Qed.

Lemma elements_length (h : heap) (lo hi : nat) (elems : list value)
    (js : list json) :
  elements h lo hi elems js -> List.length elems = List.length js.
Proof.
  induction 1 as [|lo mid hi v j elems js _ _ IH]; [done|].
  cbn. by rewrite IH.
Qed.

(** [bool(v)] of a document in the store is that of its JSON text. *)
Lemma truthy_tree (s : pystate) (lo hi : nat) (v : value) (j : json) :
  tree (py_heap s) lo hi v j -> truthy v s = (Ok (json_truthy j), s).
Proof.
  inversion 1 as [? ? ? ? Hsc|? ? l items kvs ? Hl ? Hf|? ? l elems js ? Hl He];
    subst.
  - destruct v; inversion Hsc; reflexivity.
  - cbn [truthy]. unfold bind. rewrite (deref_ok _ _ _ Hl).
    apply fields_length in Hf as [-> _]. reflexivity.
  - cbn [truthy]. unfold bind. rewrite (deref_ok _ _ _ Hl).
    apply elements_length in He as ->. reflexivity.
Qed.

(** ** One traversal of a tree *)

Section Walk.

Variable choose : string -> value -> M pystate (option value).
Variable rew : string -> json -> json -> Prop.
Variable keep : string -> json -> Prop.

(** [choose] only reads the store; what it answers is either a new
    immutable value allowed by [rew], or nothing, and then [keep] holds. *)
Hypothesis choose_sound :
  forall (k : string) (v : value) (j : json) (s : pystate) (lo hi : nat),
    tree (py_heap s) lo hi v j ->
    exists (c : option value) (s' : pystate),
      choose k v s = (Ok c, s') /\
      py_heap s' = py_heap s /\
      match c with
      | Some v' => exists j', json_of_scalar v' = Some j' /\ rew k j j'
      | None => keep k j
      end.

Lemma walk_fields (f : nat) (l : loc) :
  walk_ok choose rew keep f ->
  forall (items : list (string * value)) (kvs : list (string * json))
         (mid : nat) (s : pystate) (pre : list (string * value)),
    fields (py_heap s) mid l items kvs ->
    py_heap s !! l = Some (ODict (pre ++ items)) ->
    NoDup (map fst (pre ++ items)) ->
    (forall kv, In kv kvs -> (depth kv.2 <= f)%nat) ->
    exists (s' : pystate) (items' : list (string * value))
           (kvs' : list (string * json)),
      for_each (map fst items)
        (fun key =>
           value <- getitem l key ;;
           choice <- choose key value ;;
           match choice with
           | Some v => setitem l key v
           | None =>
               if is_container value then walk choose f value else ret tt
           end) s = (Ok tt, s') /\
      (forall l', ~ (mid <= l' < l)%nat -> l' <> l ->
                  py_heap s' !! l' = py_heap s !! l') /\
      py_heap s' !! l = Some (ODict (pre ++ items')) /\
      map fst items' = map fst items /\
      fields (py_heap s') mid l items' kvs' /\
      Forall2
        (fun kv kv' : string * json =>
           kv'.1 = kv.1 /\
           (rew kv.1 kv.2 kv'.2 \/
            (keep kv.1 kv.2 /\ walked rew keep kv.2 kv'.2)))
        kvs kvs'.
Proof.
  intros IHf. induction items as [|[k v] items IH];
    intros kvs mid s pre Hf Hl Hnd Hdepth.
  - inversion Hf; subst. exists s, [], []. cbn [map for_each].
    repeat split; try done; by apply fields_nil.
  - inversion Hf as [|? mid' ? ? ? j ? kvs0 Ht Hrest]; subst.
    pose proof (tree_bounds _ _ _ _ _ Ht) as Hb1.
    pose proof (fields_bounds _ _ _ _ _ Hrest) as Hb2.
    pose proof (NoDup_middle _ _ _ _ Hnd) as Hfresh.
    pose proof (lookup_lt_Some _ _ _ Hl) as Hlt.
    cbn [map fst for_each]. unfold bind at 1. unfold bind at 1.
    rewrite (getitem_ok _ _ _ _ _ Hl (dict_get_middle _ _ _ _ Hfresh)).
    destruct (choose_sound k v j s mid mid' Ht)
      as (c & s1 & Hc & Hh1 & Hcase).
    unfold bind at 1. rewrite Hc.
    assert (Hkeys : forall v',
              map fst ((pre ++ [(k, v')]) ++ items)
              = map fst (pre ++ (k, v) :: items)).
    { intros v'. rewrite <- app_assoc. cbn [app].
      rewrite !map_app. reflexivity. }
    assert (Hd0 : forall kv, In kv kvs0 -> (depth kv.2 <= f)%nat)
      by (intros kv Hin; apply Hdepth; by right).
    destruct c as [v'|].
    + destruct Hcase as (j' & Hsc & Hrew).
      assert (Hl1 : py_heap s1 !! l = Some (ODict (pre ++ (k, v) :: items)))
        by (by rewrite Hh1).
      rewrite (setitem_ok _ _ _ _ _ Hl1), (dict_set_middle _ _ _ _ _ Hfresh).
      rewrite Hh1.
      set (s2 := with_heap s1 _).
      destruct (IH kvs0 mid' s2 (pre ++ [(k, v')]))
        as (s' & items' & kvs' & Hrun & Hfr & Hl' & Hk' & Hf' & Hall).
      * apply (fields_frame (py_heap s)); [done|].
        intros l' Hl'. cbn [s2 with_heap py_heap].
        apply list_lookup_insert_ne. lia.
      * cbn [s2 with_heap py_heap]. rewrite list_lookup_insert_eq by done.
        by rewrite <- app_assoc.
      * by rewrite Hkeys.
      * done.
      * exists s', ((k, v') :: items'), ((k, j') :: kvs').
        split; [exact Hrun|]. split.
        { intros l' Hout Hne. rewrite Hfr by (done || lia).
          cbn [s2 with_heap py_heap]. by apply list_lookup_insert_ne. }
        split; [by rewrite <- app_assoc in Hl'|].
        split; [cbn [map fst]; by rewrite Hk'|].
        split.
        { apply fields_cons with mid'; [|done]. by apply tree_scalar. }
        constructor; [|done]. cbn [fst snd]. split; [done|by left].
    + destruct (is_container v) eqn:Hcont.
      * destruct (IHf s1 mid mid' v j) as (s2 & j' & Hw & Hfr2 & Ht2 & Hwd).
        { by rewrite Hh1. }
        { apply (Hdepth (k, j)). by left. }
        rewrite Hw.
        destruct (IH kvs0 mid' s2 (pre ++ [(k, v)]))
          as (s' & items' & kvs' & Hrun & Hfr & Hl' & Hk' & Hf' & Hall).
        -- apply (fields_frame (py_heap s)); [done|].
           intros l' Hl'. rewrite Hfr2 by lia. by rewrite Hh1.
        -- rewrite Hfr2 by lia. rewrite Hh1. by rewrite <- app_assoc.
        -- by rewrite Hkeys.
        -- done.
        -- exists s', ((k, v) :: items'), ((k, j') :: kvs').
           split; [exact Hrun|]. split.
           { intros l' Hout Hne. rewrite Hfr by (done || lia).
             rewrite Hfr2 by lia. by rewrite Hh1. }
           split; [by rewrite <- app_assoc in Hl'|].
           split; [cbn [map fst]; by rewrite Hk'|].
           split.
           { apply fields_cons with mid'; [|done].
             apply (tree_frame (py_heap s2)); [done|].
             intros l' Hl'2. apply Hfr; lia. }
           constructor; [|done]. cbn [fst snd].
           split; [done|]. right. by split.
      * assert (Hsc : json_of_scalar v = Some j).
        { inversion Ht; subst; [done|discriminate|discriminate]. }
        destruct (IH kvs0 mid' s1 (pre ++ [(k, v)]))
          as (s' & items' & kvs' & Hrun & Hfr & Hl' & Hk' & Hf' & Hall).
        -- by rewrite Hh1.
        -- rewrite Hh1. by rewrite <- app_assoc.
        -- by rewrite Hkeys.
        -- done.
        -- exists s', ((k, v) :: items'), ((k, j) :: kvs').
           split; [exact Hrun|]. split.
           { intros l' Hout Hne. rewrite Hfr by (done || lia).
             by rewrite Hh1. }
           split; [by rewrite <- app_assoc in Hl'|].
           split; [cbn [map fst]; by rewrite Hk'|].
           split.
           { apply fields_cons with mid'; [|done]. by apply tree_scalar. }
           constructor; [|done]. cbn [fst snd].
           split; [done|]. right. split; [done|].
           apply walked_scalar. destruct v; inversion Hsc; done.
Qed.

Lemma walk_elements (f : nat) (l : loc) :
  walk_ok choose rew keep f ->
  forall (elems : list value) (js : list json) (mid : nat) (s : pystate),
    elements (py_heap s) mid l elems js ->
    (forall j, In j js -> (depth j <= f)%nat) ->
    exists (s' : pystate) (js' : list json),
      for_each elems (walk choose f) s = (Ok tt, s') /\
      (forall l', ~ (mid <= l' < l)%nat ->
                  py_heap s' !! l' = py_heap s !! l') /\
      elements (py_heap s') mid l elems js' /\
      Forall2 (walked rew keep) js js'.
Proof.
  intros IHf. induction elems as [|v elems IH]; intros js mid s He Hdepth.
  - inversion He; subst. exists s, []. cbn [for_each].
    repeat split; try done; by apply elements_nil.
  - inversion He as [|? mid' ? ? j ? js0 Ht Hrest]; subst.
    pose proof (tree_bounds _ _ _ _ _ Ht) as Hb1.
    pose proof (elements_bounds _ _ _ _ _ Hrest) as Hb2.
    destruct (IHf s mid mid' v j Ht) as (s1 & j' & Hw & Hfr1 & Ht1 & Hwd).
    { apply Hdepth. by left. }
    destruct (IH js0 mid' s1) as (s' & js' & Hrun & Hfr & He' & Hall).
    { apply (elements_frame (py_heap s)); [done|].
      intros l' Hl'. apply Hfr1. lia. }
    { intros j0 Hin. apply Hdepth. by right. }
    exists s', (j' :: js'). cbn [for_each]. unfold bind at 1. rewrite Hw.
    split; [exact Hrun|]. split.
    { intros l' Hout. rewrite Hfr by lia. apply Hfr1. lia. }
    split.
    { apply elements_cons with mid'; [|done].
      apply (tree_frame (py_heap s1)); [done|].
      intros l' Hl'. apply Hfr. lia. }
    by constructor.
Qed.

Lemma walk_tree (fuel : nat) : walk_ok choose rew keep fuel.
Proof.
  induction fuel as [|f IHf]; intros s lo hi v j Ht Hdepth.
  - pose proof (depth_pos j). lia.
  - inversion Ht as [? ? ? ? Hsc Hb|? ? l items kvs Hlt Hl Hnd Hf
                     |? ? l elems js Hlt Hl He]; subst.
    + exists s, j. split; [by destruct v|]. split; [done|].
      split; [done|]. apply walked_scalar. destruct v; inversion Hsc; done.
    + pose proof (fields_bounds _ _ _ _ _ Hf) as Hb.
      destruct (walk_fields f l IHf items kvs lo s [] Hf Hl Hnd)
        as (s' & items' & kvs' & Hrun & Hfr & Hl' & Hk' & Hf' & Hall).
      { intros kv Hin. cbn [depth] in Hdepth.
        apply (list_max_le_each (map (fun kv => depth kv.2) kvs)); [lia|].
        apply List.in_map_iff. by exists kv. }
      exists s', (JObj kvs'). cbn [walk]. unfold bind at 1.
      rewrite (deref_ok _ _ _ Hl).
      split; [exact Hrun|]. split.
      { intros l' Hout. apply Hfr; lia. }
      split; [|by apply walked_obj].
      apply tree_dict with items'; [done|done| |done].
      cbn [app] in Hnd. by rewrite Hk'.
    + pose proof (elements_bounds _ _ _ _ _ He) as Hb.
      destruct (walk_elements f l IHf elems js lo s He)
        as (s' & js' & Hrun & Hfr & He' & Hall).
      { intros j0 Hin. cbn [depth] in Hdepth.
        apply (list_max_le_each (map depth js)); [lia|].
        by apply List.in_map. }
      exists s', (JArr js'). cbn [walk]. unfold bind at 1.
      rewrite (deref_ok _ _ _ Hl).
      split; [exact Hrun|]. split.
      { intros l' Hout. apply Hfr; lia. }
      split; [|by apply walked_arr].
      apply tree_list with elems; [done| |done].
      rewrite Hfr by lia. done.
Qed.

End Walk.

(** ** The two rewrites as traversals *)

Lemma bind_ext {S A B} (m : M S A) (f g : A -> M S B) (s : S) :
  (forall a s', f a s' = g a s') -> bind m f s = bind m g s.
Proof.
  intros Hfg. unfold bind. destruct (m s) as [[a|e] s']; [apply Hfg|done].
Qed.

Lemma for_each_ext {S A} (xs : list A) (f g : A -> M S unit) (s : S) :
  (forall x s', f x s' = g x s') -> for_each xs f s = for_each xs g s.
Proof.
  intros Hfg. revert s. induction xs as [|x xs IH]; intros s; [done|].
  cbn [for_each]. unfold bind. rewrite Hfg.
  destruct (g x s) as [[[]|e] s']; [apply IH|done].
Qed.

Lemma update_timestamps_walk (d : nat) (obj : value) (timestamp : string)
    (s : pystate) :
  update_timestamps d obj timestamp s
  = walk (choose_timestamp timestamp) d obj s.
Proof.
  revert obj s. induction d as [|d IH]; intros obj s; [reflexivity|].
  cbn [update_timestamps walk]. destruct obj; try reflexivity.
  apply bind_ext. intros [items|elems] s1.
  - apply for_each_ext. intros key s2. apply bind_ext. intros v s3.
    unfold choose_timestamp, bind.
    destruct ((if in_keys key timestamp_keys then truthy v else ret false) s3)
      as [[b|e] s4]; [|reflexivity].
    cbn [ret]. destruct (in_keys key timestamp_keys && b); [reflexivity|].
    destruct (is_container v); [apply IH|reflexivity].
  - apply for_each_ext. intros item s2. apply IH.
Qed.

Lemma update_request_id_walk (env : environment) (d : nat) (obj : value)
    (s : pystate) :
  update_request_id env d obj s = walk (choose_request_id env) d obj s.
Proof.
  revert obj s. induction d as [|d IH]; intros obj s; [reflexivity|].
  cbn [update_request_id walk]. destruct obj; try reflexivity.
  apply bind_ext. intros [items|elems] s1.
  - apply for_each_ext. intros key s2. apply bind_ext. intros v s3.
    unfold choose_request_id.
    destruct (String.eqb key "request_id"); [reflexivity|].
    unfold bind, ret. destruct (is_container v); [apply IH|reflexivity].
  - apply for_each_ext. intros item s2. apply IH.
Qed.

Lemma is_digit_digit_char (d : Z) :
  0 <= d < 10 -> is_digit (digit_char d) = true.
Proof.
  intros Hd.
  assert (d = 0 \/ d = 1 \/ d = 2 \/ d = 3 \/ d = 4 \/ d = 5 \/ d = 6 \/
          d = 7 \/ d = 8 \/ d = 9) as Hcases by lia.
  repeat destruct Hcases as [->|Hcases]; try reflexivity.
  by subst.
Qed.

Lemma digits_of_step (f : nat) (n : Z) (acc : string) :
  digits_of (S f) n acc
  = if n / 10 =? 0 then String (digit_char (n mod 10)) acc
    else digits_of f (n / 10) (String (digit_char (n mod 10)) acc).
Proof. reflexivity. Qed.

(** The decimal form of a number of [100000..999999] has six digits. *)
Lemma request_id_format (n : Z) :
  100000 <= n <= 999999 -> is_request_id ("req_" +:+ str_Z n) = true.
Proof.
  intros Hn. unfold str_Z.
  assert ((n <? 0) = false) as -> by lia.
  assert (16 <= Z.log2 n) as Hlog.
  { change 16 with (Z.log2 100000). apply Z.log2_le_mono. lia. }
  assert (exists f, Z.to_nat (Z.log2 n) = S (S (S (S (S f))))) as [f ->].
  { exists (Z.to_nat (Z.log2 n) - 5)%nat. lia. }
  assert (Hnz : forall m, 0 < m -> (m =? 0) = false) by (intros; lia).
  rewrite !digits_of_step.
  rewrite (Hnz (n / 10)) by (apply Z.div_str_pos; lia).
  rewrite (Hnz (n / 10 / 10))
    by (rewrite Z.div_div by lia; apply Z.div_str_pos; lia).
  rewrite (Hnz (n / 10 / 10 / 10))
    by (rewrite !Z.div_div by lia; apply Z.div_str_pos; lia).
  rewrite (Hnz (n / 10 / 10 / 10 / 10))
    by (rewrite !Z.div_div by lia; apply Z.div_str_pos; lia).
  rewrite (Hnz (n / 10 / 10 / 10 / 10 / 10))
    by (rewrite !Z.div_div by lia; apply Z.div_str_pos; lia).
  assert (Hlast : n / 10 / 10 / 10 / 10 / 10 / 10 = 0).
  { rewrite !Z.div_div by lia. apply Z.div_small. lia. }
  assert (Hend : forall acc,
            digits_of f (n / 10 / 10 / 10 / 10 / 10) acc
            = String (digit_char (n / 10 / 10 / 10 / 10 / 10 mod 10)) acc).
  { intros acc. destruct f as [|f]; [reflexivity|].
    rewrite digits_of_step, Hlast. reflexivity. }
  rewrite Hend.
  cbv beta iota delta [String.append is_request_id String.length all_digits
                       Nat.eqb].
  rewrite !is_digit_digit_char by (apply Z.mod_pos_bound; lia).
  reflexivity.
Qed.

Lemma timestamp_key_not_request_id (k : string) :
  in_keys k timestamp_keys = true -> k <> "request_id".
Proof. intros Hk ->. discriminate Hk. Qed.

Lemma choose_timestamp_sound (now : string) (k : string) (v : value)
    (j : json) (s : pystate) (lo hi : nat) :
  tree (py_heap s) lo hi v j ->
  exists (c : option value) (s' : pystate),
    choose_timestamp now k v s = (Ok c, s') /\
    py_heap s' = py_heap s /\
    match c with
    | Some v' => exists j', json_of_scalar v' = Some j' /\
                            rew_timestamp now k j j'
    | None => keep_timestamp k j
    end.
Proof.
  intros Ht. unfold choose_timestamp, bind, rew_timestamp, keep_timestamp.
  destruct (in_keys k timestamp_keys) eqn:Hk.
  - rewrite (truthy_tree _ _ _ _ _ Ht). cbn [ret andb].
    destruct (json_truthy j); eexists _, s; (split; [reflexivity|]);
      (split; [reflexivity|]); [|done].
    exists (JStr now). done.
  - cbn [ret andb]. by eexists _, s.
Qed.

Lemma choose_request_id_sound (env : environment) (k : string) (v : value)
    (j : json) (s : pystate) (lo hi : nat) :
  tree (py_heap s) lo hi v j ->
  exists (c : option value) (s' : pystate),
    choose_request_id env k v s = (Ok c, s') /\
    py_heap s' = py_heap s /\
    match c with
    | Some v' => exists j', json_of_scalar v' = Some j' /\
                            rew_request_id k j j'
    | None => keep_request_id k j
    end.
Proof.
  intros _. unfold choose_request_id, rew_request_id, keep_request_id.
  destruct (String.eqb_spec k "request_id") as [->|Hne].
  - eexists _, _. split; [reflexivity|]. split; [reflexivity|].
    eexists. split; [reflexivity|]. split; [done|].
    eexists. split; [reflexivity|].
    apply request_id_format.
    pose proof (Z.mod_pos_bound (Z.of_N (rand env (rand_pos s)))
                  (999999 - 100000 + 1)). lia.
  - by eexists _, s.
Qed.

(** ** Serializing a tree *)

Lemma reify_scalar (fuel : nat) (h : heap) (v : value) (j : json) :
  json_of_scalar v = Some j -> reify fuel h v = Some j.
Proof. destruct v, fuel; cbn; congruence. Qed.

Lemma reify_tree (h : heap) (lo hi : nat) (v : value) (j : json) :
  tree h lo hi v j ->
  forall fuel : nat, (depth j <= fuel)%nat -> reify fuel h v = Some j.
Proof.
  apply (tree_mut h
    (fun lo hi v j =>
       forall fuel : nat, (depth j <= fuel)%nat -> reify fuel h v = Some j)
    (fun lo hi items kvs =>
       forall fuel : nat,
         (forall kv, In kv kvs -> (depth kv.2 <= fuel)%nat) ->
         mapM (fun kv : string * value => pair kv.1 <$> reify fuel h kv.2)
              items = Some kvs)
    (fun lo hi elems js =>
       forall fuel : nat,
         (forall j, In j js -> (depth j <= fuel)%nat) ->
         mapM (reify fuel h) elems = Some js)).
  - intros. by apply reify_scalar.
  - intros lo' hi' l items kvs _ Hl _ _ IH [|f] Hd; cbn [depth] in Hd; [lia|].
    cbn [reify]. rewrite Hl, IH; [reflexivity|].
    intros kv Hin.
    apply (list_max_le_each (map (fun kv => depth kv.2) kvs)); [lia|].
    apply List.in_map_iff. by exists kv.
  - intros lo' hi' l elems js _ Hl _ IH [|f] Hd; cbn [depth] in Hd; [lia|].
    cbn [reify]. rewrite Hl, IH; [reflexivity|].
    intros j0 Hin. apply (list_max_le_each (map depth js)); [lia|].
    by apply List.in_map.
  - reflexivity.
  - intros lo' mid hi' k v' j' items kvs _ IHt _ IHf fuel Hd.
    cbn [mapM fst snd]. rewrite IHt by (apply (Hd (k, j')); by left).
    cbn. rewrite IHf by (intros kv Hin; apply Hd; by right). reflexivity.
  - reflexivity.
  - intros lo' mid hi' v' j' elems js _ IHt _ IHe fuel Hd.
    cbn [mapM]. rewrite IHt by (apply Hd; by left).
    cbn. rewrite IHe by (intros j0 Hin; apply Hd; by right). reflexivity.
Qed.

(** ** Loading a document *)

Lemma alloc_run (o : object) (s : pystate) :
  alloc o s = (Ok (VRef (List.length (py_heap s))),
               with_heap s (py_heap s ++ [o])).
Proof. reflexivity. Qed.

Lemma json_load_tree (j : json) :
  wf_json j = true ->
  forall s : pystate, exists (v : value) (s' : pystate), loads j s v s'.
Proof.
  induction j as [|b|n|q|str|js IH|kvs IH] using json_ind'; intros Hwf s;
    cbn [wf_json] in Hwf.
  1-5: eexists _, s; split; [reflexivity|]; split; [by exists []; rewrite app_nil_r|];
       split; [done|]; split; [done|]; by apply tree_scalar.
  - assert (Hall : forall s : pystate,
              exists (elems : list value) (s' : pystate),
                map_m json_load js s = (Ok elems, s') /\
                (exists added, py_heap s' = py_heap s ++ added) /\
                rand_pos s' = rand_pos s /\ clock_pos s' = clock_pos s /\
                elements (py_heap s') (List.length (py_heap s))
                         (List.length (py_heap s')) elems js).
    { clear s. induction IH as [|j js IHj _ IHjs]; intros s.
      - exists [], s. split; [reflexivity|].
        split; [by exists []; rewrite app_nil_r|].
        split; [done|]. split; [done|]. by apply elements_nil.
      - cbn [forallb] in Hwf. apply andb_true_iff in Hwf as [Hwj Hwjs].
        destruct (IHj Hwj s) as (v & s1 & Hv & (a1 & Ha1) & Hr1 & Hc1 & Ht1).
        destruct (IHjs Hwjs s1)
          as (vs & s2 & Hvs & (a2 & Ha2) & Hr2 & Hc2 & He2).
        exists (v :: vs), s2. cbn [map_m]. unfold bind at 1. rewrite Hv.
        unfold bind at 1. rewrite Hvs.
        split; [reflexivity|].
        split; [exists (a1 ++ a2); by rewrite Ha2, Ha1, app_assoc|].
        split; [congruence|]. split; [congruence|].
        apply elements_cons with (List.length (py_heap s1)); [|done].
        apply (tree_frame (py_heap s1)); [done|].
        intros l Hl. rewrite Ha2. apply lookup_app_l. lia. }
    destruct (Hall s) as (elems & s1 & Hrun & (a1 & Ha1) & Hr1 & Hc1 & He1).
    eexists _, _. split.
    { cbn [json_load]. unfold bind at 1. rewrite Hrun. apply alloc_run. }
    cbn [with_heap py_heap rand_pos clock_pos].
    split; [exists (a1 ++ [OList elems]); by rewrite Ha1, app_assoc|].
    split; [done|]. split; [done|].
    rewrite List.length_app. cbn [List.length].
    replace (List.length (py_heap s1) + 1)%nat
      with (S (List.length (py_heap s1))) by lia.
    apply tree_list with elems; [lia| |].
    + by rewrite list_lookup_middle.
    + apply (elements_frame (py_heap s1)); [done|].
      intros l Hl. apply lookup_app_l. lia.
  - apply andb_true_iff in Hwf as [Hnd Hwf].
    apply bool_decide_eq_true in Hnd.
    assert (Hall : forall s : pystate,
              exists (items : list (string * value)) (s' : pystate),
                map_m (fun kv : string * json =>
                         v <- json_load kv.2 ;; ret (kv.1, v)) kvs s
                = (Ok items, s') /\
                (exists added, py_heap s' = py_heap s ++ added) /\
                rand_pos s' = rand_pos s /\ clock_pos s' = clock_pos s /\
                fields (py_heap s') (List.length (py_heap s))
                       (List.length (py_heap s')) items kvs).
    { clear s Hnd. induction IH as [|[k j] kvs IHj _ IHkvs]; intros s.
      - exists [], s. split; [reflexivity|].
        split; [by exists []; rewrite app_nil_r|].
        split; [done|]. split; [done|]. by apply fields_nil.
      - cbn [forallb snd] in Hwf. apply andb_true_iff in Hwf as [Hwj Hwkvs].
        cbn [snd] in IHj.
        destruct (IHj Hwj s) as (v & s1 & Hv & (a1 & Ha1) & Hr1 & Hc1 & Ht1).
        destruct (IHkvs Hwkvs s1)
          as (vs & s2 & Hvs & (a2 & Ha2) & Hr2 & Hc2 & Hf2).
        exists ((k, v) :: vs), s2. cbn [map_m fst snd].
        unfold bind at 1. unfold bind at 1. rewrite Hv. cbn [ret].
        unfold bind at 1. rewrite Hvs.
        split; [reflexivity|].
        split; [exists (a1 ++ a2); by rewrite Ha2, Ha1, app_assoc|].
        split; [congruence|]. split; [congruence|].
        apply fields_cons with (List.length (py_heap s1)); [|done].
        apply (tree_frame (py_heap s1)); [done|].
        intros l Hl. rewrite Ha2. apply lookup_app_l. lia. }
    destruct (Hall s) as (items & s1 & Hrun & (a1 & Ha1) & Hr1 & Hc1 & Hf1).
    eexists _, _. split.
    { cbn [json_load]. unfold bind at 1. rewrite Hrun. apply alloc_run. }
    cbn [with_heap py_heap rand_pos clock_pos].
    split; [exists (a1 ++ [ODict items]); by rewrite Ha1, app_assoc|].
    split; [done|]. split; [done|].
    rewrite List.length_app. cbn [List.length].
    replace (List.length (py_heap s1) + 1)%nat
      with (S (List.length (py_heap s1))) by lia.
    apply tree_dict with items; [lia| | |].
    + by rewrite list_lookup_middle.
    + apply fields_length in Hf1 as [_ ->]. done.
    + apply (fields_frame (py_heap s1)); [done|].
      intros l Hl. apply lookup_app_l. lia.
Qed.

(** ** The two traversals, composed *)

Lemma walked_scalar_inv (rew : string -> json -> json -> Prop)
    (keep : string -> json -> Prop) (j j' : json) :
  match j with JArr _ | JObj _ => False | _ => True end ->
  walked rew keep j j' -> j' = j.
Proof. intros Hj Hw. inversion Hw; subst; done. Qed.

Lemma walked_compose (now : string) (j : json) :
  forall j1 j2 : json,
    walked (rew_timestamp now) keep_timestamp j j1 ->
    walked rew_request_id keep_request_id j1 j2 ->
    customized now j j2.
Proof.
  induction j as [|b|n|q|str|js IH|kvs IH] using json_ind'; intros j1 j2 H1 H2.
  1-5: apply walked_scalar_inv in H1; [subst j1|done];
       apply walked_scalar_inv in H2; [subst j2|done]; constructor.
  - inversion H1 as [? Hsc|? js1 Hf1|]; subst; [destruct Hsc|].
    inversion H2 as [? Hsc|? js2 Hf2|]; subst; [destruct Hsc|].
    apply customized_arr. clear H1 H2.
    revert js2 Hf2. induction Hf1 as [|j j1 js js1 Hj _ IHf]; intros js2 Hf2.
    + inversion Hf2. constructor.
    + inversion Hf2 as [|? j2 ? js2' Hj2 Hrest]; subst.
      inversion IH as [|? ? IHj IHjs]; subst.
      constructor; [by apply (IHj j1)|by apply IHf].
  - inversion H1 as [? Hsc| |? kvs1 Hf1]; subst; [destruct Hsc|].
    inversion H2 as [? Hsc| |? kvs2 Hf2]; subst; [destruct Hsc|].
    apply customized_obj. clear H1 H2.
    revert kvs2 Hf2.
    induction Hf1 as [|[k v] [k1 v1] kvs kvs1 Hkv _ IHf]; intros kvs2 Hf2.
    + inversion Hf2. constructor.
    + inversion Hf2 as [|? [k2 v2] ? kvs2' Hkv2 Hrest]; subst.
      inversion IH as [|? ? IHv IHkvs]; subst.
      constructor; [|by apply IHf].
      cbn [fst snd] in *.
      destruct Hkv as [-> Hkv], Hkv2 as [-> Hkv2].
      split; [done|].
      destruct Hkv as [[Hc ->]|[Hc Hw1]].
      * left. split; [done|].
        destruct Hkv2 as [[Hk _]|[_ Hw2]].
        -- apply andb_true_iff in Hc as [Hc _].
           by apply timestamp_key_not_request_id in Hc.
        -- by apply walked_scalar_inv in Hw2.
      * right. destruct Hkv2 as [[Hk Hid]|[Hk Hw2]].
        -- left. done.
        -- right. split; [done|]. split; [done|]. by apply (IHv v1).
Qed.

Lemma list_max_Forall2_le {A} (f : A -> nat) (xs ys : list A) :
  Forall2 (fun x y => (f y <= f x)%nat) xs ys ->
  (list_max (map f ys) <= list_max (map f xs))%nat.
Proof.
  induction 1 as [|x y xs ys Hxy _ IH]; [done|].
  unfold list_max in *. cbn [map fold_right]. lia.
Qed.

(** A traversal whose rewrites put immutable values does not deepen. *)
Lemma walked_depth (rew : string -> json -> json -> Prop)
    (keep : string -> json -> Prop) :
  (forall k j j', rew k j j' -> depth j' = 1%nat) ->
  forall j j' : json, walked rew keep j j' -> (depth j' <= depth j)%nat.
Proof.
  intros Hrew j.
  induction j as [|b|n|q|str|js IH|kvs IH] using json_ind'; intros j' Hw.
  1-5: by apply walked_scalar_inv in Hw; [subst j'|done].
  - inversion Hw as [? Hsc|? js' Hf|]; subst; [destruct Hsc|]. cbn [depth].
    apply le_n_S. apply list_max_Forall2_le.
    clear Hw. induction Hf as [|j j' js js' Hj _ IHf]; [constructor|].
    inversion IH as [|? ? IHj IHjs]; subst.
    constructor; [by apply IHj|by apply IHf].
  - inversion Hw as [? Hsc| |? kvs' Hf]; subst; [destruct Hsc|]. cbn [depth].
    apply le_n_S.
    apply (list_max_Forall2_le (fun kv : string * json => depth kv.2)).
    clear Hw. induction Hf as [|[k v] [k' v'] kvs kvs' Hkv _ IHf];
      [constructor|].
    inversion IH as [|? ? IHv IHkvs]; subst.
    constructor; [|by apply IHf]. cbn [fst snd] in *.
    destruct Hkv as [_ [Hr|[_ Hw']]].
    + rewrite (Hrew _ _ _ Hr). apply depth_pos.
    + by apply IHv.
Qed.

(** * Properties of the customizer *)

Section CustomizerProperties.

Variable env : environment.

Lemma rew_timestamp_depth (now : string) (k : string) (j j' : json) :
  rew_timestamp now k j j' -> depth j' = 1%nat.
Proof. by intros [_ ->]. Qed.

Lemma rew_request_id_depth (k : string) (j j' : json) :
  rew_request_id k j j' -> depth j' = 1%nat.
Proof. by intros (_ & id & -> & _). Qed.

(** Customizing a tree of the store. *)
Lemma customize_response_tree (s : pystate) (lo hi : nat) (v : value)
    (j : json) :
  tree (py_heap s) lo hi v j ->
  (depth j <= recursion_limit env)%nat ->
  exists (s' : pystate) (j' : json),
    customize_response env v [] s = (Ok v, s') /\
    (forall l, ~ (lo <= l < hi)%nat -> py_heap s' !! l = py_heap s !! l) /\
    tree (py_heap s') lo hi v j' /\
    (depth j' <= depth j)%nat /\
    customized (utc_iso env (clock_pos s) +:+ "+00:00") j j'.
Proof.
  intros Ht Hd.
  set (now := utc_iso env (clock_pos s) +:+ "+00:00").
  set (s0 := {| py_heap := py_heap s; rand_pos := rand_pos s;
                clock_pos := S (clock_pos s) |}).
  destruct (walk_tree (choose_timestamp now) (rew_timestamp now)
              keep_timestamp (choose_timestamp_sound now)
              (recursion_limit env) s0 lo hi v j Ht Hd)
    as (s1 & j1 & Hw1 & Hfr1 & Ht1 & Hwd1).
  pose proof (walked_depth _ _ (rew_timestamp_depth now) _ _ Hwd1) as Hd1.
  destruct (walk_tree (choose_request_id env) rew_request_id
              keep_request_id (choose_request_id_sound env)
              (recursion_limit env) s1 lo hi v j1 Ht1 ltac:(lia))
    as (s2 & j2 & Hw2 & Hfr2 & Ht2 & Hwd2).
  pose proof (walked_depth _ _ rew_request_id_depth _ _ Hwd2) as Hd2.
  exists s2, j2. split.
  { unfold customize_response, bind at 1, utcnow_isoformat, bind at 1, tick.
    cbn [ret]. fold s0. fold now. unfold bind at 1.
    rewrite update_timestamps_walk, Hw1. unfold bind at 1.
    rewrite update_request_id_walk, Hw2. reflexivity. }
  split; [intros l Hl; rewrite Hfr2, Hfr1; done|].
  split; [done|]. split; [lia|]. by apply (walked_compose now j j1).
Qed.

Lemma fields_weaken (h : heap) (lo hi hi' : nat)
    (items : list (string * value)) (kvs : list (string * json)) :
  fields h lo hi items kvs -> (hi <= hi')%nat -> fields h lo hi' items kvs.
Proof.
  induction 1 as [lo hi Hle|lo mid hi k v j items kvs Ht _ IH]; intros Hhi.
  - apply fields_nil. lia.
  - apply fields_cons with mid; [done|by apply IH].
Qed.

Lemma elements_weaken (h : heap) (lo hi hi' : nat) (elems : list value)
    (js : list json) :
  elements h lo hi elems js -> (hi <= hi')%nat -> elements h lo hi' elems js.
Proof.
  induction 1 as [lo hi Hle|lo mid hi v j elems js Ht _ IH]; intros Hhi.
  - apply elements_nil. lia.
  - apply elements_cons with mid; [done|by apply IH].
Qed.

(** A shallow copy of a tree is a tree again: a new root over the old
    members. *)
Lemma copy_tree (s : pystate) (lo hi : nat) (v : value) (j : json) :
  tree (py_heap s) lo hi v j ->
  is_container v = true ->
  exists o : object,
    copy v s = (Ok (VRef (List.length (py_heap s))),
                with_heap s (py_heap s ++ [o])) /\
    tree (py_heap s ++ [o]) lo (S (List.length (py_heap s)))
         (VRef (List.length (py_heap s))) j.
Proof.
  intros Ht Hc.
  inversion Ht as [? ? ? ? Hsc|? ? l items kvs Hlt Hl Hnd Hf
                   |? ? l elems js Hlt Hl He]; subst.
  - destruct v; inversion Hsc; discriminate.
  - pose proof (lookup_lt_Some _ _ _ Hl) as Hlen.
    exists (ODict items). split.
    { cbn [copy]. unfold bind. rewrite (deref_ok _ _ _ Hl). apply alloc_run. }
    apply tree_dict with items; [lia| |done|].
    + by rewrite list_lookup_middle.
    + apply (fields_frame (py_heap s)).
      * apply (fields_weaken _ _ l); [done|lia].
      * intros l' Hl'. apply lookup_app_l. lia.
  - pose proof (lookup_lt_Some _ _ _ Hl) as Hlen.
    exists (OList elems). split.
    { cbn [copy]. unfold bind. rewrite (deref_ok _ _ _ Hl). apply alloc_run. }
    apply tree_list with elems; [lia| |].
    + by rewrite list_lookup_middle.
    + apply (elements_frame (py_heap s)).
      * apply (elements_weaken _ _ l); [done|lia].
      * intros l' Hl'. apply lookup_app_l. lia.
Qed.

(** A lookup that hits a tree of the store returns its customized copy. *)
Lemma get_response_tree
    (responses : list (string * list (string * value)))
    (provider scenario : string) (scenarios : list (string * value))
    (template : value) (s : pystate) (lo hi : nat) (j : json) :
  assoc provider responses = Some scenarios ->
  assoc scenario scenarios = Some template ->
  tree (py_heap s) lo hi template j ->
  is_container template = true ->
  (depth j <= recursion_limit env)%nat ->
  exists (data : value) (s' : pystate) (j' : json),
    get_response env responses provider scenario [] s = (Ok data, s') /\
    (response <- copy template ;; customize_response env response []) s
    = (Ok data, s') /\
    reify (recursion_limit env) (py_heap s') data = Some j' /\
    customized (utc_iso env (clock_pos s) +:+ "+00:00") j j'.
Proof.
  intros Hp Hs Ht Hc Hd.
  destruct (copy_tree s lo hi template j Ht Hc) as (o & Hcopy & Ht').
  set (s1 := with_heap s (py_heap s ++ [o])) in *.
  destruct (customize_response_tree s1 _ _ _ j Ht' Hd)
    as (s2 & j' & Hrun & _ & Ht2 & Hd2 & Hcust).
  exists (VRef (List.length (py_heap s))), s2, j'.
  assert (Hboth : (response <- copy template ;;
                   customize_response env response []) s
                  = (Ok (VRef (List.length (py_heap s))), s2)).
  { unfold bind. rewrite Hcopy. exact Hrun. }
  split; [unfold get_response; by rewrite Hp, Hs|].
  split; [exact Hboth|].
  split; [apply (reify_tree _ _ _ _ _ Ht2); lia|exact Hcust].
Qed.

(** C7 (amended). Customizing a loaded document ends, and the document it
    returns is the loaded one in which, top-down through every object and
    array: each field named [timestamp], [created], [started] or
    [finished] whose value is truthy in Python's sense (not null, false,
    zero or empty) holds the current UTC time with [+00:00] appended; each
    field named [request_id] holds a fresh [req_<6 digits>]; every other
    field keeps its value, rewritten in turn when it is an object or an
    array. *)
Theorem customization_rewrites (j : json) (s : pystate) :
  wf_json j = true ->
  (depth j <= recursion_limit env)%nat ->
  exists (v : value) (s1 s2 : pystate) (j' : json),
    json_load j s = (Ok v, s1) /\
    customize_response env v [] s1 = (Ok v, s2) /\
    reify (recursion_limit env) (py_heap s2) v = Some j' /\
    customized (utc_iso env (clock_pos s) +:+ "+00:00") j j'.
Proof.
  intros Hwf Hd.
  destruct (json_load_tree j Hwf s) as (v & s1 & Hload & _ & _ & Hc & Ht).
  destruct (customize_response_tree s1 _ _ v j Ht Hd)
    as (s2 & j' & Hrun & _ & Ht' & Hd' & Hcust).
  exists v, s1, s2, j'. split; [exact Hload|]. split; [exact Hrun|].
  split; [apply (reify_tree _ _ _ _ _ Ht'); lia|]. by rewrite <- Hc.
Qed.

End CustomizerProperties.

Lemma customization_rewrites_witness :
  wf_json sample_fixture = true /\
  (depth sample_fixture <= recursion_limit steady_env)%nat /\
  exists (v : value) (s1 s2 : pystate) (j' : json),
    json_load sample_fixture (py empty_world) = (Ok v, s1) /\
    customize_response steady_env v [] s1 = (Ok v, s2) /\
    reify (recursion_limit steady_env) (py_heap s2) v = Some j' /\
    customized "2024-05-01T12:00:00.000000+00:00" sample_fixture j'.
Proof.
  assert (H1 : wf_json sample_fixture = true) by (vm_compute; reflexivity).
  assert (H2 : (depth sample_fixture <= recursion_limit steady_env)%nat)
    by (vm_compute; lia).
  split; [exact H1|]. split; [exact H2|].
  exact (customization_rewrites steady_env sample_fixture (py empty_world)
           H1 H2).
Defined.

(** C7 as stated fails: a [created] field holding [0] and a [started]
    field holding [false] are neither null nor empty, and customization
    leaves both as they are. *)
Lemma falsy_timestamp_not_rewritten :
  let j := JObj [("created", JInt 0); ("started", JBool false)] in
  nonnull_nonempty (JInt 0) /\
  nonnull_nonempty (JBool false) /\
  exists (v : value) (s' : pystate),
    (v <- json_load j ;; customize_response steady_env v []) (py empty_world)
    = (Ok v, s') /\
    reify (recursion_limit steady_env) (py_heap s') v = Some j.
Proof.
  cbv zeta. split; [repeat split; discriminate|].
  split; [repeat split; discriminate|].
  exists (VRef 0%nat).
  exists ((v <- json_load (JObj [("created", JInt 0);
                                 ("started", JBool false)]) ;;
           customize_response steady_env v []) (py empty_world)).2.
  split; vm_compute; reflexivity.
Qed.

(** C1 fails on the code: [get_response] customizes a shallow copy, so the
    nested dicts of the stored template are overwritten, and a response
    handed out earlier changes when the same fixture is customized again. *)
Theorem stored_template_is_mutated :
  let template := VRef 3%nat in
  let call1 := get_response steady_env sample_store "hetzner"
                 "success-create-server" [("name", VStr "override-a")]
                 (py sample_world) in
  let call2 := get_response steady_env sample_store "hetzner"
                 "success-create-server" [("name", VStr "override-b")]
                 call1.2 in
  assoc "success-create-server"
    (default [] (assoc "hetzner" sample_store)) = Some template /\
  reify 64 (py_heap (py sample_world)) template
  = Some (JObj [("server",
                 JObj [("id", JInt 42); ("name", JStr "arcdeploy-test");
                       ("created", JStr "2023-01-01T00:00:00+00:00")]);
                ("action",
                 JObj [("started", JStr "2023-01-01T00:00:00+00:00");
                       ("finished", JNull); ("progress", JInt 0)]);
                ("meta", JObj [("request_id", JStr "req_000001")])]) /\
  reify 64 (py_heap call1.2) template
  = Some (JObj [("server",
                 JObj [("id", JInt 42); ("name", JStr "override-a");
                       ("created",
                        JStr "2024-05-01T12:00:00.000000+00:00")]);
                ("action",
                 JObj [("started", JStr "2024-05-01T12:00:00.000000+00:00");
                       ("finished", JNull); ("progress", JInt 0)]);
                ("meta", JObj [("request_id", JStr "req_100000")])]) /\
  call1.1 = Ok (VRef 7%nat) /\
  call2.1 = Ok (VRef 8%nat) /\
  reify 64 (py_heap call1.2) (VRef 7%nat)
  = Some (JObj [("server",
                 JObj [("id", JInt 42); ("name", JStr "override-a");
                       ("created",
                        JStr "2024-05-01T12:00:00.000000+00:00")]);
                ("action",
                 JObj [("started", JStr "2024-05-01T12:00:00.000000+00:00");
                       ("finished", JNull); ("progress", JInt 0)]);
                ("meta", JObj [("request_id", JStr "req_100000")])]) /\
  reify 64 (py_heap call2.2) (VRef 7%nat)
  = Some (JObj [("server",
                 JObj [("id", JInt 42); ("name", JStr "override-b");
                       ("created",
                        JStr "2024-05-01T12:00:00.000000+00:00")]);
                ("action",
                 JObj [("started", JStr "2024-05-01T12:00:00.000000+00:00");
                       ("finished", JNull); ("progress", JInt 0)]);
                ("meta", JObj [("request_id", JStr "req_100007")])]).
Proof.
  cbv zeta. repeat split; vm_compute; reflexivity.
Qed.


Lemma remaining_counts_recorded_witness :
  0 < rate_limit_window (sample_config 100) /\
  exists (limited : bool) (w1 : world) (info : rate_info),
    is_rate_limited steady_env (sample_config 100) "10.0.0.1" empty_world
    = (Ok limited, w1) /\
    get_rate_limit_info steady_env (sample_config 100) "10.0.0.1" w1
    = (Ok info, ticked w1) /\
    ri_remaining info
    = Z.max 0 (100 - window_count 3600 (wall_clock steady_env 0)
                       (stored w1 "10.0.0.1")).
Proof.
  assert (H : 0 < rate_limit_window (sample_config 100)) by (simpl; lia).
  split; [exact H|].
  exact (proj2 (remaining_counts_recorded steady_env (sample_config 100)
                  "10.0.0.1" empty_world H)).
Defined.

(** C3 as stated fails: after two requests of one client, the second
    admitted at 3599 s and answered at 3601 s, the header reports 98
    remaining although the first timestamp is by then more than 3600 s
    old: a single recorded timestamp lies within the trailing 3600 s at
    the instant of that report, whether or not the window includes its
    older end. *)
Lemma remaining_header_counts_aged_request :
  let env := sample_env [0; 1; 1; 3599; 3600; 3601] in
  let config := sample_config 100 in
  let req := sample_request "/hetzner/servers" in
  let w1 := (handle_request env config [] GET req empty_world).2 in
  let w2 := (handle_request env config [] GET req w1).2 in
  exists r1 r2 : response,
    wfile w2 = [r1; r2] /\
    assoc "X-RateLimit-Remaining" (resp_headers r2) = Some "98" /\
    stored w2 "10.0.0.1" = [inject_Z 0; inject_Z 3599] /\
    wall_clock env 5 = inject_Z 3601 /\
    (inject_Z 0 < wall_clock env 5 - inject_Z (rate_limit_window config))%Q /\
    (wall_clock env 5 - inject_Z (rate_limit_window config)
     < inject_Z 3599)%Q /\
    Z.max 0 (rate_limit_requests config
             - window_count (rate_limit_window config) (wall_clock env 5)
                 (stored w2 "10.0.0.1")) = 99.
Proof.
  cbv zeta. eexists _, _. split; [vm_compute; reflexivity|].
  repeat split; vm_compute; reflexivity.
Qed.



Lemma aged_request_not_counted_witness :
  (inject_Z (rate_limit_window (sample_config 100))
   < wall_clock (sample_env [5000%Z]) (clock_pos (py aged_world)) - inject_Z 0)%Q
  /\
  exists (limited : bool) (w' : world),
    is_rate_limited (sample_env [5000%Z]) (sample_config 100) "10.0.0.1"
      aged_world = (Ok limited, w') /\
    stored w' "10.0.0.1" = [inject_Z 4000; inject_Z 5000] /\
    is_rate_limited (sample_env [5000%Z]) (sample_config 100) "10.0.0.1"
      (without_timestamp aged_world "10.0.0.1" (inject_Z 0))
    = (Ok limited, w').
Proof.
  assert (H : (inject_Z (rate_limit_window (sample_config 100))
               < wall_clock (sample_env [5000%Z]) (clock_pos (py aged_world))
                 - inject_Z 0)%Q) by (vm_compute; reflexivity).
  split; [exact H|].
  destruct (aged_request_not_counted (sample_env [5000%Z]) (sample_config 100)
              "10.0.0.1" aged_world (inject_Z 0) H)
    as (limited & w' & info & Hrun & Hst & _ & Hlim & Hsame & _).
  exists limited, w'. split; [exact Hrun|]. split; [|exact Hsame].
  rewrite Hst, Hlim. vm_compute. reflexivity.
Defined.

(** * Properties of the router *)

Section RouterProperties.

Variable env : environment.
Variable config : MockAPIConfig.
Variable responses : list (string * list (string * value)).

(** C5. For a path of at least two segments whose second segment is not
    [test-scenarios], the handler passes the first segment as the provider;
    the scenario looked up is the first value of the [scenario] query
    parameter when there is one, otherwise the entry of the action table,
    otherwise [success-create-server]; the method plays no part. *)
Theorem scenario_resolution (provider action : string) (rest : list string)
    (method : http_method) (req : request) :
  split "/" (strip "/" (url_path req)) = provider :: action :: rest ->
  action <> "test-scenarios" ->
  handle_request_route env config responses method req
  = (response <- lift_py (route_request env responses provider action method
                                        (query_params req)) ;;
     send_json_response env config req 200 response) /\
  (forall (first : string) (others : list string),
     query_params req !! "scenario" = Some (first :: others) ->
     route_request env responses provider action method (query_params req)
     = get_response env responses provider first []) /\
  (query_params req !! "scenario" = None ->
   (In action ["servers"; "instances"; "droplets"; "create-server"] ->
    route_request env responses provider action method (query_params req)
    = get_response env responses provider "success-create-server" []) /\
   (action = "list-servers" ->
    route_request env responses provider action method (query_params req)
    = get_response env responses provider "success-list-servers" []) /\
   (action = "server-status" ->
    route_request env responses provider action method (query_params req)
    = get_response env responses provider "success-server-status" []) /\
   (~ In action ["servers"; "instances"; "droplets"; "create-server";
                 "list-servers"; "server-status"] ->
    route_request env responses provider action method (query_params req)
    = get_response env responses provider "success-create-server" [])) /\
  (forall method' : http_method,
     route_request env responses provider action method' (query_params req)
     = route_request env responses provider action method
         (query_params req)).
Proof.
  intros Hpath Haction.
  assert (Hno : String.eqb action "test-scenarios" = false)
    by (by apply String.eqb_neq).
  split; [unfold handle_request_route; by rewrite Hpath|].
  unfold route_request. rewrite Hno.
  split; [intros first others ->; reflexivity|].
  split; [|reflexivity].
  intros ->. split; [|split; [|split]].
  - intros [<-|[<-|[<-|[<-|[]]]]]; reflexivity.
  - intros ->. reflexivity.
  - intros ->. reflexivity.
  - intros Hnot.
    assert (assoc action scenario_map = None) as ->; [|reflexivity].
    unfold scenario_map. cbn [assoc].
    repeat match goal with
           | |- context [String.eqb ?a action] =>
               destruct (String.eqb_spec a action) as [Heq|_];
               [exfalso; apply Hnot; rewrite <- Heq; cbn; tauto|]
           end.
    reflexivity.
Qed.

End RouterProperties.

Lemma scenario_resolution_witness :
  split "/" (strip "/" "/aws/instances") = ["aws"; "instances"] /\
  "instances" <> "test-scenarios" /\
  route_request steady_env [] "aws" "instances" GET
    {[ "scenario" := ["quota-exceeded"] ]}
  = get_response steady_env [] "aws" "quota-exceeded" [].
Proof.
  assert (H1 : split "/" (strip "/" "/aws/instances") = ["aws"; "instances"])
    by reflexivity.
  assert (H2 : "instances" <> "test-scenarios") by discriminate.
  split; [exact H1|]. split; [exact H2|].
  exact (proj1 (proj2 (scenario_resolution steady_env (sample_config 100) []
                         "aws" "instances" [] GET
                         {| client_address := "10.0.0.1";
                            url_path := "/aws/instances";
                            query_params :=
                              {[ "scenario" := ["quota-exceeded"] ]} |}
                         H1 H2))
           "quota-exceeded" [] eq_refl).
Defined.

(** * Properties of the request pipeline *)

Section PipelineProperties.

Variable env : environment.
Variable config : MockAPIConfig.
Variable responses : list (string * list (string * value)).

Lemma random_value_range (k : nat) :
  (0 <= random_value env k)%Q /\ (random_value env k < 1)%Q.
Proof.
  unfold random_value, Qle, Qlt. cbn [Qnum Qden].
  pose proof (N.mod_upper_bound (rand env k) (2 ^ 53) ltac:(done)) as Hlt.
  assert (Hz : Z.of_N (rand env k mod 2 ^ 53)%N < Z.pos (2 ^ 53)).
  { replace (Z.pos (2 ^ 53)) with (Z.of_N (2 ^ 53)%N)
      by (vm_compute; reflexivity).
    lia. }
  pose proof (N2Z.is_nonneg (rand env k mod 2 ^ 53)) as Hnn.
  clear Hlt. revert Hz Hnn.
  generalize (Z.of_N (rand env k mod 2 ^ 53)%N), (Z.pos (2 ^ 53)).
  intros. lia.
Qed.

(** With non-negative delays every sleep is accepted. *)
Lemma sleep_length_nonneg (k : nat) :
  nonnegative_delays config -> Qltb (sleep_length env config k) 0 = false.
Proof.
  intros [Hmin Hmax]. apply Qltb_ge. unfold sleep_length.
  destruct (random_value_range k) as [Hlo Hhi].
  set (u := random_value env k) in *.
  set (a := response_delay_min config) in *.
  set (b := response_delay_max config) in *.
  assert (H1 : (0 <= a * (1 - u))%Q) by (apply Qmult_le_0_compat; lra).
  assert (H2 : (0 <= b * u)%Q) by (apply Qmult_le_0_compat; lra).
  lra.
Qed.

(** The pipeline up to the point where it branches. *)
Lemma handle_request_unfold (method : http_method) (req : request)
    (w : world) :
  handle_request env config responses method req w =
    if Qltb (sleep_length env config (rand_pos (py w))) 0
    then (Raise (ValueError "sleep length must be non-negative"), drawn w)
    else
      match is_rate_limited env config (client_address req) (drawn w) with
      | (Ok true, w2) => send_rate_limit_response env config responses req w2
      | (Ok false, w2) =>
          if Qltb (random_value env (rand_pos (py w2))) (failure_rate config)
          then send_random_failure_response env config req (drawn w2)
          else try_except
                 (handle_request_route env config responses method req)
                 (handle_request_except env config req) (drawn w2)
      | (Raise e, w2) => (Raise e, w2)
      end.
Proof.
  unfold handle_request. unfold bind at 1.
  replace (lift_py (random_uniform env (response_delay_min config)
                                   (response_delay_max config)) w)
    with (Ok (sleep_length env config (rand_pos (py w))), drawn w)
    by (by destruct w as [[h rp cp] reqs out]).
  unfold bind at 1.
  replace (lift_py (time_sleep (sleep_length env config (rand_pos (py w))))
                   (drawn w))
    with (if Qltb (sleep_length env config (rand_pos (py w))) 0
          then (Raise (ValueError "sleep length must be non-negative"),
                drawn w)
          else (@Ok unit tt, drawn w))
    by (unfold lift_py, time_sleep; by destruct (Qltb _ _)).
  destruct (Qltb (sleep_length env config (rand_pos (py w))) 0);
    [reflexivity|].
  unfold bind at 1.
  destruct (is_rate_limited env config (client_address req) (drawn w))
    as [[[|]|e] w2]; try reflexivity.
  unfold bind at 1.
  replace (lift_py (random_random env) w2)
    with (Ok (random_value env (rand_pos (py w2))), drawn w2)
    by (by destruct w2 as [[h rp cp] reqs out]).
  by destruct (Qltb _ _).
Qed.

(** The pipeline of a request whose sleep is accepted. *)
Lemma handle_request_slept (Hdelay : nonnegative_delays config)
    (method : http_method) (req : request) (w : world) :
  handle_request env config responses method req w =
    match is_rate_limited env config (client_address req) (drawn w) with
    | (Ok true, w2) => send_rate_limit_response env config responses req w2
    | (Ok false, w2) =>
        if Qltb (random_value env (rand_pos (py w2))) (failure_rate config)
        then send_random_failure_response env config req (drawn w2)
        else try_except
               (handle_request_route env config responses method req)
               (handle_request_except env config req) (drawn w2)
    | (Raise e, w2) => (Raise e, w2)
    end.
Proof. by rewrite handle_request_unfold, sleep_length_nonneg. Qed.

(** A request whose sleep is refused: the [ValueError] escapes, nothing is
    written and the limiter is not asked. *)
Lemma handle_request_refused (method : http_method) (req : request)
    (w : world) :
  Qltb (sleep_length env config (rand_pos (py w))) 0 = true ->
  handle_request env config responses method req w
  = (Raise (ValueError "sleep length must be non-negative"), drawn w).
Proof. intros H. by rewrite handle_request_unfold, H. Qed.

Lemma lift_py_frame {A} (m : M pystate A) (w : world) (res : result A)
    (w' : world) :
  lift_py m w = (res, w') ->
  m (py w) = (res, py w') /\ requests w' = requests w /\ wfile w' = wfile w.
Proof.
  unfold lift_py. destruct (m (py w)) as [r s']. intros [= <- <-]. done.
Qed.

Lemma send_json_response_run (req : request) (status_code : Z) (data : value)
    (w : world) :
  send_json_response env config req status_code data w =
    match reify (recursion_limit env) (py_heap (py w)) data with
    | Some body =>
        (Ok tt, written (ticked w) (response_at env config req status_code
                                                body w))
    | None => (Raise RecursionError, w)
    end.
Proof.
  destruct w as [[h rp cp] reqs out].
  unfold send_json_response, json_dumps, bind, lift_py, gets.
  cbn [py py_heap]. destruct (reify _ _ _); reflexivity.
Qed.

(** A handler that computes a document and sends it writes at most one
    response, with the standard headers, and leaves the limiter alone. *)
Lemma respond_emits (g : M pystate value) (req : request) (status_code : Z)
    (w : world) (res : result unit) (w' : world) :
  (data <- lift_py g ;; send_json_response env config req status_code data) w
  = (res, w') ->
  requests w' = requests w /\
  ((exists e : exn, res = Raise e /\ wfile w' = wfile w) \/
   (res = Ok tt /\
    exists (w_a : world) (data : value) (body : json),
      lift_py g w = (Ok data, w_a) /\
      reify (recursion_limit env) (py_heap (py w_a)) data = Some body /\
      w' = written (ticked w_a)
             (response_at env config req status_code body w_a))).
Proof.
  unfold bind. destruct (lift_py g w) as [[data|e] w_a] eqn:Hg.
  - apply lift_py_frame in Hg as (_ & Hreq & Hout).
    rewrite send_json_response_run.
    destruct (reify _ _ _) as [body|] eqn:Hbody; intros [= <- <-].
    + split; [exact Hreq|]. right. split; [reflexivity|].
      by exists w_a, data, body.
    + split; [exact Hreq|]. left. eauto.
  - apply lift_py_frame in Hg as (_ & Hreq & Hout).
    intros [= <- <-]. split; [exact Hreq|]. left. eauto.
Qed.

Lemma request_number_range (k : nat) :
  100000 <= request_number env k <= 999999.
Proof.
  unfold request_number.
  pose proof (Z.mod_pos_bound (Z.of_N (rand env k)) (999999 - 100000 + 1)).
  lia.
Qed.

Lemma generate_error_response_run (status_code : Z)
    (error_code message : string) (w : world) :
  lift_py (generate_error_response env status_code error_code message) w
  = (Ok (VRef (S (S (List.length (py_heap (py w)))))),
     with_error_response w status_code error_code message
       ("req_error_" +:+ str_Z (request_number env (rand_pos (py w))))
       (utc_iso env (clock_pos (py w)) +:+ "+00:00")).
Proof.
  destruct w as [[h rp cp] reqs out].
  unfold with_error_response, lift_py, generate_error_response, alloc,
    random_randint, utcnow_isoformat, draw, tick, bind, gets, set_heap,
    modify, ret, request_number.
  cbn [py py_heap rand_pos clock_pos requests wfile].
  rewrite !List.length_app. cbn [List.length].
  rewrite <- !app_assoc. cbn [app].
  repeat f_equal; lia.
Qed.

Lemma reify_error_response (fuel : nat) (h : heap) (status_code : Z)
    (error_code message request_id timestamp : string) :
  reify (S (S fuel))
    (h ++ [ODict [("code", VStr error_code); ("message", VStr message);
                  ("status_code", VInt status_code)];
           ODict [("request_id", VStr request_id);
                  ("timestamp", VStr timestamp);
                  ("api_version", VStr "v1")];
           ODict [("error", VRef (List.length h));
                  ("meta", VRef (S (List.length h)))]])
    (VRef (S (S (List.length h))))
  = Some (error_envelope status_code error_code message request_id timestamp).
Proof.
  cbn [reify].
  rewrite (lookup_app_r h _ (S (S (List.length h)))) by lia.
  replace (S (S (List.length h)) - List.length h)%nat with 2%nat by lia.
  cbn [lookup list_lookup mapM fst snd].
  rewrite (lookup_app_r h _ (List.length h)) by lia.
  rewrite (lookup_app_r h _ (S (List.length h))) by lia.
  replace (List.length h - List.length h)%nat with 0%nat by lia.
  replace (S (List.length h) - List.length h)%nat with 1%nat by lia.
  destruct fuel; reflexivity.
Qed.

(** Sending a freshly generated error envelope always succeeds. *)
Lemma error_response_sent (req : request) (http_status status_code : Z)
    (error_code message : string) (w : world) :
  (2 <= recursion_limit env)%nat ->
  let w_a := with_error_response w status_code error_code message
               ("req_error_" +:+ str_Z (request_number env (rand_pos (py w))))
               (utc_iso env (clock_pos (py w)) +:+ "+00:00") in
  (data <- lift_py (generate_error_response env status_code error_code
                                            message) ;;
   send_json_response env config req http_status data) w
  = (Ok tt,
     written (ticked w_a)
       (response_at env config req http_status
          (error_envelope status_code error_code message
             ("req_error_" +:+ str_Z (request_number env (rand_pos (py w))))
             (utc_iso env (clock_pos (py w)) +:+ "+00:00"))
          w_a)).
Proof.
  intros Hlimit w_a. unfold bind. rewrite generate_error_response_run.
  fold w_a. rewrite send_json_response_run.
  destruct (recursion_limit env) as [|[|fuel]]; [lia|lia|].
  unfold w_a at 1, with_error_response. cbn [py py_heap].
  by rewrite reify_error_response.
Qed.

Lemma respond_emission (g : M pystate value) (req : request)
    (status_code : Z) (w0 w : world) (res : result unit) (w' : world) :
  wfile w = wfile w0 ->
  (data <- lift_py g ;; send_json_response env config req status_code data) w
  = (res, w') ->
  emission env config req w0 w' /\ requests w' = requests w /\
  (forall e : exn, res = Raise e -> wfile w' = wfile w0).
Proof.
  intros Hw0 Hrun. apply respond_emits in Hrun as [Hreq [(e & -> & Hout)|Hok]].
  - split; [|split; [exact Hreq|intros; congruence]].
    exists []. rewrite app_nil_r. split; [congruence|].
    split; [cbn; lia|]. intros r [].
  - destruct Hok as (-> & w_a & data & body & Hg & Hbody & ->).
    apply lift_py_frame in Hg as (_ & Hreq_a & Hout_a).
    split; [|split; [exact Hreq|discriminate]].
    exists [response_at env config req status_code body w_a].
    cbn [written wfile ticked]. split; [congruence|]. split; [cbn; lia|].
    intros r [<-|[]]. exists w_a, status_code, body. done.
Qed.

(** C9. Whatever the handler does with a request (success, discovery, 404,
    429, injected 5xx or catch-all 500), it writes at most one response, and
    a response it writes carries [Content-Type: application/json],
    [Content-Length], the three [X-RateLimit-*] headers with the values of
    the limiter's status for the requesting client, and the three CORS
    headers. *)
Theorem every_response_has_headers (method : http_method) (req : request)
    (w : world) (res : result unit) (w' : world) :
  handle_request env config responses method req w = (res, w') ->
  exists new : list response,
    wfile w' = wfile w ++ new /\
    (List.length new <= 1)%nat /\
    forall r : response,
      In r new ->
      exists (w_a : world) (info : rate_info),
        get_rate_limit_info env config (client_address req) w_a
        = (Ok info, ticked w_a) /\
        requests w_a = requests w' /\
        resp_headers r =
          [("Content-Type", "application/json");
           ("Content-Length",
            str_Z (Z.of_nat (json_dumps_len env (resp_body r))));
           ("X-RateLimit-Limit", str_Z (ri_limit info));
           ("X-RateLimit-Remaining", str_Z (ri_remaining info));
           ("X-RateLimit-Reset", str_Z (ri_reset info));
           ("Access-Control-Allow-Origin", "*");
           ("Access-Control-Allow-Methods",
            "GET, POST, PUT, DELETE, OPTIONS");
           ("Access-Control-Allow-Headers", "Content-Type, Authorization")].
Proof.
  intros Hrun.
  assert (Hem : emission env config req w w').
  { rewrite handle_request_unfold in Hrun.
    destruct (Qltb (sleep_length _ _ _) 0).
    { injection Hrun as _ <-. exists []. rewrite app_nil_r.
      split; [done|]. split; [cbn; lia|]. intros r []. }
    rewrite is_rate_limited_step in Hrun.
    cbv zeta in Hrun.
    set (w2 := with_requests _ _) in Hrun.
    assert (Hw2 : wfile w2 = wfile w) by reflexivity.
    destruct (_ <=? _).
    - unfold send_rate_limit_response in Hrun.
      by apply (respond_emission _ _ _ w) in Hrun as [? _].
    - destruct (Qltb _ _).
      + unfold send_random_failure_response in Hrun. unfold bind at 1 in Hrun.
        destruct (lift_py _ (drawn w2)) as [[[[sc ec] msg]|e] w3] eqn:Hch.
        * apply lift_py_frame in Hch as (_ & _ & Hout).
          apply (respond_emission _ _ _ w) in Hrun as [? _]; [done|].
          by rewrite Hout.
        * apply lift_py_frame in Hch as (_ & _ & Hout).
          injection Hrun as _ <-. exists []. rewrite app_nil_r.
          split; [by rewrite Hout|]. split; [cbn; lia|]. intros r [].
      + unfold try_except in Hrun.
        destruct (handle_request_route _ _ _ _ _ _) as [[[]|e] w3] eqn:Hbody.
        * injection Hrun as _ <-. unfold handle_request_route in Hbody.
          destruct (split _ _) as [|provider [|action rest]];
            by apply (respond_emission _ _ _ w) in Hbody as [? _].
        * assert (Hquiet : wfile w3 = wfile w).
          { unfold handle_request_route in Hbody.
            destruct (split _ _) as [|provider [|action rest]];
              apply (respond_emission _ _ _ w) in Hbody as (_ & _ & Hq);
              try done; by apply (Hq e). }
          destruct (is_Exception e).
          -- unfold handle_request_except in Hrun.
             by apply (respond_emission _ _ _ w) in Hrun as [? _].
          -- injection Hrun as _ <-. exists []. rewrite app_nil_r.
             split; [done|]. split; [cbn; lia|]. intros r []. }
  destruct Hem as (new & Hout & Hlen & Hnew).
  exists new. split; [exact Hout|]. split; [exact Hlen|].
  intros r Hr. destruct (Hnew r Hr) as (w_a & sc & body & Hreq & ->).
  exists w_a. eexists. split; [apply get_rate_limit_info_step|].
  split; [exact Hreq|]. reflexivity.
Qed.

Lemma is_rate_limited_frame (c : string) (w : world) (limited : bool)
    (w2 : world) :
  is_rate_limited env config c w = (Ok limited, w2) ->
  wfile w2 = wfile w /\ py w2 = py (ticked w).
Proof.
  rewrite is_rate_limited_step. cbv zeta. intros [= _ <-]. done.
Qed.


(** What the handler does with a routed request for an unknown provider. *)
Lemma unknown_provider_response (method : http_method) (req : request)
    (w w2 : world) (provider action : string) (rest : list string) :
  nonnegative_delays config ->
  is_rate_limited env config (client_address req) (drawn w)
  = (Ok false, w2) ->
  Qltb (random_value env (rand_pos (py w2))) (failure_rate config) = false ->
  split "/" (strip "/" (url_path req)) = provider :: action :: rest ->
  action <> "test-scenarios" ->
  query_params req !! "scenario" = None ->
  assoc provider responses = None ->
  (2 <= recursion_limit env)%nat ->
  exists (w' : world) (r : response) (n : Z),
    handle_request env config responses method req w = (Ok tt, w') /\
    wfile w' = wfile w ++ [r] /\
    resp_status r = 200 /\
    resp_body r
    = error_envelope 404 "provider_not_found"
        ("Provider '" +:+ provider +:+ "' not supported")
        ("req_error_" +:+ str_Z n)
        (utc_iso env (clock_pos (py w2)) +:+ "+00:00").
Proof.
  intros Hdelay Hlim Hfail Hpath Haction Hquery Hmiss Hfuel.
  pose proof (is_rate_limited_frame _ _ _ _ Hlim) as [Hout _].
  rewrite (handle_request_slept Hdelay), Hlim, Hfail.
  unfold try_except, handle_request_route. rewrite Hpath.
  assert (Hroute :
            route_request env responses provider action method
              (query_params req)
            = generate_error_response env 404 "provider_not_found"
                ("Provider '" +:+ provider +:+ "' not supported")).
  { unfold route_request, get_response.
    apply String.eqb_neq in Haction. by rewrite Haction, Hquery, Hmiss. }
  rewrite Hroute.
  eexists _, _, _.
  split; [by rewrite error_response_sent|].
  cbn [written wfile ticked with_error_response resp_status resp_body
       response_at drawn py clock_pos].
  rewrite Hout. done.
Qed.

(** A rejected request whose fixture customizes and serializes. *)
Lemma rate_limited_runs_fixture (method : http_method)
    (req : request) (w w2 w3 : world) (scenarios : list (string * value))
    (template data : value) (body : json) :
  nonnegative_delays config ->
  is_rate_limited env config (client_address req) (drawn w) = (Ok true, w2) ->
  assoc "hetzner" responses = Some scenarios ->
  assoc "rate-limit-exceeded" scenarios = Some template ->
  lift_py (response <- copy template ;;
           customize_response env response []) w2 = (Ok data, w3) ->
  reify (recursion_limit env) (py_heap (py w3)) data = Some body ->
  handle_request env config responses method req w
  = send_rate_limit_response env config responses req w2 /\
  answers_with_fixture env config responses method req w /\
  exists w' : world,
    handle_request env config responses method req w = (Ok tt, w') /\
    wfile w' = wfile w ++ [response_at env config req 429 body w3].
Proof.
  intros Hdelay Hlim Hprov Hscen Hcust Hbody.
  assert (Hunf : handle_request env config responses method req w
                 = send_rate_limit_response env config responses req w2)
    by (by rewrite (handle_request_slept Hdelay), Hlim).
  assert (Hrun : handle_request env config responses method req w
                 = (Ok tt, written (ticked w3)
                             (response_at env config req 429 body w3))).
  { rewrite Hunf. unfold send_rate_limit_response, get_response.
    rewrite Hprov, Hscen. unfold bind at 1. rewrite Hcust.
    by rewrite send_json_response_run, Hbody. }
  split; [exact Hunf|]. split.
  - by exists w2, w3, scenarios, template, data, body.
  - exists (written (ticked w3) (response_at env config req 429 body w3)).
    split; [exact Hrun|].
    cbn [written wfile ticked].
    apply lift_py_frame in Hcust as (_ & _ & ->).
    by apply is_rate_limited_frame in Hlim as [-> _].
Qed.

(** C6 (amended). With non-negative delays, a request rejected by the rate
    limiter is handled by [send_rate_limit_response] alone, from the world
    the limiter left: no failure is drawn and nothing is routed, whatever
    the path and whatever the store holds. When the store holds a
    [hetzner]/[rate-limit-exceeded] fixture that is an object or an array,
    laid out as a tree of nesting within the recursion limit, exactly one
    response is written; it has status 429 and its body is the customized
    copy of that fixture. *)
Theorem rate_limited_response_is_fixture (method : http_method)
    (req : request) (w w2 : world) :
  nonnegative_delays config ->
  is_rate_limited env config (client_address req) (drawn w) = (Ok true, w2) ->
  handle_request env config responses method req w
  = send_rate_limit_response env config responses req w2 /\
  forall (scenarios : list (string * value)) (template : value)
         (lo hi : nat) (j : json),
    assoc "hetzner" responses = Some scenarios ->
    assoc "rate-limit-exceeded" scenarios = Some template ->
    tree (py_heap (py w)) lo hi template j ->
    is_container template = true ->
    (depth j <= recursion_limit env)%nat ->
    answers_with_fixture env config responses method req w /\
    exists (w' : world) (r : response),
      handle_request env config responses method req w = (Ok tt, w') /\
      wfile w' = wfile w ++ [r] /\
      resp_status r = 429 /\
      customized (utc_iso env (clock_pos (py w2)) +:+ "+00:00") j
                 (resp_body r).
Proof.
  intros Hdelay Hlim.
  split; [by rewrite (handle_request_slept Hdelay), Hlim|].
  intros scenarios template lo hi j Hprov Hscen Ht Hc Hd.
  pose proof (is_rate_limited_frame _ _ _ _ Hlim) as [_ Hpy].
  assert (Ht2 : tree (py_heap (py w2)) lo hi template j) by (by rewrite Hpy).
  destruct (get_response_tree env responses "hetzner" "rate-limit-exceeded"
              scenarios template (py w2) lo hi j Hprov Hscen Ht2 Hc Hd)
    as (data & s' & j' & _ & Hrun & Hbody & Hcust).
  set (w3 := {| py := s'; requests := requests w2; wfile := wfile w2 |}).
  assert (Hlift : lift_py (response <- copy template ;;
                           customize_response env response []) w2
                  = (Ok data, w3)).
  { unfold lift_py. by rewrite Hrun. }
  destruct (rate_limited_runs_fixture method req w w2 w3 scenarios template
              data j' Hdelay Hlim Hprov Hscen Hlift Hbody)
    as (_ & Hans & w' & Hhandle & Hout).
  split; [exact Hans|].
  exists w', (response_at env config req 429 j' w3). done.
Qed.

End PipelineProperties.

Lemma sample_config_delays (rate_limit : Z) :
  nonnegative_delays (sample_config rate_limit).
Proof. split; cbn; unfold Qle; cbn; lia. Qed.

Lemma every_response_has_headers_witness :
  let run := handle_request steady_env (sample_config 100) sample_store GET
               (sample_request "/hetzner/servers") sample_world in
  run = (Ok tt, run.2) /\
  exists new : list response,
    wfile run.2 = wfile sample_world ++ new /\
    List.Forall
      (fun r => map fst (resp_headers r)
                = ["Content-Type"; "Content-Length"; "X-RateLimit-Limit";
                   "X-RateLimit-Remaining"; "X-RateLimit-Reset";
                   "Access-Control-Allow-Origin";
                   "Access-Control-Allow-Methods";
                   "Access-Control-Allow-Headers"]) new.
Proof.
  intros run.
  assert (H : run = (Ok tt, run.2)) by (vm_compute; reflexivity).
  split; [exact H|].
  destruct (every_response_has_headers steady_env (sample_config 100)
              sample_store GET (sample_request "/hetzner/servers")
              sample_world (Ok tt) run.2 H) as (new & Hout & _ & Hall).
  exists new. split; [exact Hout|].
  apply List.Forall_forall. intros r Hr.
  destruct (Hall r Hr) as (w_a & info & _ & _ & ->). reflexivity.
Defined.



(** C6 as stated fails: with an empty store a rejected request is not
    answered with any fixture; its body is the lookup-miss envelope. *)
Lemma rejected_request_without_fixture :
  let run := handle_request steady_env (sample_config 0) [] GET
               (sample_request "/aws/instances") empty_world in
  (exists w2 : world,
     is_rate_limited steady_env (sample_config 0) "10.0.0.1"
       (drawn empty_world) = (Ok true, w2)) /\
  ~ answers_with_fixture steady_env (sample_config 0) [] GET
      (sample_request "/aws/instances") empty_world /\
  exists r : response,
    wfile run.2 = [r] /\
    resp_status r = 429 /\
    resp_body r
    = error_envelope 404 "provider_not_found"
        "Provider 'hetzner' not supported" "req_error_100007"
        "2024-05-01T12:00:00.000000+00:00".
Proof.
  intros run. split; [eexists; vm_compute; reflexivity|]. split.
  - intros (w2 & w3 & scenarios & template & data & body & _ & Hprov & _).
    discriminate Hprov.
  - eexists. split; [vm_compute; reflexivity|]. split; reflexivity.
Qed.

Lemma sample_rate_limit_fixture_tree :
  tree (py_heap (py sample_world)) 4 7 (VRef 6%nat)
       (JObj [("error",
               JObj [("code", JStr "rate_limit_exceeded");
                     ("message", JStr "Rate limit exceeded")]);
              ("meta",
               JObj [("request_id", JStr "req_000002");
                     ("timestamp", JStr "2023-01-01T00:00:00+00:00")])]).
Proof.
  destruct (json_load_tree
              (JObj [("error",
                      JObj [("code", JStr "rate_limit_exceeded");
                            ("message", JStr "Rate limit exceeded")]);
                     ("meta",
                      JObj [("request_id", JStr "req_000002");
                            ("timestamp",
                             JStr "2023-01-01T00:00:00+00:00")])])
              eq_refl
              (json_load
                 (JObj [("server",
                         JObj [("id", JInt 42);
                               ("name", JStr "arcdeploy-test");
                               ("created",
                                JStr "2023-01-01T00:00:00+00:00")]);
                        ("action",
                         JObj [("started",
                                JStr "2023-01-01T00:00:00+00:00");
                               ("finished", JNull); ("progress", JInt 0)]);
                        ("meta", JObj [("request_id", JStr "req_000001")])])
                 (py empty_world)).2)
    as (v & s' & Hload & _ & _ & _ & Ht).
  vm_compute in Hload. injection Hload as <- <-. exact Ht.
Qed.

Lemma rate_limited_response_is_fixture_witness :
  let w2 := (is_rate_limited steady_env (sample_config 0) "10.0.0.1"
               (drawn sample_world)).2 in
  let j := JObj [("error",
                  JObj [("code", JStr "rate_limit_exceeded");
                        ("message", JStr "Rate limit exceeded")]);
                 ("meta",
                  JObj [("request_id", JStr "req_000002");
                        ("timestamp",
                         JStr "2023-01-01T00:00:00+00:00")])] in
  nonnegative_delays (sample_config 0) /\
  is_rate_limited steady_env (sample_config 0)
    (client_address (sample_request "/aws/instances")) (drawn sample_world)
  = (Ok true, w2) /\
  handle_request steady_env (sample_config 0) sample_store GET
    (sample_request "/aws/instances") sample_world
  = send_rate_limit_response steady_env (sample_config 0) sample_store
      (sample_request "/aws/instances") w2 /\
  assoc "hetzner" sample_store
  = Some [("success-create-server", VRef 3%nat);
          ("rate-limit-exceeded", VRef 6%nat)] /\
  assoc "rate-limit-exceeded"
    [("success-create-server", VRef 3%nat);
     ("rate-limit-exceeded", VRef 6%nat)] = Some (VRef 6%nat) /\
  tree (py_heap (py sample_world)) 4 7 (VRef 6%nat) j /\
  is_container (VRef 6%nat) = true /\
  (depth j <= recursion_limit steady_env)%nat /\
  exists (w' : world) (r : response),
    handle_request steady_env (sample_config 0) sample_store GET
      (sample_request "/aws/instances") sample_world = (Ok tt, w') /\
    wfile w' = wfile sample_world ++ [r] /\
    resp_status r = 429 /\
    customized "2024-05-01T12:00:00.000000+00:00" j (resp_body r).
Proof.
  intros w2 j.
  assert (H1 : is_rate_limited steady_env (sample_config 0)
                 (client_address (sample_request "/aws/instances"))
                 (drawn sample_world) = (Ok true, w2))
    by (vm_compute; reflexivity).
  assert (H2 : assoc "hetzner" sample_store
               = Some [("success-create-server", VRef 3%nat);
                       ("rate-limit-exceeded", VRef 6%nat)])
    by (vm_compute; reflexivity).
  assert (H3 : assoc "rate-limit-exceeded"
                 [("success-create-server", VRef 3%nat);
                  ("rate-limit-exceeded", VRef 6%nat)] = Some (VRef 6%nat))
    by reflexivity.
  assert (H5 : is_container (VRef 6%nat) = true) by reflexivity.
  assert (H6 : (depth j <= recursion_limit steady_env)%nat)
    by (vm_compute; lia).
  destruct (rate_limited_response_is_fixture steady_env (sample_config 0)
              sample_store GET (sample_request "/aws/instances")
              sample_world w2 (sample_config_delays 0) H1)
    as [Halone Hfixture].
  split; [exact (sample_config_delays 0)|].
  split; [exact H1|]. split; [exact Halone|].
  split; [exact H2|]. split; [exact H3|].
  split; [exact sample_rate_limit_fixture_tree|]. split; [exact H5|].
  split; [exact H6|].
  exact (proj2 (Hfixture _ _ 4%nat 7%nat j H2 H3
                  sample_rate_limit_fixture_tree H5 H6)).
Defined.

(** C2 fails on the code: a routed request for a provider that the store
    does not hold is answered with HTTP status 200; only the envelope in
    the body says 404. *)
Theorem unknown_provider_answered_with_200 :
  let run := handle_request steady_env (sample_config 100) sample_store GET
               (sample_request "/doesnotexist/servers") sample_world in
  assoc "doesnotexist" sample_store = None /\
  exists (w' : world) (r : response),
    run = (Ok tt, w') /\
    wfile w' = [r] /\
    resp_status r = 200 /\
    resp_body r
    = error_envelope 404 "provider_not_found"
        "Provider 'doesnotexist' not supported" "req_error_100014"
        "2024-05-01T12:00:00.000000+00:00".
Proof.
  intros run. split; [reflexivity|]. eexists _, _.
  split; [vm_compute; reflexivity|]. repeat split; reflexivity.
Qed.

(** * Further properties of the rate limiter and of the pipeline *)

Section FurtherPipelineProperties.

Variable env : environment.
Variable config : MockAPIConfig.
Variable responses : list (string * list (string * value)).

(** What a verdict of the limiter says about the world it leaves. *)
Lemma is_rate_limited_inv (c : string) (w : world) (limited : bool)
    (w2 : world) :
  is_rate_limited env config c w = (Ok limited, w2) ->
  let now := wall_clock env (clock_pos (py w)) in
  let kept := List.filter (in_window (rate_limit_window config) now)
                          (stored w c) in
  limited = (rate_limit_requests config <=? Z.of_nat (List.length kept)) /\
  requests w2 = <[c := if limited then kept else kept ++ [now]]> (requests w) /\
  py w2 = py (ticked w) /\
  wfile w2 = wfile w.
Proof.
  rewrite is_rate_limited_step. cbv zeta. intros [= <- <-]. done.
Qed.

(** The handler touches the limiter's table through its one check only,
    and writes at most one response. *)
Lemma handle_request_effect (method : http_method) (req : request)
    (w : world) (res : result unit) (w' : world) :
  handle_request env config responses method req w = (res, w') ->
  requests w'
  = (if Qltb (sleep_length env config (rand_pos (py w))) 0 then requests w
     else requests (is_rate_limited env config (client_address req)
                                    (drawn w)).2) /\
  emission env config req w w'.
Proof.
  intros Hrun.
  rewrite handle_request_unfold in Hrun.
  assert (Hnone : forall w3, wfile w3 = wfile w ->
            emission env config req w w3).
  { intros w3 H3. exists []. rewrite app_nil_r.
    split; [done|]. split; [cbn; lia|]. intros r []. }
  destruct (Qltb (sleep_length _ _ _) 0).
  { injection Hrun as _ <-. split; [done|]. by apply Hnone. }
  destruct (is_rate_limited env config (client_address req) (drawn w))
    as [[limited|e] w2] eqn:Hlim.
  2:{ rewrite is_rate_limited_step in Hlim. discriminate Hlim. }
  pose proof (is_rate_limited_inv _ _ _ _ Hlim) as (_ & _ & _ & Hw2).
  cbv zeta in Hw2. cbn [snd].
  assert (Hw2' : wfile w2 = wfile w) by (by rewrite Hw2).
  destruct limited.
  - unfold send_rate_limit_response in Hrun.
    apply (respond_emission _ _ _ _ _ w) in Hrun as (? & ? & _); done.
  - destruct (Qltb _ _).
    + unfold send_random_failure_response in Hrun. unfold bind at 1 in Hrun.
      destruct (lift_py _ (drawn w2)) as [[[[sc ec] msg]|e] w3] eqn:Hch.
      * apply lift_py_frame in Hch as (_ & Hreq & Hout).
        apply (respond_emission _ _ _ _ _ w) in Hrun as (? & Hr & _);
          [split; [by rewrite Hr, Hreq|done]|by rewrite Hout].
      * apply lift_py_frame in Hch as (_ & Hreq & Hout).
        injection Hrun as _ <-. split; [done|]. apply Hnone. by rewrite Hout.
    + unfold try_except in Hrun.
      destruct (handle_request_route _ _ _ _ _ _) as [[[]|e] w3] eqn:Hbody.
      * injection Hrun as _ <-. unfold handle_request_route in Hbody.
        destruct (split _ _) as [|provider [|action rest]];
          apply (respond_emission _ _ _ _ _ w) in Hbody as (? & ? & _);
          done.
      * assert (Hquiet : wfile w3 = wfile w /\ requests w3 = requests w2).
        { unfold handle_request_route in Hbody.
          destruct (split _ _) as [|provider [|action rest]];
            apply (respond_emission _ _ _ _ _ w) in Hbody
              as (_ & Hr & Hq); try done;
            (split; [by apply (Hq e)|done]). }
        destruct Hquiet as [Hq3 Hr3].
        destruct (is_Exception e).
        -- unfold handle_request_except in Hrun.
           apply (respond_emission _ _ _ _ _ w) in Hrun as (? & Hr & _);
             [split; [by rewrite Hr|done]|done].
        -- injection Hrun as _ <-. split; [done|]. by apply Hnone.
Qed.

Lemma requests_after_request (method : http_method) (req : request)
    (w : world) :
  let now := wall_clock env (clock_pos (py w)) in
  let kept := List.filter (in_window (rate_limit_window config) now)
                          (stored w (client_address req)) in
  requests (handle_request env config responses method req w).2
  = if Qltb (sleep_length env config (rand_pos (py w))) 0 then requests w
    else <[client_address req :=
             if rate_limit_requests config <=? Z.of_nat (List.length kept)
             then kept else kept ++ [now]]> (requests w).
Proof.
  cbv zeta.
  destruct (handle_request env config responses method req w)
    as [res w'] eqn:Hrun.
  cbn [snd]. apply handle_request_effect in Hrun as [-> _].
  destruct (Qltb _ _); [done|].
  rewrite is_rate_limited_step. reflexivity.
Qed.

Lemma table_bounded_request (method : http_method) (req : request)
    (w : world) :
  table_bounded config w ->
  table_bounded config (handle_request env config responses method req w).2.
Proof.
  intros Hb c. unfold stored. rewrite requests_after_request. cbv zeta.
  destruct (Qltb _ _); [apply Hb|].
  set (now := wall_clock env (clock_pos (py w))).
  set (kept := List.filter _ _).
  destruct (decide (c = client_address req)) as [->|Hne].
  - rewrite lookup_insert_eq. cbn [default from_option]. unfold id.
    pose proof (Hb (client_address req)) as Hc.
    pose proof (List.filter_length_le
                  (in_window (rate_limit_window config) now)
                  (stored w (client_address req))) as Hk.
    fold kept in Hk.
    destruct (_ <=? _) eqn:Hlim.
    + lia.
    + apply Z.leb_gt in Hlim. rewrite List.length_app. cbn [List.length].
      lia.
  - rewrite lookup_insert_ne by done. apply Hb.
Qed.

(** X1. With a non-negative limit, the limiter never holds more than
    [rate_limit_requests] timestamps for a client, however many requests
    are served; hence the status's [remaining] is exactly the limit minus
    the number recorded, the clamp at zero never being needed. *)
Theorem recorded_timestamps_bounded (reqs : list (http_method * request))
    (w : world) (c : string) :
  0 <= rate_limit_requests config ->
  table_bounded config w ->
  let w' := serve_requests env config responses reqs w in
  table_bounded config w' /\
  exists info : rate_info,
    get_rate_limit_info env config c w' = (Ok info, ticked w') /\
    ri_remaining info + Z.of_nat (List.length (stored w' c))
    = rate_limit_requests config.
Proof.
  intros Hlimit Hb. cbv zeta.
  assert (Hb' : table_bounded config
                  (serve_requests env config responses reqs w)).
  { revert w Hb. induction reqs as [|[method req] reqs IH]; intros w Hb;
      [done|].
    cbn [serve_requests]. apply IH. by apply table_bounded_request. }
  split; [exact Hb'|]. eexists. split; [apply get_rate_limit_info_step|].
  cbn [ri_remaining]. specialize (Hb' c). lia.
Qed.


(** X3. A response to a request that the limiter rejected always reports
    [X-RateLimit-Remaining: 0], with status 429, whether or not the store
    holds the rate-limit fixture. *)
Theorem rejected_reports_zero_remaining (method : http_method)
    (req : request) (w w2 : world) (res : result unit) (w' : world) :
  is_rate_limited env config (client_address req) (drawn w) = (Ok true, w2) ->
  handle_request env config responses method req w = (res, w') ->
  exists new : list response,
    wfile w' = wfile w ++ new /\
    forall r : response,
      In r new ->
      resp_status r = 429 /\
      assoc "X-RateLimit-Remaining" (resp_headers r) = Some "0".
Proof.
  intros Hlim Hrun.
  pose proof (is_rate_limited_inv _ _ _ _ Hlim) as (Hfull & Hreq2 & _ & Hw2).
  cbv zeta in Hfull, Hreq2.
  rewrite handle_request_unfold in Hrun.
  destruct (Qltb (sleep_length _ _ _) 0).
  { injection Hrun as _ <-. exists []. rewrite app_nil_r.
    split; [done|]. intros r []. }
  rewrite Hlim in Hrun.
  unfold send_rate_limit_response in Hrun.
  apply respond_emits in Hrun as [_ [(e & -> & Hout)|Hok]].
  - exists []. rewrite app_nil_r. split; [by rewrite Hout|]. intros r [].
  - destruct Hok as (-> & w_a & data & body & Hg & _ & ->).
    apply lift_py_frame in Hg as (_ & Hreq_a & Hout_a).
    exists [response_at env config req 429 body w_a].
    split; [cbn [written wfile ticked]; by rewrite Hout_a, Hw2|].
    intros r [<-|[]]. split; [reflexivity|].
    unfold response_at, stored. cbn [resp_headers assoc String.eqb].
    rewrite Hreq_a, Hreq2, lookup_insert_eq.
    cbn [default from_option]. unfold id.
    symmetry in Hfull. apply Z.leb_le in Hfull.
    replace (Z.max 0 _) with 0 by lia. reflexivity.
Qed.

End FurtherPipelineProperties.

Lemma sample_world_bounded (rate_limit : Z) :
  table_bounded (sample_config rate_limit) sample_world.
Proof.
  intros c. unfold stored. cbn [sample_world requests].
  rewrite lookup_empty. cbn. lia.
Qed.


Lemma recorded_timestamps_bounded_witness :
  let reqs := [(GET, sample_request "/hetzner/servers");
               (POST, sample_request "/hetzner/servers");
               (GET, sample_request "/hetzner/test-scenarios")] in
  0 <= rate_limit_requests (sample_config 2) /\
  table_bounded (sample_config 2) sample_world /\
  table_bounded (sample_config 2)
    (serve_requests steady_env (sample_config 2) sample_store reqs
                    sample_world).
Proof.
  intros reqs.
  assert (H1 : 0 <= rate_limit_requests (sample_config 2)) by (simpl; lia).
  split; [exact H1|]. split; [exact (sample_world_bounded 2)|].
  exact (proj1 (recorded_timestamps_bounded steady_env (sample_config 2)
                  sample_store reqs sample_world "10.0.0.1" H1
                  (sample_world_bounded 2))).
Defined.

Lemma rejected_reports_zero_remaining_witness :
  let run := handle_request steady_env (sample_config 0) [] GET
               (sample_request "/aws/instances") empty_world in
  let w2 := (is_rate_limited steady_env (sample_config 0) "10.0.0.1"
               (drawn empty_world)).2 in
  is_rate_limited steady_env (sample_config 0)
    (client_address (sample_request "/aws/instances")) (drawn empty_world)
  = (Ok true, w2) /\
  run = (run.1, run.2) /\
  exists new : list response,
    wfile run.2 = wfile empty_world ++ new /\
    forall r : response,
      In r new ->
      resp_status r = 429 /\
      assoc "X-RateLimit-Remaining" (resp_headers r) = Some "0".
Proof.
  intros run w2.
  assert (H1 : is_rate_limited steady_env (sample_config 0)
                 (client_address (sample_request "/aws/instances"))
                 (drawn empty_world) = (Ok true, w2))
    by (vm_compute; reflexivity).
  assert (H2 : run = (run.1, run.2)) by (by destruct run).
  split; [exact H1|]. split; [exact H2|].
  exact (rejected_reports_zero_remaining steady_env (sample_config 0) [] GET
           (sample_request "/aws/instances") empty_world w2 run.1 run.2
           H1 H2).
Defined.

(** * Further properties of the handler *)

Section FurtherHandlerProperties.

Variable env : environment.
Variable config : MockAPIConfig.
Variable responses : list (string * list (string * value)).

Lemma split_without_separator (c : ascii) (s : string) :
  has_char c s = false -> split c s = [s].
Proof.
  induction s as [|a s IH]; [done|]. cbn [has_char split].
  intros H. apply orb_false_iff in H as [-> H]. by rewrite (IH H).
Qed.

Lemma split_with_separator (c : ascii) (s : string) :
  has_char c s = true ->
  exists (first second : string) (rest : list string),
    split c s = first :: second :: rest.
Proof.
  induction s as [|a s IH]; [done|]. cbn [has_char split].
  destruct (Ascii.eqb a c).
  - intros _. destruct (split c s) as [|x xs] eqn:Hs.
    + destruct s; cbn in Hs; [discriminate|].
      destruct (Ascii.eqb _ _); [discriminate|].
      destruct (split c s); discriminate.
    + by exists "", x, xs.
  - cbn [orb]. intros H. destruct (IH H) as (x & y & r & ->).
    by exists (String a x), y, r.
Qed.

(** The pipeline of an admitted request on which no failure is drawn. *)
Lemma handle_request_routed (method : http_method) (req : request)
    (w w2 : world) :
  nonnegative_delays config ->
  is_rate_limited env config (client_address req) (drawn w)
  = (Ok false, w2) ->
  Qltb (random_value env (rand_pos (py w2))) (failure_rate config) = false ->
  handle_request env config responses method req w
  = try_except (handle_request_route env config responses method req)
               (handle_request_except env config req) (drawn w2).
Proof.
  intros Hdelay Hlim Hfail. by rewrite (handle_request_slept _ _ _ Hdelay), Hlim, Hfail.
Qed.

(** Sending a fresh dict of two strings. *)
Lemma two_strings_sent (req : request) (status_code : Z)
    (k1 v1 k2 v2 : string) (w : world) :
  (1 <= recursion_limit env)%nat ->
  let w_a := allocated w (ODict [(k1, VStr v1); (k2, VStr v2)]) in
  (body <- lift_py (alloc (ODict [(k1, VStr v1); (k2, VStr v2)])) ;;
   send_json_response env config req status_code body) w
  = (Ok tt,
     written (ticked w_a)
       (response_at env config req status_code
          (JObj [(k1, JStr v1); (k2, JStr v2)]) w_a)).
Proof.
  intros Hfuel w_a. unfold bind.
  replace (lift_py (alloc (ODict [(k1, VStr v1); (k2, VStr v2)])) w)
    with (Ok (VRef (List.length (py_heap (py w)))), w_a)
    by (by destruct w as [[h rp cp] reqs out]).
  rewrite send_json_response_run.
  destruct (recursion_limit env) as [|fuel]; [lia|].
  unfold w_a at 1, allocated. cbn [py with_heap py_heap reify].
  rewrite list_lookup_middle by done.
  by destruct fuel.
Qed.

(** X4. With non-negative delays, an admitted request on which no failure
    is drawn and whose path,
    stripped of leading and trailing slashes, contains no slash (one
    segment, possibly empty) is answered with status 404 and the generic
    invalid-endpoint body, which is not the envelope of a lookup miss. *)
Theorem short_path_is_invalid_endpoint (method : http_method) (req : request)
    (w w2 : world) :
  nonnegative_delays config ->
  is_rate_limited env config (client_address req) (drawn w)
  = (Ok false, w2) ->
  Qltb (random_value env (rand_pos (py w2))) (failure_rate config) = false ->
  has_char "/" (strip "/" (url_path req)) = false ->
  (1 <= recursion_limit env)%nat ->
  exists (w' : world) (r : response),
    handle_request env config responses method req w = (Ok tt, w') /\
    wfile w' = wfile w ++ [r] /\
    resp_status r = 404 /\
    resp_body r
    = JObj [("error", JStr "Invalid API endpoint");
            ("message", JStr "Expected format: /{provider}/{action}")].
Proof.
  intros Hdelay Hlim Hfail Hpath Hfuel.
  pose proof (is_rate_limited_inv env config _ _ _ _ Hlim)
    as (_ & _ & _ & Hw2).
  rewrite (handle_request_routed _ _ _ _ Hdelay Hlim Hfail).
  unfold try_except, handle_request_route.
  rewrite (split_without_separator _ _ Hpath).
  rewrite two_strings_sent by done.
  eexists _, _. split; [reflexivity|].
  cbn [written wfile ticked allocated drawn resp_status resp_body
       response_at]. by rewrite Hw2.
Qed.

Lemma reify_strings {A} (fuel : nat) (h : heap) (l : list (string * A)) :
  mapM (reify fuel h) (map (fun kv : string * A => VStr kv.1) l)
  = Some (map (fun kv : string * A => JStr kv.1) l).
Proof.
  induction l as [|kv l IH]; [done|]. cbn [map mapM].
  rewrite (reify_scalar fuel h (VStr kv.1) (JStr kv.1) eq_refl). cbn.
  by rewrite IH.
Qed.

Lemma reify_discovery (fuel : nat) (h : heap) (provider : string)
    (x1 x2 x3 usage : string) (available : list (string * value)) :
  reify (S (S fuel))
    (h ++ [OList (map (fun kv : string * value => VStr kv.1) available);
           OList [VStr x1; VStr x2; VStr x3];
           ODict [("provider", VStr provider);
                  ("available_scenarios", VRef (List.length h));
                  ("usage", VStr usage);
                  ("examples", VRef (S (List.length h)))]])
    (VRef (S (S (List.length h))))
  = Some (JObj [("provider", JStr provider);
                ("available_scenarios",
                 JArr (map (fun kv : string * value => JStr kv.1) available));
                ("usage", JStr usage);
                ("examples", JArr [JStr x1; JStr x2; JStr x3])]).
Proof.
  cbn [reify].
  rewrite (lookup_app_r h _ (S (S (List.length h)))) by lia.
  replace (S (S (List.length h)) - List.length h)%nat with 2%nat by lia.
  cbn [lookup list_lookup mapM fst snd].
  rewrite (lookup_app_r h _ (List.length h)) by lia.
  rewrite (lookup_app_r h _ (S (List.length h))) by lia.
  replace (List.length h - List.length h)%nat with 0%nat by lia.
  replace (S (List.length h) - List.length h)%nat with 1%nat by lia.
  cbn [lookup list_lookup]. rewrite reify_strings.
  destruct fuel; reflexivity.
Qed.

(** X5. With non-negative delays, an admitted request on which no failure
    is drawn and whose second
    path segment is [test-scenarios] is answered with status 200 and the
    discovery body: the provider, the names of its scenarios in store
    order (none for an unknown provider), the usage line and three example
    URLs. The query plays no part and no fixture is read. *)
Theorem discovery_lists_scenarios (method : http_method) (req : request)
    (w w2 : world) (provider : string) (rest : list string) :
  nonnegative_delays config ->
  is_rate_limited env config (client_address req) (drawn w)
  = (Ok false, w2) ->
  Qltb (random_value env (rand_pos (py w2))) (failure_rate config) = false ->
  split "/" (strip "/" (url_path req)) = provider :: "test-scenarios" :: rest ->
  (2 <= recursion_limit env)%nat ->
  exists (w' : world) (r : response) (added : list object),
    handle_request env config responses method req w = (Ok tt, w') /\
    wfile w' = wfile w ++ [r] /\
    resp_status r = 200 /\
    resp_body r = discovery_body responses provider /\
    py_heap (py w') = py_heap (py w) ++ added.
Proof.
  intros Hdelay Hlim Hfail Hpath Hfuel.
  pose proof (is_rate_limited_inv env config _ _ _ _ Hlim)
    as (_ & _ & Hpy2 & Hw2).
  rewrite (handle_request_routed _ _ _ _ Hdelay Hlim Hfail).
  unfold try_except, handle_request_route. rewrite Hpath.
  unfold route_request. cbn [String.eqb Ascii.eqb Bool.eqb].
  unfold bind at 1.
  set (w3 := drawn w2).
  set (h := py_heap (py w3)).
  set (objs :=
    [OList (map (fun kv : string * value => VStr kv.1)
                (default [] (assoc provider responses)));
     OList [VStr ("/" +:+ provider
                  +:+ "/servers?scenario=rate-limit-exceeded");
            VStr ("/" +:+ provider +:+ "/servers?scenario=quota-exceeded");
            VStr ("/" +:+ provider +:+ "/servers?scenario=auth-failed")];
     ODict [("provider", VStr provider);
            ("available_scenarios", VRef (List.length h));
            ("usage",
             VStr "Add ?scenario=<scenario_name> to test specific scenarios");
            ("examples", VRef (S (List.length h)))]]).
  set (w4 := {| py := with_heap (py w3) (h ++ objs);
                requests := requests w3; wfile := wfile w3 |}).
  assert (Hrun : lift_py (handle_test_scenarios responses provider
                            (query_params req)) w3
                 = (Ok (VRef (S (S (List.length h)))), w4)).
  { unfold w4, objs, h. destruct w3 as [[h3 rp cp] reqs out].
    unfold lift_py, handle_test_scenarios, alloc, bind, gets, set_heap,
      modify, ret, with_heap.
    cbn [py py_heap rand_pos clock_pos requests wfile].
    rewrite !List.length_app. cbn [List.length].
    rewrite <- !app_assoc. cbn [app].
    repeat f_equal; lia. }
  rewrite Hrun, send_json_response_run.
  destruct (recursion_limit env) as [|[|fuel]]; [lia|lia|].
  unfold w4 at 1. cbn [py with_heap py_heap]. unfold objs.
  rewrite reify_discovery.
  eexists _, _, objs. split; [reflexivity|].
  unfold w4, h, w3.
  cbn [written wfile ticked drawn resp_status resp_body response_at py
       py_heap with_heap].
  split; [by rewrite Hw2|]. split; [done|]. split; [done|].
  by rewrite Hpy2.
Qed.

(** X6. With non-negative delays, when the failure draw of an admitted
    request is below
    [failure_rate], the response is one of the four canned failures: its
    HTTP status and the [status_code] of its envelope are the same entry of
    [failures], and nothing is routed. *)
Theorem injected_failure_response (method : http_method) (req : request)
    (w w2 : world) :
  nonnegative_delays config ->
  is_rate_limited env config (client_address req) (drawn w)
  = (Ok false, w2) ->
  Qltb (random_value env (rand_pos (py w2))) (failure_rate config) = true ->
  (2 <= recursion_limit env)%nat ->
  exists (w' : world) (r : response) (status_code : Z)
         (error_code message : string) (n : Z),
    handle_request env config responses method req w = (Ok tt, w') /\
    wfile w' = wfile w ++ [r] /\
    In (status_code, error_code, message) failures /\
    resp_status r = status_code /\
    100000 <= n <= 999999 /\
    resp_body r
    = error_envelope status_code error_code message
        ("req_error_" +:+ str_Z n)
        (utc_iso env (clock_pos (py w2)) +:+ "+00:00").
Proof.
  intros Hdelay Hlim Hfail Hfuel.
  pose proof (is_rate_limited_inv env config _ _ _ _ Hlim)
    as (_ & _ & _ & Hw2).
  rewrite (handle_request_slept _ _ _ Hdelay), Hlim, Hfail.
  unfold send_random_failure_response. unfold bind at 1.
  set (w3 := drawn w2).
  set (choice := nth (N.to_nat (rand env (rand_pos (py w3)))
                      mod List.length failures)%nat failures (500, "", "")).
  replace (lift_py (random_choice env (500, "", "") failures) w3)
    with (Ok choice, drawn w3)
    by (by destruct w3 as [[h rp cp] reqs out]).
  assert (Hin : In choice failures).
  { apply List.nth_In. apply Nat.mod_upper_bound. cbn. lia. }
  destruct choice as [[sc ec] msg].
  rewrite (error_response_sent env config) by done.
  eexists _, _, sc, ec, msg, _. split; [reflexivity|].
  cbn [written wfile ticked with_error_response drawn resp_status resp_body
       response_at py clock_pos w3].
  split; [by rewrite Hw2|]. split; [done|]. split; [done|].
  split; [apply request_number_range|reflexivity].
Qed.


(** X8. With non-negative delays and a failure rate of one or more a
    failure is always injected: no admitted request reaches the router. *)
Theorem always_failure_at_rate_one (method : http_method) (req : request)
    (w w2 : world) :
  nonnegative_delays config ->
  is_rate_limited env config (client_address req) (drawn w)
  = (Ok false, w2) ->
  (1 <= failure_rate config)%Q ->
  handle_request env config responses method req w
  = send_random_failure_response env config req (drawn w2).
Proof.
  intros Hdelay Hlim Hrate. rewrite (handle_request_slept _ _ _ Hdelay), Hlim.
  assert (Qltb (random_value env (rand_pos (py w2))) (failure_rate config)
          = true) as ->; [|done].
  apply Qltb_lt. pose proof (random_value_range env (rand_pos (py w2))). lra.
Qed.

Lemma route_request_resolved (provider action scenario : string)
    (method : http_method) (query : gmap string (list string)) :
  action <> "test-scenarios" ->
  resolved_scenario action query = Some scenario ->
  route_request env responses provider action method query
  = get_response env responses provider scenario [].
Proof.
  intros Haction Hres. unfold route_request, resolved_scenario in *.
  apply String.eqb_neq in Haction. rewrite Haction.
  destruct (query !! "scenario") as [[|first others]|];
    inversion Hres; subst; reflexivity.
Qed.

Lemma copy_scalar (v : value) (s : pystate) :
  is_container v = false ->
  copy v s
  = (Raise (AttributeError ("'" +:+ scalar_type_name v
                            +:+ "' object has no attribute 'copy'")), s).
Proof. by destruct v. Qed.

(** X9. With non-negative delays, a routed request that hits a fixture
    which is not an object or an
    array (a bare string, number, boolean or null) is answered with status
    500: [copy] does not exist on such a value, and the catch-all reports
    the [AttributeError]. *)
Theorem scalar_fixture_is_internal_error (method : http_method)
    (req : request) (w w2 : world) (provider action scenario : string)
    (rest : list string) (scenarios : list (string * value))
    (template : value) :
  nonnegative_delays config ->
  is_rate_limited env config (client_address req) (drawn w)
  = (Ok false, w2) ->
  Qltb (random_value env (rand_pos (py w2))) (failure_rate config) = false ->
  split "/" (strip "/" (url_path req)) = provider :: action :: rest ->
  action <> "test-scenarios" ->
  resolved_scenario action (query_params req) = Some scenario ->
  assoc provider responses = Some scenarios ->
  assoc scenario scenarios = Some template ->
  is_container template = false ->
  (1 <= recursion_limit env)%nat ->
  exists (w' : world) (r : response),
    handle_request env config responses method req w = (Ok tt, w') /\
    wfile w' = wfile w ++ [r] /\
    resp_status r = 500 /\
    resp_body r
    = JObj [("error", JStr "Internal server error");
            ("message",
             JStr ("'" +:+ scalar_type_name template
                   +:+ "' object has no attribute 'copy'"))].
Proof.
  intros Hdelay Hlim Hfail Hpath Haction Hres Hprov Hscen Hscalar Hfuel.
  pose proof (is_rate_limited_inv env config _ _ _ _ Hlim)
    as (_ & _ & _ & Hw2).
  rewrite (handle_request_routed _ _ _ _ Hdelay Hlim Hfail).
  unfold try_except, handle_request_route. rewrite Hpath.
  rewrite (route_request_resolved _ _ _ _ _ Haction Hres).
  unfold bind at 1, lift_py at 1, get_response.
  rewrite Hprov, Hscen. unfold bind at 1.
  rewrite (copy_scalar _ _ Hscalar). cbn [is_Exception].
  unfold handle_request_except. cbn [exn_str].
  rewrite two_strings_sent by done.
  eexists _, _. split; [reflexivity|].
  cbn [written wfile ticked allocated drawn resp_status resp_body
       response_at]. by rewrite Hw2.
Qed.

(** X10. The rate-limit path has no catch-all: with non-negative delays,
    when the store's
    [hetzner]/[rate-limit-exceeded] fixture is not an object or an array,
    the [AttributeError] of a rejected request escapes the handler and no
    response is written. *)
Theorem rejected_request_with_scalar_fixture (method : http_method)
    (req : request) (w w2 : world) (scenarios : list (string * value))
    (template : value) :
  nonnegative_delays config ->
  is_rate_limited env config (client_address req) (drawn w) = (Ok true, w2) ->
  assoc "hetzner" responses = Some scenarios ->
  assoc "rate-limit-exceeded" scenarios = Some template ->
  is_container template = false ->
  exists w' : world,
    handle_request env config responses method req w
    = (Raise (AttributeError ("'" +:+ scalar_type_name template
                              +:+ "' object has no attribute 'copy'")), w') /\
    wfile w' = wfile w /\
    requests w' = requests w2.
Proof.
  intros Hdelay Hlim Hprov Hscen Hscalar.
  pose proof (is_rate_limited_inv env config _ _ _ _ Hlim)
    as (_ & _ & _ & Hw2).
  rewrite (handle_request_slept _ _ _ Hdelay), Hlim.
  unfold send_rate_limit_response, bind at 1, lift_py at 1, get_response.
  rewrite Hprov, Hscen. unfold bind at 1.
  rewrite (copy_scalar _ _ Hscalar).
  eexists. split; [reflexivity|]. cbn [wfile requests]. by rewrite Hw2.
Qed.

(** X11. With non-negative delays, a routed request that hits a fixture
    laid out as a tree in the
    store (an object or an array, nested within the recursion limit) is
    answered with status 200 and the customized copy of the fixture,
    also when the scenario named in the query is an error scenario. *)
Theorem fixture_hit_is_customized (method : http_method)
    (req : request) (w w2 : world) (provider action scenario : string)
    (rest : list string) (scenarios : list (string * value))
    (template : value) (lo hi : nat) (j : json) :
  nonnegative_delays config ->
  is_rate_limited env config (client_address req) (drawn w)
  = (Ok false, w2) ->
  Qltb (random_value env (rand_pos (py w2))) (failure_rate config) = false ->
  split "/" (strip "/" (url_path req)) = provider :: action :: rest ->
  action <> "test-scenarios" ->
  resolved_scenario action (query_params req) = Some scenario ->
  assoc provider responses = Some scenarios ->
  assoc scenario scenarios = Some template ->
  tree (py_heap (py w)) lo hi template j ->
  is_container template = true ->
  (depth j <= recursion_limit env)%nat ->
  exists (w' : world) (r : response),
    handle_request env config responses method req w = (Ok tt, w') /\
    wfile w' = wfile w ++ [r] /\
    resp_status r = 200 /\
    customized (utc_iso env (clock_pos (py w2)) +:+ "+00:00") j
               (resp_body r).
Proof.
  intros Hdelay Hlim Hfail Hpath Haction Hres Hprov Hscen Ht Hc Hd.
  pose proof (is_rate_limited_inv env config _ _ _ _ Hlim)
    as (_ & _ & Hpy2 & Hw2).
  assert (Ht3 : tree (py_heap (py (drawn w2))) lo hi template j).
  { cbn [drawn py py_heap]. by rewrite Hpy2. }
  destruct (get_response_tree env responses provider scenario scenarios
              template (py (drawn w2)) lo hi j Hprov Hscen Ht3 Hc Hd)
    as (data & s' & j' & Hget & _ & Hbody & Hcust).
  rewrite (handle_request_routed _ _ _ _ Hdelay Hlim Hfail).
  unfold try_except, handle_request_route. rewrite Hpath.
  rewrite (route_request_resolved _ _ _ _ _ Haction Hres).
  unfold bind at 1, lift_py at 1. rewrite Hget.
  rewrite send_json_response_run. cbn [py]. rewrite Hbody.
  eexists _, _. split; [reflexivity|].
  cbn [written wfile ticked drawn resp_status resp_body response_at].
  split; [by rewrite Hw2|]. split; [done|]. exact Hcust.
Qed.

End FurtherHandlerProperties.

Lemma injecting_config_delays (rate_limit : Z) :
  nonnegative_delays (injecting_config rate_limit).
Proof. split; cbn; unfold Qle; cbn; lia. Qed.

Lemma short_path_is_invalid_endpoint_witness :
  let w2 := (is_rate_limited steady_env (sample_config 100) "10.0.0.1"
               (drawn sample_world)).2 in
  nonnegative_delays (sample_config 100) /\
  is_rate_limited steady_env (sample_config 100)
    (client_address (sample_request "/hetzner/")) (drawn sample_world)
  = (Ok false, w2) /\
  Qltb (random_value steady_env (rand_pos (py w2)))
       (failure_rate (sample_config 100)) = false /\
  has_char "/" (strip "/" (url_path (sample_request "/hetzner/"))) = false /\
  (1 <= recursion_limit steady_env)%nat /\
  exists (w' : world) (r : response),
    handle_request steady_env (sample_config 100) sample_store GET
      (sample_request "/hetzner/") sample_world = (Ok tt, w') /\
    wfile w' = wfile sample_world ++ [r] /\
    resp_status r = 404 /\
    resp_body r
    = JObj [("error", JStr "Invalid API endpoint");
            ("message", JStr "Expected format: /{provider}/{action}")].
Proof.
  intros w2.
  assert (H1 : is_rate_limited steady_env (sample_config 100)
                 (client_address (sample_request "/hetzner/"))
                 (drawn sample_world) = (Ok false, w2))
    by (vm_compute; reflexivity).
  assert (H2 : Qltb (random_value steady_env (rand_pos (py w2)))
                    (failure_rate (sample_config 100)) = false)
    by (vm_compute; reflexivity).
  assert (H3 : has_char "/" (strip "/" (url_path (sample_request "/hetzner/")))
               = false) by reflexivity.
  assert (H4 : (1 <= recursion_limit steady_env)%nat) by (simpl; lia).
  split; [exact (sample_config_delays 100)|]. split; [exact H1|]. split; [exact H2|]. split; [exact H3|].
  split; [exact H4|].
  exact (short_path_is_invalid_endpoint steady_env (sample_config 100)
           sample_store GET (sample_request "/hetzner/") sample_world w2
           (sample_config_delays 100) H1 H2 H3 H4).
Defined.

Lemma discovery_lists_scenarios_witness :
  let req := sample_request "/hetzner/test-scenarios" in
  let w2 := (is_rate_limited steady_env (sample_config 100) "10.0.0.1"
               (drawn sample_world)).2 in
  nonnegative_delays (sample_config 100) /\
  is_rate_limited steady_env (sample_config 100) (client_address req)
    (drawn sample_world) = (Ok false, w2) /\
  Qltb (random_value steady_env (rand_pos (py w2)))
       (failure_rate (sample_config 100)) = false /\
  split "/" (strip "/" (url_path req)) = ["hetzner"; "test-scenarios"] /\
  (2 <= recursion_limit steady_env)%nat /\
  exists (w' : world) (r : response) (added : list object),
    handle_request steady_env (sample_config 100) sample_store GET req
      sample_world = (Ok tt, w') /\
    wfile w' = wfile sample_world ++ [r] /\
    resp_status r = 200 /\
    resp_body r = discovery_body sample_store "hetzner" /\
    py_heap (py w') = py_heap (py sample_world) ++ added.
Proof.
  intros req w2.
  assert (H1 : is_rate_limited steady_env (sample_config 100)
                 (client_address req) (drawn sample_world) = (Ok false, w2))
    by (vm_compute; reflexivity).
  assert (H2 : Qltb (random_value steady_env (rand_pos (py w2)))
                    (failure_rate (sample_config 100)) = false)
    by (vm_compute; reflexivity).
  assert (H3 : split "/" (strip "/" (url_path req))
               = ["hetzner"; "test-scenarios"]) by (vm_compute; reflexivity).
  assert (H4 : (2 <= recursion_limit steady_env)%nat) by (simpl; lia).
  split; [exact (sample_config_delays 100)|]. split; [exact H1|]. split; [exact H2|]. split; [exact H3|].
  split; [exact H4|].
  exact (discovery_lists_scenarios steady_env (sample_config 100)
           sample_store GET req sample_world w2 "hetzner" [] (sample_config_delays 100) H1 H2 H3 H4).
Defined.

Lemma injected_failure_response_witness :
  let req := sample_request "/hetzner/servers" in
  let w2 := (is_rate_limited steady_env (injecting_config 100) "10.0.0.1"
               (drawn sample_world)).2 in
  nonnegative_delays (injecting_config 100) /\
  is_rate_limited steady_env (injecting_config 100) (client_address req)
    (drawn sample_world) = (Ok false, w2) /\
  Qltb (random_value steady_env (rand_pos (py w2)))
       (failure_rate (injecting_config 100)) = true /\
  (2 <= recursion_limit steady_env)%nat /\
  exists (w' : world) (r : response) (status_code : Z)
         (error_code message : string) (n : Z),
    handle_request steady_env (injecting_config 100) sample_store GET req
      sample_world = (Ok tt, w') /\
    wfile w' = wfile sample_world ++ [r] /\
    In (status_code, error_code, message) failures /\
    resp_status r = status_code /\
    100000 <= n <= 999999 /\
    resp_body r
    = error_envelope status_code error_code message
        ("req_error_" +:+ str_Z n)
        (utc_iso steady_env (clock_pos (py w2)) +:+ "+00:00").
Proof.
  intros req w2.
  assert (H1 : is_rate_limited steady_env (injecting_config 100)
                 (client_address req) (drawn sample_world) = (Ok false, w2))
    by (vm_compute; reflexivity).
  assert (H2 : Qltb (random_value steady_env (rand_pos (py w2)))
                    (failure_rate (injecting_config 100)) = true)
    by (vm_compute; reflexivity).
  assert (H3 : (2 <= recursion_limit steady_env)%nat) by (simpl; lia).
  split; [exact (injecting_config_delays 100)|]. split; [exact H1|]. split; [exact H2|]. split; [exact H3|].
  exact (injected_failure_response steady_env (injecting_config 100)
           sample_store GET req sample_world w2 (injecting_config_delays 100) H1 H2 H3).
Defined.


Lemma always_failure_at_rate_one_witness :
  let req := sample_request "/hetzner/servers" in
  let w2 := (is_rate_limited steady_env (injecting_config 100) "10.0.0.1"
               (drawn sample_world)).2 in
  nonnegative_delays (injecting_config 100) /\
  is_rate_limited steady_env (injecting_config 100) (client_address req)
    (drawn sample_world) = (Ok false, w2) /\
  (1 <= failure_rate (injecting_config 100))%Q /\
  handle_request steady_env (injecting_config 100) sample_store GET req
    sample_world
  = send_random_failure_response steady_env (injecting_config 100) req
      (drawn w2).
Proof.
  intros req w2.
  assert (H1 : is_rate_limited steady_env (injecting_config 100)
                 (client_address req) (drawn sample_world) = (Ok false, w2))
    by (vm_compute; reflexivity).
  assert (H2 : (1 <= failure_rate (injecting_config 100))%Q)
    by (vm_compute; discriminate).
  split; [exact (injecting_config_delays 100)|]. split; [exact H1|]. split; [exact H2|].
  exact (always_failure_at_rate_one steady_env (injecting_config 100)
           sample_store GET req sample_world w2 (injecting_config_delays 100) H1 H2).
Defined.

Lemma scalar_fixture_is_internal_error_witness :
  let req := sample_request "/hetzner/servers" in
  let scenarios := [("success-create-server", VStr "created");
                    ("rate-limit-exceeded", VInt 429)] in
  let w2 := (is_rate_limited steady_env (sample_config 100) "10.0.0.1"
               (drawn scalar_world)).2 in
  nonnegative_delays (sample_config 100) /\
  is_rate_limited steady_env (sample_config 100) (client_address req)
    (drawn scalar_world) = (Ok false, w2) /\
  Qltb (random_value steady_env (rand_pos (py w2)))
       (failure_rate (sample_config 100)) = false /\
  split "/" (strip "/" (url_path req)) = ["hetzner"; "servers"] /\
  "servers" <> "test-scenarios" /\
  resolved_scenario "servers" (query_params req)
  = Some "success-create-server" /\
  assoc "hetzner" scalar_store = Some scenarios /\
  assoc "success-create-server" scenarios = Some (VStr "created") /\
  is_container (VStr "created") = false /\
  (1 <= recursion_limit steady_env)%nat /\
  exists (w' : world) (r : response),
    handle_request steady_env (sample_config 100) scalar_store GET req
      scalar_world = (Ok tt, w') /\
    wfile w' = wfile scalar_world ++ [r] /\
    resp_status r = 500 /\
    resp_body r
    = JObj [("error", JStr "Internal server error");
            ("message",
             JStr ("'" +:+ scalar_type_name (VStr "created")
                   +:+ "' object has no attribute 'copy'"))].
Proof.
  intros req scenarios w2.
  assert (H1 : is_rate_limited steady_env (sample_config 100)
                 (client_address req) (drawn scalar_world) = (Ok false, w2))
    by (vm_compute; reflexivity).
  assert (H2 : Qltb (random_value steady_env (rand_pos (py w2)))
                    (failure_rate (sample_config 100)) = false)
    by (vm_compute; reflexivity).
  assert (H3 : split "/" (strip "/" (url_path req)) = ["hetzner"; "servers"])
    by (vm_compute; reflexivity).
  assert (H4 : "servers" <> "test-scenarios") by discriminate.
  assert (H5 : resolved_scenario "servers" (query_params req)
               = Some "success-create-server") by (vm_compute; reflexivity).
  assert (H6 : assoc "hetzner" scalar_store = Some scenarios)
    by (vm_compute; reflexivity).
  assert (H7 : assoc "success-create-server" scenarios
               = Some (VStr "created")) by reflexivity.
  assert (H8 : is_container (VStr "created") = false) by reflexivity.
  assert (H9 : (1 <= recursion_limit steady_env)%nat) by (simpl; lia).
  split; [exact (sample_config_delays 100)|]. split; [exact H1|]. split; [exact H2|]. split; [exact H3|].
  split; [exact H4|]. split; [exact H5|]. split; [exact H6|].
  split; [exact H7|]. split; [exact H8|]. split; [exact H9|].
  exact (scalar_fixture_is_internal_error steady_env (sample_config 100)
           scalar_store GET req scalar_world w2 "hetzner" "servers"
           "success-create-server" [] scenarios (VStr "created")
           (sample_config_delays 100) H1 H2 H3 H4 H5 H6 H7 H8 H9).
Defined.

Lemma rejected_request_with_scalar_fixture_witness :
  let req := sample_request "/hetzner/servers" in
  let scenarios := [("success-create-server", VStr "created");
                    ("rate-limit-exceeded", VInt 429)] in
  let w2 := (is_rate_limited steady_env (sample_config 0) "10.0.0.1"
               (drawn scalar_world)).2 in
  nonnegative_delays (sample_config 0) /\
  is_rate_limited steady_env (sample_config 0) (client_address req)
    (drawn scalar_world) = (Ok true, w2) /\
  assoc "hetzner" scalar_store = Some scenarios /\
  assoc "rate-limit-exceeded" scenarios = Some (VInt 429) /\
  is_container (VInt 429) = false /\
  exists w' : world,
    handle_request steady_env (sample_config 0) scalar_store GET req
      scalar_world
    = (Raise (AttributeError ("'" +:+ scalar_type_name (VInt 429)
                              +:+ "' object has no attribute 'copy'")), w') /\
    wfile w' = wfile scalar_world /\
    requests w' = requests w2.
Proof.
  intros req scenarios w2.
  assert (H1 : is_rate_limited steady_env (sample_config 0)
                 (client_address req) (drawn scalar_world) = (Ok true, w2))
    by (vm_compute; reflexivity).
  assert (H2 : assoc "hetzner" scalar_store = Some scenarios)
    by (vm_compute; reflexivity).
  assert (H3 : assoc "rate-limit-exceeded" scenarios = Some (VInt 429))
    by reflexivity.
  assert (H4 : is_container (VInt 429) = false) by reflexivity.
  split; [exact (sample_config_delays 0)|]. split; [exact H1|]. split; [exact H2|]. split; [exact H3|].
  split; [exact H4|].
  exact (rejected_request_with_scalar_fixture steady_env (sample_config 0)
           scalar_store GET req scalar_world w2 scenarios (VInt 429)
           (sample_config_delays 0) H1 H2 H3 H4).
Defined.

Lemma fixture_hit_is_customized_witness :
  let req := scenario_request "/hetzner/servers" "rate-limit-exceeded" in
  let scenarios := [("success-create-server", VRef 3%nat);
                    ("rate-limit-exceeded", VRef 6%nat)] in
  let j := JObj [("error",
                  JObj [("code", JStr "rate_limit_exceeded");
                        ("message", JStr "Rate limit exceeded")]);
                 ("meta",
                  JObj [("request_id", JStr "req_000002");
                        ("timestamp",
                         JStr "2023-01-01T00:00:00+00:00")])] in
  let w2 := (is_rate_limited steady_env (sample_config 100) "10.0.0.1"
               (drawn sample_world)).2 in
  nonnegative_delays (sample_config 100) /\
  is_rate_limited steady_env (sample_config 100) (client_address req)
    (drawn sample_world) = (Ok false, w2) /\
  Qltb (random_value steady_env (rand_pos (py w2)))
       (failure_rate (sample_config 100)) = false /\
  split "/" (strip "/" (url_path req)) = ["hetzner"; "servers"] /\
  "servers" <> "test-scenarios" /\
  resolved_scenario "servers" (query_params req)
  = Some "rate-limit-exceeded" /\
  assoc "hetzner" sample_store = Some scenarios /\
  assoc "rate-limit-exceeded" scenarios = Some (VRef 6%nat) /\
  tree (py_heap (py sample_world)) 4 7 (VRef 6%nat) j /\
  is_container (VRef 6%nat) = true /\
  (depth j <= recursion_limit steady_env)%nat /\
  exists (w' : world) (r : response),
    handle_request steady_env (sample_config 100) sample_store GET req
      sample_world = (Ok tt, w') /\
    wfile w' = wfile sample_world ++ [r] /\
    resp_status r = 200 /\
    customized (utc_iso steady_env (clock_pos (py w2)) +:+ "+00:00") j
               (resp_body r).
Proof.
  intros req scenarios j w2.
  assert (H1 : is_rate_limited steady_env (sample_config 100)
                 (client_address req) (drawn sample_world) = (Ok false, w2))
    by (vm_compute; reflexivity).
  assert (H2 : Qltb (random_value steady_env (rand_pos (py w2)))
                    (failure_rate (sample_config 100)) = false)
    by (vm_compute; reflexivity).
  assert (H3 : split "/" (strip "/" (url_path req)) = ["hetzner"; "servers"])
    by (vm_compute; reflexivity).
  assert (H4 : "servers" <> "test-scenarios") by discriminate.
  assert (H5 : resolved_scenario "servers" (query_params req)
               = Some "rate-limit-exceeded") by (vm_compute; reflexivity).
  assert (H6 : assoc "hetzner" sample_store = Some scenarios)
    by (vm_compute; reflexivity).
  assert (H7 : assoc "rate-limit-exceeded" scenarios = Some (VRef 6%nat))
    by reflexivity.
  assert (H9 : is_container (VRef 6%nat) = true) by reflexivity.
  assert (H10 : (depth j <= recursion_limit steady_env)%nat)
    by (vm_compute; lia).
  split; [exact (sample_config_delays 100)|]. split; [exact H1|]. split; [exact H2|]. split; [exact H3|].
  split; [exact H4|]. split; [exact H5|]. split; [exact H6|].
  split; [exact H7|]. split; [exact sample_rate_limit_fixture_tree|].
  split; [exact H9|]. split; [exact H10|].
  exact (fixture_hit_is_customized steady_env (sample_config 100)
           sample_store GET req sample_world w2 "hetzner" "servers"
           "rate-limit-exceeded" [] scenarios (VRef 6%nat) 4%nat 7%nat j
           (sample_config_delays 100) H1 H2 H3 H4 H5 H6 H7 sample_rate_limit_fixture_tree H9 H10).
Defined.

Section FurtherStatusProperties.

Variable env : environment.
Variable config : MockAPIConfig.
Variable responses : list (string * list (string * value)).

Lemma respond_status (g : M pystate value) (req : request)
    (status_code : Z) (w0 w : world) (res : result unit) (w' : world) :
  wfile w = wfile w0 ->
  (data <- lift_py g ;; send_json_response env config req status_code data) w
  = (res, w') ->
  (exists new : list response,
     wfile w' = wfile w0 ++ new /\ (List.length new <= 1)%nat /\
     forall r : response, In r new -> resp_status r = status_code) /\
  (forall e : exn, res = Raise e -> wfile w' = wfile w0).
Proof.
  intros Hw0 Hrun.
  apply respond_emits in Hrun as [_ [(e & -> & Hout)|Hok]].
  - split; [|intros; congruence].
    exists []. rewrite app_nil_r. split; [congruence|].
    split; [cbn; lia|]. intros r [].
  - destruct Hok as (-> & w_a & data & body & Hg & _ & ->).
    apply lift_py_frame in Hg as (_ & _ & Hout_a).
    split; [|discriminate].
    exists [response_at env config req status_code body w_a].
    cbn [written wfile ticked]. split; [congruence|].
    split; [cbn; lia|]. intros r [<-|[]]. reflexivity.
Qed.

Lemma handle_request_status (method : http_method) (req : request)
    (w : world) (res : result unit) (w' : world) :
  handle_request env config responses method req w = (res, w') ->
  exists new : list response,
    wfile w' = wfile w ++ new /\ (List.length new <= 1)%nat /\
    forall r : response,
      In r new ->
      ((is_rate_limited env config (client_address req) (drawn w)).1 = Ok true
       /\ resp_status r = 429) \/
      ((is_rate_limited env config (client_address req) (drawn w)).1
       = Ok false
       /\ In (resp_status r) [200; 404; 500; 502; 503; 504]).
Proof.
  intros Hrun. rewrite handle_request_unfold in Hrun.
  destruct (Qltb (sleep_length _ _ _) 0).
  { injection Hrun as _ <-. exists []. rewrite app_nil_r.
    split; [done|]. split; [cbn; lia|]. intros r []. }
  destruct (is_rate_limited env config (client_address req) (drawn w))
    as [[limited|e] w2] eqn:Hlim.
  2:{ rewrite is_rate_limited_step in Hlim. discriminate Hlim. }
  pose proof (is_rate_limited_inv _ _ _ _ _ _ Hlim) as (_ & _ & _ & Hw2).
  assert (Hw2' : wfile w2 = wfile w) by (by rewrite Hw2).
  cbn [fst].
  assert (Hnone : forall w3, wfile w3 = wfile w ->
            exists new : list response,
              wfile w3 = wfile w ++ new /\ (List.length new <= 1)%nat /\
              forall r : response,
                In r new ->
                (Ok limited = Ok true /\ resp_status r = 429) \/
                (Ok limited = Ok false
                 /\ In (resp_status r) [200; 404; 500; 502; 503; 504])).
  { intros w3 H3. exists []. rewrite app_nil_r.
    split; [done|]. split; [cbn; lia|]. intros r []. }
  destruct limited.
  - unfold send_rate_limit_response in Hrun.
    apply (respond_status _ _ _ w) in Hrun as [(new & Hnew & Hlen & Hst) _];
      [|done].
    exists new. split; [done|]. split; [done|]. intros r Hr. left.
    split; [done|]. by apply Hst.
  - assert (Hcodes : forall status_code w3 res3 w4 g,
              In status_code [200; 404; 500; 502; 503; 504] ->
              wfile w3 = wfile w ->
              (data <- lift_py g ;;
               send_json_response env config req status_code data) w3
              = (res3, w4) ->
              exists new : list response,
                wfile w4 = wfile w ++ new /\ (List.length new <= 1)%nat /\
                forall r : response,
                  In r new ->
                  (@Ok bool false = Ok true /\ resp_status r = 429) \/
                  (@Ok bool false = Ok false
                   /\ In (resp_status r) [200; 404; 500; 502; 503; 504])).
    { intros sc w3 res3 w4 g Hsc H3 Hrun3.
      apply (respond_status _ _ _ w) in Hrun3
        as [(new & Hnew & Hlen & Hst) _]; [|done].
      exists new. split; [done|]. split; [done|]. intros r Hr. right.
      split; [done|]. by rewrite (Hst r Hr). }
    destruct (Qltb _ _).
    + unfold send_random_failure_response in Hrun. unfold bind at 1 in Hrun.
      replace (lift_py (random_choice env (500, "", "") failures) (drawn w2))
        with (Ok (nth (N.to_nat (rand env (rand_pos (py (drawn w2))))
                       mod List.length failures)%nat failures (500, "", "")),
              drawn (drawn w2)) in Hrun
        by (by destruct w2 as [[h rp cp] reqs out]).
      assert (Hin : In (nth (N.to_nat (rand env (rand_pos (py (drawn w2))))
                             mod List.length failures)%nat failures
                            (500, "", "")) failures).
      { apply List.nth_In. apply Nat.mod_upper_bound. cbn. lia. }
      destruct (nth _ failures _) as [[sc ec] msg].
      apply (Hcodes sc) in Hrun; [done| |done].
      cbn [In failures] in Hin.
      destruct Hin as [[= <- _ _]|[[= <- _ _]|[[= <- _ _]|[[= <- _ _]|[]]]]];
        cbn [In]; auto 10.
    + unfold try_except in Hrun.
      destruct (handle_request_route _ _ _ _ _ _) as [[[]|e] w3] eqn:Hbody.
      * injection Hrun as _ <-. unfold handle_request_route in Hbody.
        destruct (split _ _) as [|provider [|action rest]];
          [apply (Hcodes 404) in Hbody|apply (Hcodes 404) in Hbody
          |apply (Hcodes 200) in Hbody]; try done; cbn [In]; auto 10.
      * assert (Hquiet : wfile w3 = wfile w).
        { unfold handle_request_route in Hbody.
          destruct (split _ _) as [|provider [|action rest]];
            apply (respond_status _ _ _ w) in Hbody as (_ & Hq); try done;
            by apply (Hq e). }
        destruct (is_Exception e).
        -- unfold handle_request_except in Hrun.
           apply (Hcodes 500) in Hrun; [done| |done]. cbn [In]. auto 10.
        -- injection Hrun as _ <-. by apply Hnone.
Qed.

(** X12. A response written for a request has status 429 exactly when
    the limiter rejected the request: an admitted request is answered with
    200, 404, 500, 502, 503 or 504, also when the fixture it is served is
    itself the rate-limit fixture. *)
Theorem status_429_iff_rejected (method : http_method) (req : request)
    (w : world) (res : result unit) (w' : world) :
  handle_request env config responses method req w = (res, w') ->
  exists new : list response,
    wfile w' = wfile w ++ new /\
    forall r : response,
      In r new ->
      (resp_status r = 429 <->
       (is_rate_limited env config (client_address req) (drawn w)).1
       = Ok true).
Proof.
  intros Hrun.
  destruct (handle_request_status _ _ _ _ _ Hrun) as (new & Hnew & _ & Hst).
  exists new. split; [done|]. intros r Hr.
  destruct (Hst r Hr) as [[Hlim H429]|[Hlim Hin]]; [done|].
  split.
  - intros H429. rewrite H429 in Hin. cbn [In] in Hin.
    repeat (destruct Hin as [Hin|Hin]; [discriminate Hin|]). destruct Hin.
  - intros Hrej. rewrite Hrej in Hlim. discriminate Hlim.
Qed.

(** X13. Over any sequence of requests the server only appends to what it
    has written, at most one response per request, and every response it
    writes has one of the seven status codes 200, 404, 429, 500, 502, 503
    and 504. *)
Theorem served_status_codes (reqs : list (http_method * request))
    (w : world) :
  exists new : list response,
    wfile (serve_requests env config responses reqs w) = wfile w ++ new /\
    (List.length new <= List.length reqs)%nat /\
    Forall (fun r => In (resp_status r) [200; 404; 429; 500; 502; 503; 504])
           new.
Proof.
  revert w. induction reqs as [|[method req] reqs IH]; intros w.
  - exists []. cbn. rewrite app_nil_r. split; [done|]. split; [lia|done].
  - cbn [serve_requests].
    destruct (handle_request env config responses method req w)
      as [res w1] eqn:Hrun. cbn [snd].
    destruct (handle_request_status _ _ _ _ _ Hrun)
      as (new1 & Hnew1 & Hlen1 & Hst1).
    destruct (IH w1) as (new & Hnew & Hlen & Hst).
    exists (new1 ++ new). rewrite Hnew, Hnew1, app_assoc.
    split; [done|]. split; [rewrite List.length_app; cbn; lia|].
    apply Forall_app. split; [|done].
    apply Forall_forall. intros r Hr. apply list_elem_of_In in Hr.
    destruct (Hst1 r Hr) as [[_ ->]|[_ Hin]]; cbn [In] in *; [auto 10|].
    repeat (destruct Hin as [<-|Hin]; [auto 10|]). destruct Hin.
Qed.

End FurtherStatusProperties.

Lemma status_429_iff_rejected_witness :
  let req := scenario_request "/hetzner/servers" "rate-limit-exceeded" in
  let run := handle_request steady_env (sample_config 100) sample_store GET
               req sample_world in
  run = (Ok tt, run.2) /\
  exists new : list response,
    wfile run.2 = wfile sample_world ++ new /\
    forall r : response,
      In r new ->
      (resp_status r = 429 <->
       (is_rate_limited steady_env (sample_config 100) (client_address req)
          (drawn sample_world)).1 = Ok true).
Proof.
  intros req run.
  assert (H : run = (Ok tt, run.2)) by (vm_compute; reflexivity).
  split; [exact H|].
  exact (status_429_iff_rejected steady_env (sample_config 100) sample_store
           GET req sample_world (Ok tt) run.2 H).
Defined.

(** ** Names of fixture files *)

Lemma append_cons (a : ascii) (s t : string) :
  String a s +:+ t = String a (s +:+ t).
Proof. reflexivity. Qed.

Lemma string_length_app (a b : string) :
  String.length (a +:+ b) = (String.length a + String.length b)%nat.
Proof.
  induction a as [|c a IH]; [reflexivity|].
  rewrite append_cons. cbn [String.length]. by rewrite IH.
Qed.

Lemma substring_0_all (b : string) :
  String.substring 0 (String.length b) b = b.
Proof.
  induction b as [|c b IH]; [reflexivity|].
  cbn [String.length String.substring]. by rewrite IH.
Qed.

Lemma substring_0_app (a b : string) :
  String.substring 0 (String.length a) (a +:+ b) = a.
Proof.
  induction a as [|c a IH]; [by destruct b|].
  rewrite append_cons. cbn [String.length String.substring]. by rewrite IH.
Qed.

Lemma substring_skip_app (a b : string) (m : nat) :
  String.substring (String.length a) m (a +:+ b) = String.substring 0 m b.
Proof.
  induction a as [|c a IH]; [reflexivity|].
  rewrite append_cons. cbn [String.length String.substring]. exact IH.
Qed.

Lemma substring_split (s : string) (n : nat) :
  (n <= String.length s)%nat ->
  s = String.substring 0 n s
      +:+ String.substring n (String.length s - n) s.
Proof.
  revert n. induction s as [|c s IH]; intros n Hn.
  - cbn [String.length] in Hn. assert (n = 0%nat) as -> by lia. reflexivity.
  - destruct n as [|n].
    + cbn [String.length String.substring Nat.sub].
      change ("" +:+ String c (String.substring 0 (String.length s) s))
        with (String c (String.substring 0 (String.length s) s)).
      by rewrite substring_0_all.
    + cbn [String.length] in Hn.
      cbn [String.length String.substring Nat.sub]. rewrite append_cons.
      f_equal. apply IH. lia.
Qed.

(** A name that ends in [suffix] is its stem followed by [suffix]. *)
Lemma ends_with_stem (suffix s : string) :
  ends_with suffix s = true ->
  s = drop_last (String.length suffix) s +:+ suffix.
Proof.
  unfold ends_with, drop_last. intros H.
  apply andb_prop in H as [Hlen Hsuf].
  apply Nat.leb_le in Hlen. apply String.eqb_eq in Hsuf.
  pose proof (substring_split s (String.length s - String.length suffix)
                ltac:(lia)) as H.
  replace (String.length s - (String.length s - String.length suffix))%nat
    with (String.length suffix) in H by lia.
  by rewrite Hsuf in H.
Qed.

Lemma ends_with_append (suffix name : string) :
  ends_with suffix (name +:+ suffix) = true.
Proof.
  unfold ends_with. rewrite string_length_app.
  apply andb_true_intro. split; [apply Nat.leb_le; lia|].
  replace (String.length name + String.length suffix
           - String.length suffix)%nat
    with (String.length name) by lia.
  rewrite substring_skip_app, substring_0_all. apply String.eqb_refl.
Qed.

Lemma drop_last_append (suffix name : string) :
  drop_last (String.length suffix) (name +:+ suffix) = name.
Proof.
  unfold drop_last. rewrite string_length_app.
  replace (String.length name + String.length suffix
           - String.length suffix)%nat
    with (String.length name) by lia.
  apply substring_0_app.
Qed.

(** ** Lookups in listings and in the store *)

Lemma assoc_elem_of {A} (key : string) (l : list (string * A)) (a : A) :
  assoc key l = Some a -> key ∈ map fst l /\ In (key, a) l.
Proof.
  induction l as [|[k x] l IH]; [done|]. cbn [assoc map fst].
  destruct (String.eqb_spec k key) as [->|_].
  - intros [= ->]. split; [apply list_elem_of_here|by left].
  - intros H. destruct (IH H) as [H1 H2].
    split; [by apply list_elem_of_further|by right].
Qed.

Lemma assoc_Forall2 {A B} (R : A -> B -> Prop) (l1 : list (string * A))
    (l2 : list (string * B)) (key : string) (b : B) :
  Forall2 (fun (x : string * A) (y : string * B) => x.1 = y.1 /\ R x.2 y.2)
          l1 l2 ->
  assoc key l2 = Some b ->
  exists a : A, assoc key l1 = Some a /\ R a b.
Proof.
  induction 1 as [|[k a] [k' b'] l1 l2 [Hk HR] _ IH]; [done|].
  cbn [fst snd] in Hk, HR. subst k'. cbn [assoc].
  destruct (String.eqb k key); [|exact IH].
  intros [= <-]. by exists a.
Qed.

Lemma assoc_Forall2_rev {A B} (R : A -> B -> Prop) (l1 : list (string * A))
    (l2 : list (string * B)) (key : string) (a : A) :
  Forall2 (fun (x : string * A) (y : string * B) => x.1 = y.1 /\ R x.2 y.2)
          l1 l2 ->
  assoc key l1 = Some a ->
  exists b : B, assoc key l2 = Some b /\ R a b.
Proof.
  induction 1 as [|[k a'] [k' b] l1 l2 [Hk HR] _ IH]; [done|].
  cbn [fst snd] in Hk, HR. subst k'. cbn [assoc].
  destruct (String.eqb k key); [|exact IH].
  intros [= <-]. by exists b.
Qed.

(** A fixture is kept under [name] exactly when the listing has a file
    [name.json] that parses. *)
Lemma kept_files_lookup (files : list (string * node)) (name : string)
    (j : json) :
  NoDup (map fst files) ->
  assoc name (kept_files files) = Some j <->
  assoc (name +:+ ".json") files = Some (File (Some j)).
Proof.
  induction files as [|[f n] files IH]; [done|].
  cbn [map fst]. intros Hnd. apply NoDup_cons in Hnd as [Hf Hnd].
  specialize (IH Hnd). cbn [kept_files assoc].
  destruct (String.eqb_spec f (name +:+ ".json")) as [->|Hne].
  - change 5%nat with (String.length ".json").
    rewrite ends_with_append, drop_last_append.
    destruct n as [[j'|]|sub].
    + cbn [assoc]. rewrite String.eqb_refl. split; by intros [= ->].
    + split; [|discriminate]. intros H. apply IH in H.
      by apply assoc_elem_of in H as [H _].
    + split; [|discriminate]. intros H. apply IH in H.
      by apply assoc_elem_of in H as [H _].
  - destruct n as [[j'|]|sub]; [|exact IH|exact IH].
    destruct (ends_with ".json" f) eqn:Hends; [|exact IH].
    cbn [assoc].
    destruct (String.eqb_spec (drop_last 5 f) name) as [Hstem|_];
      [|exact IH].
    exfalso. apply Hne. rewrite <- Hstem.
    exact (ends_with_stem ".json" f Hends).
Qed.

(** A provider is kept exactly when the listing has a directory of its
    name; its fixtures are those of its [api-responses] directory. *)
Lemma kept_providers_lookup (entries : list (string * node))
    (provider : string) (docs : list (string * json)) :
  NoDup (map fst entries) ->
  assoc provider (kept_providers entries) = Some docs <->
  exists sub : list (string * node),
    assoc provider entries = Some (Dir sub) /\
    docs = match assoc "api-responses" sub with
           | Some (Dir files) => kept_files files
           | _ => []
           end.
Proof.
  induction entries as [|[p n] entries IH]; [by split; [|intros (? & ? & _)]|].
  cbn [map fst]. intros Hnd. apply NoDup_cons in Hnd as [Hp Hnd].
  specialize (IH Hnd). cbn [kept_providers assoc].
  destruct n as [parsed|sub]; cbn [assoc];
    destruct (String.eqb_spec p provider) as [->|Hne]; try exact IH.
  - split.
    + intros H. apply IH in H as (sub & H & _).
      by apply assoc_elem_of in H as [H _].
    + intros (sub & [=] & _).
  - split.
    + intros [= <-]. by exists sub.
    + intros (sub' & [= <-] & ->). reflexivity.
Qed.

(** * Further properties of the fixture store and of start-up *)

Section FurtherStoreProperties.

Variable env : environment.
Variable config : MockAPIConfig.
Variable responses : list (string * list (string * value)).

Lemma loaded_frame (h : heap) (added : list object) (v : value) (j : json) :
  loaded h v j -> loaded (h ++ added) v j.
Proof.
  intros (lo & hi & Hhi & Ht). exists lo, hi.
  split; [rewrite List.length_app; lia|].
  apply (tree_frame h); [done|]. intros l Hl. apply lookup_app_l. lia.
Qed.

Lemma load_scenarios_loaded (files : list (string * node)) :
  forallb (fun f : string * node =>
             match f.2 with
             | File (Some j) => wf_json j
             | _ => true
             end) files = true ->
  forall s : pystate,
    exists (scenarios : list (string * value)) (s' : pystate),
      load_scenarios files s = (Ok scenarios, s') /\
      (exists added, py_heap s' = py_heap s ++ added) /\
      rand_pos s' = rand_pos s /\ clock_pos s' = clock_pos s /\
      Forall2 (fun (sv : string * value) (f : string * json) =>
                 sv.1 = f.1 /\ loaded (py_heap s') sv.2 f.2)
              scenarios (kept_files files).
Proof.
  induction files as [|[f n] files IH]; intros Hwf s.
  - exists [], s. split; [done|].
    split; [exists []; by rewrite app_nil_r|]. done.
  - cbn [forallb snd] in Hwf. apply andb_prop in Hwf as [Hj Hrest].
    cbn [load_scenarios kept_files].
    destruct n as [[j|]|sub]; destruct (ends_with ".json" f);
      try exact (IH Hrest s).
    destruct (json_load_tree j Hj s)
      as (v & s1 & Hload & [a1 Ha1] & Hr1 & Hc1 & Ht1).
    destruct (IH Hrest s1)
      as (vs & s2 & Hrun & [a2 Ha2] & Hr2 & Hc2 & Hall).
    exists ((drop_last 5 f, v) :: vs), s2. split.
    { unfold bind. by rewrite Hload, Hrun. }
    split; [exists (a1 ++ a2); by rewrite Ha2, Ha1, app_assoc|].
    split; [congruence|]. split; [congruence|].
    constructor; [|exact Hall]. split; [done|]. cbn [snd].
    rewrite Ha2. apply loaded_frame.
    exists (List.length (py_heap s)), (List.length (py_heap s1)).
    split; [lia|exact Ht1].
Qed.

Lemma load_providers_loaded (dir : string) (entries : list (string * node)) :
  forallb (fun d : string * node => wf_provider d.2) entries = true ->
  forall s : pystate,
    exists (store : list (string * list (string * value))) (s' : pystate),
      load_providers dir entries s = (Ok store, s') /\
      (exists added, py_heap s' = py_heap s ++ added) /\
      rand_pos s' = rand_pos s /\ clock_pos s' = clock_pos s /\
      Forall2 (fun (pv : string * list (string * value))
                   (d : string * list (string * json)) =>
                 pv.1 = d.1 /\
                 Forall2 (fun (sv : string * value) (f : string * json) =>
                            sv.1 = f.1 /\ loaded (py_heap s') sv.2 f.2)
                         pv.2 d.2)
              store (kept_providers entries).
Proof.
  induction entries as [|[provider n] entries IH]; intros Hwf s.
  - exists [], s. split; [done|].
    split; [exists []; by rewrite app_nil_r|]. done.
  - cbn [forallb snd] in Hwf. apply andb_prop in Hwf as [Hn Hrest].
    cbn [load_providers kept_providers].
    destruct n as [parsed|sub]; [exact (IH Hrest s)|].
    cbn [wf_provider] in Hn. apply andb_prop in Hn as [_ Hapi].
    assert (Hscen :
              exists (scenarios : list (string * value)) (s1 : pystate),
                match assoc "api-responses" sub with
                | None => ret []
                | Some (File _) =>
                    raise (NotADirectoryError
                             (path_join (path_join dir provider)
                                        "api-responses"))
                | Some (Dir files) => load_scenarios files
                end s = (Ok scenarios, s1) /\
                (exists added, py_heap s1 = py_heap s ++ added) /\
                rand_pos s1 = rand_pos s /\ clock_pos s1 = clock_pos s /\
                Forall2 (fun (sv : string * value) (f : string * json) =>
                           sv.1 = f.1 /\ loaded (py_heap s1) sv.2 f.2)
                        scenarios
                        match assoc "api-responses" sub with
                        | Some (Dir files) => kept_files files
                        | _ => []
                        end).
    { destruct (assoc "api-responses" sub) as [[parsed|files]|].
      - discriminate Hapi.
      - unfold wf_files in Hapi. apply andb_prop in Hapi as [_ Hdocs].
        exact (load_scenarios_loaded files Hdocs s).
      - exists [], s. split; [done|].
        split; [exists []; by rewrite app_nil_r|]. done. }
    destruct Hscen as (scenarios & s1 & Hload & [a1 Ha1] & Hr1 & Hc1 & Hall1).
    destruct (IH Hrest s1)
      as (others & s2 & Hrun & [a2 Ha2] & Hr2 & Hc2 & Hall).
    exists ((provider, scenarios) :: others), s2. split.
    { unfold bind at 1. rewrite Hload. unfold bind. by rewrite Hrun. }
    split; [exists (a1 ++ a2); by rewrite Ha2, Ha1, app_assoc|].
    split; [congruence|]. split; [congruence|].
    constructor; [|exact Hall]. split; [done|]. cbn [snd].
    eapply Forall2_impl; [exact Hall1|].
    intros sv f [Hname Hl]. split; [done|]. rewrite Ha2.
    by apply loaded_frame.
Qed.

(** X15. [load_test_data] on a [cloud-providers] directory whose listings
    are well formed: the store has an entry exactly for the names that are
    directories (plain files are skipped); a file [name.json] of a
    provider's [api-responses] directory that parses is found under the
    provider and [name], laid out in the store as the tree of its
    document; and nothing else is in the store: files without the [.json]
    suffix, files that do not parse and the other directories of a
    provider are left out. Loading uses neither the clock nor the [random]
    module and only adds to the store. *)
Theorem loaded_store_mirrors_files (fs : string -> option node)
    (entries : list (string * node)) (s : pystate) :
  fs (path_join (test_data_dir config) "cloud-providers")
  = Some (Dir entries) ->
  wf_dirs entries = true ->
  exists (store : list (string * list (string * value))) (s' : pystate)
         (added : list object),
    load_test_data config fs s = (Ok store, s') /\
    py_heap s' = py_heap s ++ added /\
    rand_pos s' = rand_pos s /\ clock_pos s' = clock_pos s /\
    (forall provider : string,
       (exists scenarios, assoc provider store = Some scenarios) <->
       (exists sub, assoc provider entries = Some (Dir sub))) /\
    (forall (provider name : string) (sub files : list (string * node))
            (j : json),
       assoc provider entries = Some (Dir sub) ->
       assoc "api-responses" sub = Some (Dir files) ->
       assoc (name +:+ ".json") files = Some (File (Some j)) ->
       exists (scenarios : list (string * value)) (v : value),
         assoc provider store = Some scenarios /\
         assoc name scenarios = Some v /\
         loaded (py_heap s') v j) /\
    (forall (provider name : string) (scenarios : list (string * value))
            (v : value),
       assoc provider store = Some scenarios ->
       assoc name scenarios = Some v ->
       exists (sub files : list (string * node)) (j : json),
         assoc provider entries = Some (Dir sub) /\
         assoc "api-responses" sub = Some (Dir files) /\
         assoc (name +:+ ".json") files = Some (File (Some j)) /\
         loaded (py_heap s') v j).
Proof.
  intros Hfs Hwf. unfold wf_dirs in Hwf.
  apply andb_prop in Hwf as [Hnd Hwf]. apply bool_decide_eq_true in Hnd.
  destruct (load_providers_loaded
              (path_join (test_data_dir config) "cloud-providers")
              entries Hwf s)
    as (store & s' & Hrun & [added Hadd] & Hr & Hc & Hall).
  assert (Hfiles : forall provider sub files,
            assoc provider entries = Some (Dir sub) ->
            assoc "api-responses" sub = Some (Dir files) ->
            NoDup (map fst files)).
  { intros provider sub files Hsub Hapi.
    apply assoc_elem_of in Hsub as [_ Hin].
    apply (proj1 (forallb_forall _ _) Hwf) in Hin.
    cbn [snd wf_provider] in Hin. apply andb_prop in Hin as [_ Hin].
    rewrite Hapi in Hin. unfold wf_files in Hin.
    apply andb_prop in Hin as [Hin _]. by apply bool_decide_eq_true in Hin. }
  exists store, s', added.
  split; [unfold load_test_data; by rewrite Hfs|].
  split; [done|]. split; [done|]. split; [done|].
  split; [|split].
  - intros provider. split.
    + intros (scenarios & Hs).
      destruct (assoc_Forall2_rev _ _ _ _ _ Hall Hs) as (docs & Hd & _).
      apply (kept_providers_lookup _ _ _ Hnd) in Hd as (sub & Hsub & _).
      by exists sub.
    + intros (sub & Hsub).
      assert (Hd : assoc provider (kept_providers entries)
                   = Some match assoc "api-responses" sub with
                          | Some (Dir files) => kept_files files
                          | _ => []
                          end).
      { apply (kept_providers_lookup _ _ _ Hnd). by exists sub. }
      destruct (assoc_Forall2 _ _ _ _ _ Hall Hd) as (scenarios & Hs & _).
      by exists scenarios.
  - intros provider name sub files j Hsub Hapi Hfile.
    assert (Hd : assoc provider (kept_providers entries)
                 = Some (kept_files files)).
    { apply (kept_providers_lookup _ _ _ Hnd). exists sub.
      split; [done|]. by rewrite Hapi. }
    destruct (assoc_Forall2 _ _ _ _ _ Hall Hd) as (scenarios & Hs & Hall').
    apply (kept_files_lookup _ _ _ (Hfiles _ _ _ Hsub Hapi)) in Hfile.
    destruct (assoc_Forall2 _ _ _ _ _ Hall' Hfile) as (v & Hv & Hl).
    by exists scenarios, v.
  - intros provider name scenarios v Hs Hv.
    destruct (assoc_Forall2_rev _ _ _ _ _ Hall Hs) as (docs & Hd & Hall').
    destruct (assoc_Forall2_rev _ _ _ _ _ Hall' Hv) as (j & Hj & Hl).
    apply (kept_providers_lookup _ _ _ Hnd) in Hd as (sub & Hsub & ->).
    destruct (assoc "api-responses" sub) as [[parsed|files]|] eqn:Hapi;
      [discriminate Hj| |discriminate Hj].
    apply (kept_files_lookup _ _ _ (Hfiles _ _ _ Hsub Hapi)) in Hj.
    by exists sub, files, j.
Qed.

(** X16. Requests of other clients never change what the limiter has
    recorded for a client, whatever happens to them. *)
Theorem other_clients_untouched (reqs : list (http_method * request))
    (w : world) (c : string) :
  Forall (fun mr : http_method * request => client_address mr.2 <> c) reqs ->
  requests (serve_requests env config responses reqs w) !! c
  = requests w !! c.
Proof.
  revert w. induction reqs as [|[method req] reqs IH]; intros w Hall;
    [done|].
  apply Forall_cons in Hall as [Hreq Hall]. cbn [snd] in Hreq.
  cbn [serve_requests]. rewrite (IH _ Hall).
  rewrite requests_after_request. cbv zeta.
  destruct (Qltb _ _); [done|]. by rewrite lookup_insert_ne.
Qed.

End FurtherStoreProperties.

(** X17. The [MOCK_API_*] environment variables never reach the server:
    whenever start-up gets past [from_env], the configuration is the one
    of the command line (its defaults included), with a window of one
    hour; two processes that differ only in their environment variables
    start the same server. *)
Theorem environment_never_reaches_config (p1 p2 : process)
    (args : arguments) (c1 c2 : MockAPIConfig) :
  default_test_data_dir p1 = default_test_data_dir p2 ->
  main_config p1 args = Some c1 ->
  main_config p2 args = Some c2 ->
  c1 = c2 /\
  port c1 = arg_port args /\ host c1 = arg_host args /\
  failure_rate c1 = arg_failure_rate args /\
  response_delay_min c1 = arg_delay_min args /\
  response_delay_max c1 = arg_delay_max args /\
  rate_limit_requests c1 = arg_rate_limit args /\
  rate_limit_window c1 = 3600.
Proof.
  assert (Hkeep : forall p self c,
            from_env p self = Some c ->
            rate_limit_window c = rate_limit_window self /\
            test_data_dir c = test_data_dir self).
  { intros p self c. unfold from_env.
    repeat (destruct (getenv_as _ _ _ _); [|discriminate]).
    by intros [= <-]. }
  intros Hdir. unfold main_config.
  destruct (from_env p1 _) as [d1|] eqn:H1; [|discriminate].
  destruct (from_env p2 _) as [d2|] eqn:H2; [|discriminate].
  apply Hkeep in H1 as [Hw1 Ht1]. apply Hkeep in H2 as [Hw2 Ht2].
  cbn [MockAPIConfig_init rate_limit_window test_data_dir] in *.
  intros [= <-] [= <-].
  cbn [port host failure_rate response_delay_min response_delay_max
       rate_limit_requests rate_limit_window].
  rewrite Hw1, Hw2, Ht1, Ht2, Hdir. done.
Qed.

Lemma loaded_store_mirrors_files_witness :
  fs_with sample_dirs
    (path_join (test_data_dir (sample_config 100)) "cloud-providers")
  = Some (Dir sample_dirs) /\
  wf_dirs sample_dirs = true /\
  exists (scenarios : list (string * value)) (v : value),
    assoc "hetzner" sample_store = Some scenarios /\
    map fst scenarios = ["success-create-server"; "rate-limit-exceeded"] /\
    assoc "rate-limit-exceeded" scenarios = Some v /\
    loaded (py_heap (py sample_world)) v
      (JObj [("error",
              JObj [("code", JStr "rate_limit_exceeded");
                    ("message", JStr "Rate limit exceeded")]);
             ("meta",
              JObj [("request_id", JStr "req_000002");
                    ("timestamp", JStr "2023-01-01T00:00:00+00:00")])]).
Proof.
  assert (H1 : fs_with sample_dirs
                 (path_join (test_data_dir (sample_config 100))
                            "cloud-providers")
               = Some (Dir sample_dirs)) by (vm_compute; reflexivity).
  assert (H2 : wf_dirs sample_dirs = true) by (vm_compute; reflexivity).
  split; [exact H1|]. split; [exact H2|].
  destruct (loaded_store_mirrors_files (sample_config 100)
              (fs_with sample_dirs) sample_dirs (py empty_world) H1 H2)
    as (store & s' & added & Hrun & _ & _ & _ & _ & Hhit & _).
  destruct (Hhit "hetzner" "rate-limit-exceeded" _ _ _
              eq_refl eq_refl eq_refl)
    as (scenarios & v & Hs & Hv & Hl).
  assert (Hstore : sample_store = store).
  { unfold sample_store. by rewrite Hrun. }
  assert (Hworld : py sample_world = s').
  { unfold sample_world. cbn [py]. by rewrite Hrun. }
  exists scenarios, v. rewrite Hstore, Hworld.
  split; [exact Hs|]. split; [|split; [exact Hv|exact Hl]].
  rewrite <- Hstore in Hs. vm_compute in Hs. by injection Hs as <-.
Defined.

Lemma other_clients_untouched_witness :
  let reqs := [(GET, sample_request "/hetzner/servers");
               (POST, sample_request "/hetzner/test-scenarios")] in
  Forall (fun mr : http_method * request =>
            client_address mr.2 <> "10.0.0.2") reqs /\
  requests (serve_requests steady_env (sample_config 1) sample_store reqs
              sample_world) !! "10.0.0.2"
  = requests sample_world !! "10.0.0.2".
Proof.
  intros reqs.
  assert (H1 : Forall (fun mr : http_method * request =>
                         client_address mr.2 <> "10.0.0.2") reqs).
  { repeat constructor; discriminate. }
  split; [exact H1|].
  exact (other_clients_untouched steady_env (sample_config 1) sample_store
           reqs sample_world "10.0.0.2" H1).
Defined.

Lemma environment_never_reaches_config_witness :
  let c := {| port := 8888; host := "127.0.0.1";
              response_delay_min := 1 # 10; response_delay_max := 2;
              failure_rate := 1 # 10;
              rate_limit_requests := 100; rate_limit_window := 3600;
              test_data_dir := "../test-data" |} in
  default_test_data_dir plain_process
  = default_test_data_dir configured_process /\
  getenv configured_process "MOCK_API_PORT" = Some "9999" /\
  main_config plain_process default_arguments = Some c /\
  main_config configured_process default_arguments = Some c /\
  c = c /\
  port c = arg_port default_arguments /\
  host c = arg_host default_arguments /\
  failure_rate c = arg_failure_rate default_arguments /\
  response_delay_min c = arg_delay_min default_arguments /\
  response_delay_max c = arg_delay_max default_arguments /\
  rate_limit_requests c = arg_rate_limit default_arguments /\
  rate_limit_window c = 3600.
Proof.
  intros c.
  assert (H1 : default_test_data_dir plain_process
               = default_test_data_dir configured_process) by reflexivity.
  assert (H2 : main_config plain_process default_arguments = Some c)
    by reflexivity.
  assert (H3 : main_config configured_process default_arguments = Some c)
    by reflexivity.
  split; [exact H1|]. split; [reflexivity|]. split; [exact H2|].
  split; [exact H3|].
  exact (environment_never_reaches_config plain_process configured_process
           default_arguments c c H1 H2 H3).
Defined.

(** * Overrides *)

Section DeepUpdate.

Variable key : string.
Variable v : value.
Variable jv : json.
Hypothesis Hv : json_of_scalar v = Some jv.

Lemma json_deep_update_scalar (k : string) (a : json) (x : value) (j : json) :
  json_of_scalar x = Some j -> json_deep_update k a j = j.
Proof. destruct x; intros [= <-]; reflexivity. Qed.

Lemma depth_scalar (x : value) (j : json) :
  json_of_scalar x = Some j -> depth j = 1%nat.
Proof. destruct x; intros [= <-]; reflexivity. Qed.

Lemma replace_field_keys {A} (a : A) (l : list (string * A)) :
  map fst (map (replace_field key a) l) = map fst l.
Proof.
  induction l as [|[k x] l IH]; [done|]. cbn [map]. rewrite IH.
  unfold replace_field. cbn [fst]. by destruct (String.eqb k key).
Qed.

Lemma replace_field_absent {A} (a : A) (l : list (string * A)) :
  key ∉ map fst l -> map (replace_field key a) l = l.
Proof.
  induction l as [|[k x] l IH]; [done|]. cbn [map fst].
  intros Hnot. apply not_elem_of_cons in Hnot as [Hne Hnot].
  rewrite (IH Hnot). unfold replace_field. cbn [fst].
  destruct (String.eqb_spec k key) as [->|_]; done.
Qed.

Lemma dict_has_absent (items : list (string * value)) :
  dict_has items key = false -> key ∉ map fst items.
Proof.
  unfold dict_has. induction items as [|[k x] items IH]; cbn [dict_get map fst].
  - intros _. apply not_elem_of_nil.
  - destruct (String.eqb_spec k key) as [->|Hne]; [discriminate|].
    intros Hhas. apply not_elem_of_cons. split; [congruence|by apply IH].
Qed.

Lemma dict_set_replace (items : list (string * value)) :
  NoDup (map fst items) ->
  dict_has items key = true ->
  dict_set items key v = map (replace_field key v) items.
Proof.
  unfold dict_has. induction items as [|[k x] items IH];
    cbn [dict_get dict_set map fst]; [discriminate|].
  intros Hnd Hhas. apply NoDup_cons in Hnd as [Hk Hnd].
  unfold replace_field at 1. cbn [fst].
  destruct (String.eqb_spec k key) as [->|Hne].
  - by rewrite replace_field_absent.
  - f_equal. by apply IH.
Qed.

Lemma fields_replace (h : heap) (lo hi : nat)
    (items : list (string * value)) (kvs : list (string * json)) :
  fields h lo hi items kvs ->
  fields h lo hi (map (replace_field key v) items)
         (map (replace_field key jv) kvs).
Proof.
  induction 1 as [lo hi Hle|lo mid hi k x j items kvs Ht _ IH].
  - by apply fields_nil.
  - cbn [map]. unfold replace_field at 1 3. cbn [fst].
    destruct (String.eqb k key).
    + apply fields_cons with mid; [|done].
      apply tree_scalar; [exact Hv|]. by apply tree_bounds in Ht.
    + by apply fields_cons with mid.
Qed.

Lemma deep_fields (f : nat) (l : loc) :
  deep_ok key v jv f ->
  forall (items : list (string * value)) (kvs : list (string * json))
         (mid : nat) (s : pystate) (pre : list (string * value)),
    fields (py_heap s) mid l items kvs ->
    py_heap s !! l = Some (ODict (pre ++ items)) ->
    NoDup (map fst (pre ++ items)) ->
    (forall kv, In kv kvs -> (depth kv.2 <= f)%nat) ->
    exists s' : pystate,
      for_each (map fst items)
        (fun k =>
           child <- getitem l k ;;
           if is_container child then deep_update f child key v
           else ret tt) s = (Ok tt, s') /\
      (forall l', ~ (mid <= l' < l)%nat ->
                  py_heap s' !! l' = py_heap s !! l') /\
      fields (py_heap s') mid l items
             (map (fun kv : string * json =>
                     (kv.1, json_deep_update key jv kv.2)) kvs) /\
      rand_pos s' = rand_pos s /\ clock_pos s' = clock_pos s.
Proof.
  intros IHf. induction items as [|[k x] items IH];
    intros kvs mid s pre Hf Hl Hnd Hdepth.
  - inversion Hf; subst. exists s. cbn [map for_each].
    repeat split; try done; by apply fields_nil.
  - inversion Hf as [|? mid' ? ? ? j ? kvs0 Ht Hrest]; subst.
    pose proof (tree_bounds _ _ _ _ _ Ht) as Hb1.
    pose proof (fields_bounds _ _ _ _ _ Hrest) as Hb2.
    pose proof (NoDup_middle _ _ _ _ Hnd) as Hfresh.
    cbn [map fst for_each]. unfold bind at 1. unfold bind at 1.
    rewrite (getitem_ok _ _ _ _ _ Hl (dict_get_middle _ _ _ _ Hfresh)).
    assert (Hd0 : forall kv, In kv kvs0 -> (depth kv.2 <= f)%nat)
      by (intros kv Hin; apply Hdepth; by right).
    destruct (is_container x) eqn:Hcont.
    + destruct (IHf s mid mid' x j Ht) as (s2 & Hw & Hfr2 & Ht2 & Hr2 & Hc2).
      { apply (Hdepth (k, j)). by left. }
      rewrite Hw.
      destruct (IH kvs0 mid' s2 (pre ++ [(k, x)]))
        as (s' & Hrun & Hfr & Hf' & Hr & Hc).
      * apply (fields_frame (py_heap s)); [done|].
        intros l' Hl'. apply Hfr2. lia.
      * rewrite Hfr2 by lia. by rewrite <- app_assoc.
      * by rewrite <- app_assoc.
      * done.
      * exists s'. split; [exact Hrun|]. split.
        { intros l' Hout. rewrite Hfr by lia. apply Hfr2. lia. }
        split; [|split; congruence].
        cbn [map fst snd]. apply fields_cons with mid'; [|done].
        apply (tree_frame (py_heap s2)); [done|].
        intros l' Hl'. apply Hfr. lia.
    + assert (Hsc : json_of_scalar x = Some j).
      { inversion Ht; subst; [done|discriminate|discriminate]. }
      destruct (IH kvs0 mid' s (pre ++ [(k, x)]))
        as (s' & Hrun & Hfr & Hf' & Hr & Hc).
      * done.
      * by rewrite <- app_assoc.
      * by rewrite <- app_assoc.
      * done.
      * exists s'. split; [exact Hrun|]. split.
        { intros l' Hout. apply Hfr. lia. }
        split; [|done].
        cbn [map fst snd]. apply fields_cons with mid'; [|done].
        rewrite (json_deep_update_scalar _ _ _ _ Hsc).
        by apply tree_scalar.
Qed.

Lemma deep_elements (f : nat) (l : loc) :
  deep_ok key v jv f ->
  forall (elems : list value) (js : list json) (mid : nat) (s : pystate),
    elements (py_heap s) mid l elems js ->
    (forall j, In j js -> (depth j <= f)%nat) ->
    exists s' : pystate,
      for_each elems (fun item => deep_update f item key v) s
      = (Ok tt, s') /\
      (forall l', ~ (mid <= l' < l)%nat ->
                  py_heap s' !! l' = py_heap s !! l') /\
      elements (py_heap s') mid l elems (map (json_deep_update key jv) js) /\
      rand_pos s' = rand_pos s /\ clock_pos s' = clock_pos s.
Proof.
  intros IHf. induction elems as [|x elems IH]; intros js mid s He Hdepth.
  - inversion He; subst. exists s. cbn [map for_each].
    repeat split; try done; by apply elements_nil.
  - inversion He as [|? mid' ? ? j ? js0 Ht Hrest]; subst.
    pose proof (tree_bounds _ _ _ _ _ Ht) as Hb1.
    pose proof (elements_bounds _ _ _ _ _ Hrest) as Hb2.
    destruct (IHf s mid mid' x j Ht) as (s1 & Hw & Hfr1 & Ht1 & Hr1 & Hc1).
    { apply Hdepth. by left. }
    destruct (IH js0 mid' s1) as (s' & Hrun & Hfr & He' & Hr & Hc).
    { apply (elements_frame (py_heap s)); [done|].
      intros l' Hl'. apply Hfr1. lia. }
    { intros j0 Hin. apply Hdepth. by right. }
    exists s'. cbn [for_each]. unfold bind at 1. rewrite Hw.
    split; [exact Hrun|]. split.
    { intros l' Hout. rewrite Hfr by lia. apply Hfr1. lia. }
    split; [|split; congruence].
    cbn [map]. apply elements_cons with mid'; [|done].
    apply (tree_frame (py_heap s1)); [done|].
    intros l' Hl'. apply Hfr. lia.
Qed.

Lemma deep_tree (fuel : nat) : deep_ok key v jv fuel.
Proof.
  induction fuel as [|f IHf]; intros s lo hi obj j Ht Hdepth.
  - pose proof (depth_pos j). lia.
  - inversion Ht as [? ? ? ? Hsc Hb|? ? l items kvs Hlt Hl Hnd Hf
                     |? ? l elems js Hlt Hl He]; subst.
    + exists s. split; [by destruct obj|]. split; [done|].
      split; [|done]. by rewrite (json_deep_update_scalar _ _ _ _ Hsc).
    + pose proof (fields_bounds _ _ _ _ _ Hf) as Hb.
      pose proof (lookup_lt_Some _ _ _ Hl) as Hlen.
      set (items1 := map (replace_field key v) items).
      assert (Hpre : exists s1 : pystate,
                (if dict_has items key then setitem l key v else ret tt) s
                = (Ok tt, s1) /\
                py_heap s1 = <[l := ODict items1]> (py_heap s) /\
                rand_pos s1 = rand_pos s /\ clock_pos s1 = clock_pos s).
      { destruct (dict_has items key) eqn:Hhas.
        - rewrite (setitem_ok _ _ _ _ _ Hl). eexists. split; [reflexivity|].
          cbn [with_heap py_heap rand_pos clock_pos].
          by rewrite (dict_set_replace _ Hnd Hhas).
        - exists s. split; [done|]. split; [|done]. unfold items1.
          rewrite (replace_field_absent _ _ (dict_has_absent _ Hhas)).
          by rewrite list_insert_id. }
      destruct Hpre as (s1 & Hpre & Hh1 & Hr1 & Hc1).
      destruct (deep_fields f l IHf items1 (map (replace_field key jv) kvs)
                  lo s1 [])
        as (s' & Hrun & Hfr & Hf' & Hr & Hc).
      * apply (fields_frame (py_heap s)); [by apply fields_replace|].
        intros l' Hl'. rewrite Hh1. apply list_lookup_insert_ne. lia.
      * rewrite Hh1. by apply list_lookup_insert_eq.
      * cbn [app]. unfold items1. by rewrite replace_field_keys.
      * intros kv Hin. apply List.in_map_iff in Hin as ([k0 j0] & <- & Hin).
        assert (Hd0 : (depth j0 <= f)%nat).
        { cbn [depth] in Hdepth.
          apply (list_max_le_each (map (fun kv => depth kv.2) kvs)); [lia|].
          apply List.in_map_iff. by exists (k0, j0). }
        unfold replace_field. cbn [fst].
        destruct (String.eqb k0 key); cbn [snd]; [|done].
        rewrite (depth_scalar _ _ Hv). pose proof (depth_pos j0). lia.
      * unfold items1 in Hrun. rewrite replace_field_keys in Hrun.
        exists s'. cbn [deep_update]. unfold bind at 1.
        rewrite (deref_ok _ _ _ Hl). unfold bind at 1. rewrite Hpre.
        split; [exact Hrun|]. split.
        { intros l' Hout. rewrite Hfr by lia. rewrite Hh1.
          apply list_lookup_insert_ne. lia. }
        split; [|split; congruence].
        cbn [json_deep_update]. apply tree_dict with items1; [done| | |].
        -- rewrite Hfr by lia. rewrite Hh1. by apply list_lookup_insert_eq.
        -- unfold items1. by rewrite replace_field_keys.
        -- rewrite map_map in Hf'.
           erewrite map_ext; [exact Hf'|].
           intros [k0 j0]. unfold replace_field. cbn [fst snd].
           destruct (String.eqb k0 key); cbn [fst snd]; [|done].
           by rewrite (json_deep_update_scalar _ _ _ _ Hv).
    + pose proof (elements_bounds _ _ _ _ _ He) as Hb.
      destruct (deep_elements f l IHf elems js lo s He)
        as (s' & Hrun & Hfr & He' & Hr & Hc).
      { intros j0 Hin. cbn [depth] in Hdepth.
        apply (list_max_le_each (map depth js)); [lia|].
        by apply List.in_map. }
      exists s'. cbn [deep_update]. unfold bind at 1.
      rewrite (deref_ok _ _ _ Hl).
      split; [exact Hrun|]. split.
      { intros l' Hout. apply Hfr; lia. }
      split; [|done].
      cbn [json_deep_update]. apply tree_list with elems; [done| |done].
      rewrite Hfr by lia. done.
Qed.

Lemma json_deep_update_depth (j : json) :
  (depth (json_deep_update key jv j) <= depth j)%nat.
Proof.
  induction j as [|b|n|q|str|js IH|kvs IH] using json_ind'; try done.
  - cbn [json_deep_update depth]. apply le_n_S.
    apply list_max_Forall2_le.
    induction IH as [|j js Hj _ IHjs]; constructor; done.
  - cbn [json_deep_update depth]. apply le_n_S.
    apply (list_max_Forall2_le (fun kv : string * json => depth kv.2)).
    induction IH as [|[k j] kvs Hj _ IHkvs]; constructor; [|done].
    cbn [fst snd] in *. destruct (String.eqb k key); cbn [snd]; [|done].
    rewrite (depth_scalar _ _ Hv). apply depth_pos.
Qed.

End DeepUpdate.

Section OverrideProperties.

Variable env : environment.

(** X18. [deep_update] with an immutable value, on a loaded document nested
    within the recursion limit, ends and leaves the document in which every
    field named [key], at any depth, holds the value (whatever was nested
    under such a field is dropped) and no field is added; the objects that
    were in the store before the document was loaded are untouched, and
    neither the clock nor the [random] module is used. *)
Theorem deep_update_rewrites (fuel : nat) (j : json) (s : pystate)
    (key : string) (v : value) (jv : json) :
  wf_json j = true ->
  (depth j <= fuel)%nat ->
  json_of_scalar v = Some jv ->
  exists (obj : value) (s1 s2 : pystate),
    json_load j s = (Ok obj, s1) /\
    deep_update fuel obj key v s1 = (Ok tt, s2) /\
    reify fuel (py_heap s2) obj = Some (json_deep_update key jv j) /\
    (forall l, (l < List.length (py_heap s))%nat ->
               py_heap s2 !! l = py_heap s !! l) /\
    rand_pos s2 = rand_pos s /\ clock_pos s2 = clock_pos s.
Proof.
  intros Hwf Hd Hv.
  destruct (json_load_tree j Hwf s)
    as (obj & s1 & Hload & [added Hadd] & Hr1 & Hc1 & Ht).
  destruct (deep_tree key v jv Hv fuel s1 _ _ obj j Ht Hd)
    as (s2 & Hrun & Hfr & Ht2 & Hr2 & Hc2).
  exists obj, s1, s2. split; [done|]. split; [done|]. split.
  { apply (reify_tree _ _ _ _ _ Ht2).
    pose proof (json_deep_update_depth key v jv Hv j). lia. }
  split; [|split; congruence].
  intros l Hl. rewrite Hfr by lia. rewrite Hadd. by apply lookup_app_l.
Qed.

Lemma customize_response_kwargs (response : value)
    (kwargs : list (string * value)) (s : pystate) :
  customize_response env response kwargs s
  = match customize_response env response [] s with
    | (Ok _, s') =>
        (for_each kwargs (fun kv =>
           deep_update (recursion_limit env) response kv.1 kv.2) ;;;
         ret response) s'
    | (Raise e, s') => (Raise e, s')
    end.
Proof.
  unfold customize_response, bind.
  destruct (utcnow_isoformat env s) as [[iso|e] s0]; [|done].
  destruct (update_timestamps _ _ _ s0) as [[[]|e] s1]; [|done].
  destruct (update_request_id _ _ _ s1) as [[[]|e] s2]; [|done].
  reflexivity.
Qed.

Lemma overrides_tree (fuel : nat) (kwargs : list (string * value)) :
  Forall (fun kv : string * value => is_container kv.2 = false) kwargs ->
  forall (s : pystate) (lo hi : nat) (obj : value) (j : json),
    tree (py_heap s) lo hi obj j ->
    (depth j <= fuel)%nat ->
    exists s' : pystate,
      for_each kwargs (fun kv => deep_update fuel obj kv.1 kv.2) s
      = (Ok tt, s') /\
      tree (py_heap s') lo hi obj (apply_overrides kwargs j).
Proof.
  induction 1 as [|[k x] kwargs Hx _ IH]; intros s lo hi obj j Ht Hd.
  - by exists s.
  - cbn [snd] in Hx.
    assert (Hsc : json_of_scalar x = Some (json_of_value x))
      by (by destruct x).
    destruct (deep_tree k x _ Hsc fuel s lo hi obj j Ht Hd)
      as (s1 & Hrun & _ & Ht1 & _ & _).
    destruct (IH s1 lo hi obj _ Ht1) as (s' & Hrest & Ht').
    { pose proof (json_deep_update_depth k x _ Hsc j). lia. }
    exists s'. cbn [for_each fst snd]. unfold bind at 1. rewrite Hrun.
    split; [exact Hrest|exact Ht'].
Qed.

Lemma apply_overrides_depth (kwargs : list (string * value)) :
  Forall (fun kv : string * value => is_container kv.2 = false) kwargs ->
  forall j : json, (depth (apply_overrides kwargs j) <= depth j)%nat.
Proof.
  induction 1 as [|[k x] kwargs Hx _ IH]; intros j; [done|].
  cbn [snd] in Hx.
  assert (Hsc : json_of_scalar x = Some (json_of_value x)) by (by destruct x).
  unfold apply_overrides. cbn [fold_left fst snd].
  pose proof (json_deep_update_depth k x _ Hsc j).
  pose proof (IH (json_deep_update k (json_of_value x) j)) as Hrest.
  unfold apply_overrides in Hrest. lia.
Qed.

(** X19. [get_response] with keyword arguments whose values are immutable,
    on a fixture laid out as a tree in the store: the answer is the
    customized copy of the fixture with the overrides applied after the
    customization, in the order of the arguments and at every depth. An
    override named like a timestamp field or [request_id] therefore
    replaces the fresh value. The arguments are ones Python accepts: no
    name twice, none named like a parameter of the two methods. *)
Theorem get_response_applies_overrides
    (responses : list (string * list (string * value)))
    (provider scenario : string) (scenarios : list (string * value))
    (template : value) (kwargs : list (string * value)) (s : pystate)
    (lo hi : nat) (j : json) :
  assoc provider responses = Some scenarios ->
  assoc scenario scenarios = Some template ->
  tree (py_heap s) lo hi template j ->
  is_container template = true ->
  (depth j <= recursion_limit env)%nat ->
  valid_kwargs kwargs = true ->
  exists (data : value) (s' : pystate) (j1 : json),
    get_response env responses provider scenario kwargs s = (Ok data, s') /\
    customized (utc_iso env (clock_pos s) +:+ "+00:00") j j1 /\
    reify (recursion_limit env) (py_heap s') data
    = Some (apply_overrides kwargs j1).
Proof.
  intros Hp Hs Ht Hc Hd Hvalid.
  assert (Hkw : Forall (fun kv : string * value => is_container kv.2 = false)
                       kwargs).
  { unfold valid_kwargs in Hvalid. apply andb_prop in Hvalid as [_ Hall].
    apply List.Forall_forall. intros kv Hin.
    apply (proj1 (forallb_forall _ _) Hall) in Hin.
    apply andb_prop in Hin as [_ Hin]. by apply negb_true_iff in Hin. }
  destruct (copy_tree s lo hi template j Ht Hc) as (o & Hcopy & Ht').
  set (s1 := with_heap s (py_heap s ++ [o])) in *.
  destruct (customize_response_tree env s1 _ _ _ j Ht' Hd)
    as (s2 & j1 & Hrun & _ & Ht2 & Hd2 & Hcust).
  destruct (overrides_tree (recursion_limit env) kwargs Hkw s2 _ _ _ j1 Ht2)
    as (s3 & Hover & Ht3); [lia|].
  exists (VRef (List.length (py_heap s))), s3, j1. split.
  { unfold get_response. rewrite Hp, Hs. unfold bind at 1. rewrite Hcopy.
    rewrite customize_response_kwargs, Hrun. unfold bind. by rewrite Hover. }
  split; [exact Hcust|].
  apply (reify_tree _ _ _ _ _ Ht3).
  pose proof (apply_overrides_depth kwargs Hkw j1). lia.
Qed.

End OverrideProperties.

Lemma deep_update_rewrites_witness :
  wf_json sample_fixture = true /\
  (depth sample_fixture <= 64)%nat /\
  json_of_scalar (VStr "override") = Some (JStr "override") /\
  exists (obj : value) (s1 s2 : pystate),
    json_load sample_fixture (py sample_world) = (Ok obj, s1) /\
    deep_update 64 obj "request_id" (VStr "override") s1 = (Ok tt, s2) /\
    reify 64 (py_heap s2) obj
    = Some (json_deep_update "request_id" (JStr "override") sample_fixture) /\
    (forall l, (l < List.length (py_heap (py sample_world)))%nat ->
               py_heap s2 !! l = py_heap (py sample_world) !! l) /\
    rand_pos s2 = rand_pos (py sample_world) /\
    clock_pos s2 = clock_pos (py sample_world).
Proof.
  assert (H1 : wf_json sample_fixture = true) by (vm_compute; reflexivity).
  assert (H2 : (depth sample_fixture <= 64)%nat) by (vm_compute; lia).
  assert (H3 : json_of_scalar (VStr "override") = Some (JStr "override"))
    by reflexivity.
  split; [exact H1|]. split; [exact H2|]. split; [exact H3|].
  exact (deep_update_rewrites 64 sample_fixture (py sample_world)
           "request_id" (VStr "override") (JStr "override") H1 H2 H3).
Defined.

Lemma get_response_applies_overrides_witness :
  let scenarios := [("success-create-server", VRef 3%nat);
                    ("rate-limit-exceeded", VRef 6%nat)] in
  let kwargs := [("code", VStr "custom"); ("timestamp", VNone)] in
  let j := JObj [("error",
                  JObj [("code", JStr "rate_limit_exceeded");
                        ("message", JStr "Rate limit exceeded")]);
                 ("meta",
                  JObj [("request_id", JStr "req_000002");
                        ("timestamp",
                         JStr "2023-01-01T00:00:00+00:00")])] in
  assoc "hetzner" sample_store = Some scenarios /\
  assoc "rate-limit-exceeded" scenarios = Some (VRef 6%nat) /\
  tree (py_heap (py sample_world)) 4 7 (VRef 6%nat) j /\
  is_container (VRef 6%nat) = true /\
  (depth j <= recursion_limit steady_env)%nat /\
  valid_kwargs kwargs = true /\
  exists (data : value) (s' : pystate) (j1 : json),
    get_response steady_env sample_store "hetzner" "rate-limit-exceeded"
      kwargs (py sample_world) = (Ok data, s') /\
    customized (utc_iso steady_env (clock_pos (py sample_world)) +:+ "+00:00")
               j j1 /\
    reify (recursion_limit steady_env) (py_heap s') data
    = Some (apply_overrides kwargs j1).
Proof.
  intros scenarios kwargs j.
  assert (H1 : assoc "hetzner" sample_store = Some scenarios)
    by (vm_compute; reflexivity).
  assert (H2 : assoc "rate-limit-exceeded" scenarios = Some (VRef 6%nat))
    by reflexivity.
  assert (H4 : is_container (VRef 6%nat) = true) by reflexivity.
  assert (H5 : (depth j <= recursion_limit steady_env)%nat)
    by (vm_compute; lia).
  assert (H6 : valid_kwargs kwargs = true) by (vm_compute; reflexivity).
  split; [exact H1|]. split; [exact H2|].
  split; [exact sample_rate_limit_fixture_tree|].
  split; [exact H4|]. split; [exact H5|]. split; [exact H6|].
  exact (get_response_applies_overrides steady_env sample_store "hetzner"
           "rate-limit-exceeded" scenarios (VRef 6%nat) kwargs
           (py sample_world) 4%nat 7%nat j
           H1 H2 sample_rate_limit_fixture_tree H4 H5 H6).
Defined.
